(** * RePro-Agent: knowledge-graph builder and hypothesis generator

    A shallow embedding of the two plugins that form the core of the
    repository,

    - [src/knowledge-graph-builder/main.py] (class [KnowledgeGraphBuilder]) and
    - [src/hypothesis-generator/main.py]    (class [HypothesisGenerator]),

    together with the properties their specification states about them.

    Conventions of the embedding.
    - A Python [str] is a [string]: the sequence of the bytes of its UTF-8
      encoding.  The only character the code inspects is the ASCII space, whose
      byte never occurs inside a multi-byte sequence.  A [str] that holds a
      lone surrogate has no UTF-8 encoding ([urllib.parse.quote] raises
      [UnicodeEncodeError] on it) and is no value of the embedding: what is
      stated of a call that mints identifiers from the strings of a record
      is stated of a call that returned.
    - A Python float is an exact rational [Qc].  The rounding of [sum] and of
      a division is not modelled, so nothing is stated of the value of a sum
      or of a mean, nor of a comparison that rounding could decide.
    - The rdflib [Graph] is a finite set of triples ([gset]); iterating over
      it enumerates [elements], an order the library leaves unspecified.
    - A method that mutates [self.graph] and may raise is a function from the
      store to the new store and an outcome. *)

From Stdlib Require Import ZArith QArith Qcanon Lia Ascii PrimFloat.
From stdpp Require Import base numbers gmap sets list strings sorting.


(** ** Python outcomes *)

Module Py.

(** The exception classes that occur on the modelled paths.  The last two
    derive from [BaseException] only, so [except Exception] lets them
    through. *)
Inductive exn : Type :=
| KeyError (key : string)
| AttributeError (attr : string)
| TypeError
| ValueError
| ImportError
| RuntimeError (msg : string)
| KeyboardInterrupt
| SystemExit.

Definition is_Exception (e : exn) : bool :=
  match e with
  | KeyboardInterrupt | SystemExit => false
  | _ => true
  end.

Inductive result (A : Type) : Type :=
| Ok (a : A)
| Raise (e : exn).
Global Arguments Ok {A} a.
Global Arguments Raise {A} e.

Definition returns {A} (r : result A) : Prop := ∃ a, r = Ok a.

(** Python truthiness of an optional string ([None] and [""] are falsy). *)
Definition truthy (o : option string) : bool :=
  match o with
  | Some (String _ _) => true
  | _ => false
  end.

End Py.
Import Py.

(** ** [urllib.parse.quote] and [create_uri] *)

Module Uri.

(** [_ALWAYS_SAFE] of [urllib.parse]: letters, digits and [_.-~]. *)
Definition always_safe (c : ascii) : bool :=
  let n := nat_of_ascii c in
  ((65 <=? n) && (n <=? 90)) || ((97 <=? n) && (n <=? 122))
  || ((48 <=? n) && (n <=? 57))
  || (n =? 95) || (n =? 46) || (n =? 45) || (n =? 126).

Definition hex_digit (n : nat) : ascii :=
  if n <? 10 then ascii_of_nat (48 + n) else ascii_of_nat (55 + n).

(** One byte of [quote_from_bytes]: kept when safe, else [%XX]. *)
Definition quote_byte (c : ascii) : string :=
  if always_safe c then String c ""
  else
    let n := nat_of_ascii c in
    String "%" (String (hex_digit (n / 16)) (String (hex_digit (n mod 16)) "")).

(** [quote(s, safe="")]. *)
Fixpoint quote (s : string) : string :=
  match s with
  | "" => ""
  | String c s' => quote_byte c +:+ quote s'
  end.

(** [s.replace(" ", "_")]. *)
Fixpoint replace_space (s : string) : string :=
  match s with
  | "" => ""
  | String c s' =>
      String (if Ascii.eqb c " " then "_"%char else c) (replace_space s')
  end.

(** [KnowledgeGraphBuilder.create_uri]; the result is the text of the
    [URIRef]. *)
Definition create_uri (base identifier : string) : string :=
  base +:+ quote (replace_space identifier).

(** A decoder for [quote], used to show that it loses nothing. *)
Definition hex_value (c : ascii) : nat :=
  let n := nat_of_ascii c in
  if n <? 58 then n - 48 else n - 55.

Fixpoint unquote (s : string) : string :=
  match s with
  | "" => ""
  | String c r =>
      if Ascii.eqb c "%" then
        match r with
        | String h (String l r') =>
            String (ascii_of_nat (16 * hex_value h + hex_value l)) (unquote r')
        | _ => String c r
        end
      else String c (unquote r)
  end.

Fixpoint spaces (n : nat) : string :=
  match n with
  | O => ""
  | S n' => String " " (spaces n')
  end.

End Uri.
Import Uri.

(** ** The statement store (rdflib's [Graph]) *)

Module Rdf.

Inductive term : Type :=
| URIRef (iri : string)
| Literal (lexical : string) (datatype : option string)
| BNode (label : string).

Global Instance term_eq_dec : EqDecision term.
Proof. solve_decision. Defined.

Global Instance term_countable : Countable term.
Proof.
  refine (inj_countable'
    (λ t, match t with
          | URIRef s => inl s
          | Literal s d => inr (inl (s, d))
          | BNode s => inr (inr s)
          end)
    (λ x, match x with
          | inl s => URIRef s
          | inr (inl (s, d)) => Literal s d
          | inr (inr s) => BNode s
          end) _).
  by intros [].
Defined.

Definition triple : Type := term * term * term.

(** [str(node)]. *)
Definition str (t : term) : string :=
  match t with
  | URIRef s => s
  | Literal s _ => s
  | BNode s => s
  end.

(** [isinstance(node, URIRef)]. *)
Definition is_URIRef (t : term) : bool :=
  match t with
  | URIRef _ => true
  | _ => false
  end.

(** [graph.add(t)], [len(graph)] and [for s, p, o in graph]. *)
Definition graph_add (t : triple) (g : gset triple) : gset triple := {[ t ]} ∪ g.
Definition len (g : gset triple) : nat := size g.
Definition triples (g : gset triple) : list triple := elements g.

(** [graph.subjects(p, o)] and [graph.objects(s, p)]. *)
Definition subjects (g : gset triple) (p o : term) : list term :=
  omap (λ t : triple, if decide (t.1.2 = p ∧ t.2 = o) then Some t.1.1 else None)
       (triples g).
Definition objects (g : gset triple) (s p : term) : list term :=
  omap (λ t : triple, if decide (t.1.1 = s ∧ t.1.2 = p) then Some t.2 else None)
       (triples g).

(** Namespaces and the terms of them the code uses. *)
Definition SCHEMA (n : string) : term := URIRef ("https://schema.org/" +:+ n).
Definition REPRO (n : string) : term := URIRef ("https://reproducibility.org/" +:+ n).
Definition SCIENTIFIC (n : string) : term := URIRef ("https://scientific.org/" +:+ n).
Definition DCTERMS (n : string) : term := URIRef ("http://purl.org/dc/terms/" +:+ n).
Definition FOAF (n : string) : term := URIRef ("http://xmlns.com/foaf/0.1/" +:+ n).
Definition RDFS (n : string) : term :=
  URIRef ("http://www.w3.org/2000/01/rdf-schema#" +:+ n).
Definition XSD (n : string) : string := "http://www.w3.org/2001/XMLSchema#" +:+ n.
Definition RDF_type : term :=
  URIRef "http://www.w3.org/1999/02/22-rdf-syntax-ns#type".

End Rdf.
Import Rdf.

(** ** [KnowledgeGraphBuilder] *)

Module Builder.

(** A method of the builder: it updates [self.graph] and returns or raises.
    The store is kept on both outcomes, since statements added before an
    exception stay in the graph. *)
Definition M (A : Type) : Type := gset triple → gset triple * result A.

Definition ret {A} (a : A) : M A := λ g, (g, Ok a).
Definition raise {A} (e : exn) : M A := λ g, (g, Raise e).
Definition bind {A B} (m : M A) (k : A → M B) : M B :=
  λ g, match m g with
       | (g', Ok a) => k a g'
       | (g', Raise e) => (g', Raise e)
       end.
Definition add (t : triple) : M unit := λ g, (graph_add t g, Ok tt).

Global Instance M_ret : MRet M := @ret.
Global Instance M_bind : MBind M := λ A B k m, bind m k.

(** [for x in xs: body(x)]. *)
Fixpoint for_each {A} (xs : list A) (body : A → M unit) : M unit :=
  match xs with
  | [] => ret tt
  | x :: xs' => body x ;; for_each xs' body
  end.

(** [if d.get(k): body(d[k])] for a string field and for a list field. *)
Definition if_truthy (o : option string) (body : string → M unit) : M unit :=
  match o with
  | Some (String c s) => body (String c s)
  | _ => ret tt
  end.
Definition if_nonempty {A} (o : option (list A)) (body : list A → M unit) : M unit :=
  match o with
  | Some (x :: xs) => body (x :: xs)
  | _ => ret tt
  end.

(** The metadata record: a dict, each key of which may be absent. *)
Inductive author_data : Type :=
| AuthorStr (name : string)
| AuthorDict (name affiliation : option string).

Inductive resource_data : Type :=
| ResourceStr (name : string)
| ResourceDict (name url : option string).

Record metadata : Type := Metadata {
  title : option string;
  abstract : option string;
  doi : option string;
  url : option string;
  datePublished : option string;
  author : option (list author_data);
  keywords : option (list string);
  methodology : option string;
  tools : option (list resource_data);
  datasets : option (list resource_data);
  results : option string;
  conclusions : option string
}.

(** [metadata['title']]. *)
Definition getitem_title (md : metadata) : M string :=
  match title md with
  | Some t => ret t
  | None => raise (KeyError "title")
  end.

Definition add_author (a : author_data) : M term :=
  let '(author_name, author_affiliation) :=
    match a with
    | AuthorStr s => (s, None)
    | AuthorDict n aff => (default "Unknown Author" n, aff)
    end in
  let author_uri := URIRef (create_uri "https://authors.org/" author_name) in
  add (author_uri, RDF_type, SCHEMA "Person") ;;
  add (author_uri, FOAF "name", Literal author_name None) ;;
  add (author_uri, SCHEMA "name", Literal author_name None) ;;
  if_truthy author_affiliation (λ aff,
    let affiliation_uri := URIRef (create_uri "https://organizations.org/" aff) in
    add (affiliation_uri, RDF_type, SCHEMA "Organization") ;;
    add (affiliation_uri, SCHEMA "name", Literal aff None) ;;
    add (author_uri, SCHEMA "affiliation", affiliation_uri)) ;;
  ret author_uri.

Definition add_tool (d : resource_data) : M term :=
  let '(tool_name, tool_url) :=
    match d with
    | ResourceStr s => (s, None)
    | ResourceDict n u => (default "Unknown Tool" n, u)
    end in
  let tool_uri := URIRef (create_uri "https://tools.org/" tool_name) in
  add (tool_uri, RDF_type, SCIENTIFIC "SoftwareTool") ;;
  add (tool_uri, SCHEMA "name", Literal tool_name None) ;;
  if_truthy tool_url (λ u, add (tool_uri, SCHEMA "url", URIRef u)) ;;
  ret tool_uri.

Definition add_dataset (d : resource_data) : M term :=
  let '(dataset_name, dataset_url) :=
    match d with
    | ResourceStr s => (s, None)
    | ResourceDict n u => (default "Unknown Dataset" n, u)
    end in
  let dataset_uri := URIRef (create_uri "https://datasets.org/" dataset_name) in
  add (dataset_uri, RDF_type, SCHEMA "Dataset") ;;
  add (dataset_uri, SCHEMA "name", Literal dataset_name None) ;;
  if_truthy dataset_url (λ u, add (dataset_uri, SCHEMA "url", URIRef u)) ;;
  ret dataset_uri.

(** [add_paper_metadata].  [uuid4] is the text of the [uuid.uuid4()] that the
    call draws; Python evaluates it whether or not the title is present. *)
Definition add_paper_metadata (uuid4 : string) (md : metadata) : M term :=
  let paper_uri :=
    if truthy (doi md) then URIRef ("https://doi.org/" +:+ default "" (doi md))
    else if truthy (url md) then URIRef (default "" (url md))
    else URIRef (create_uri "https://papers.org/" (default uuid4 (title md))) in
  add (paper_uri, RDF_type, SCHEMA "ScholarlyArticle") ;;
  if_truthy (title md) (λ t,
    add (paper_uri, SCHEMA "name", Literal t None) ;;
    add (paper_uri, DCTERMS "title", Literal t None)) ;;
  if_truthy (abstract md) (λ a,
    add (paper_uri, SCHEMA "abstract", Literal a None)) ;;
  if_truthy (datePublished md) (λ d,
    add (paper_uri, SCHEMA "datePublished", Literal d (Some (XSD "date")))) ;;
  if_truthy (doi md) (λ d,
    add (paper_uri, SCHEMA "identifier", Literal d None)) ;;
  if_truthy (url md) (λ u,
    add (paper_uri, SCHEMA "url", URIRef u)) ;;
  if_nonempty (author md) (λ authors,
    for_each authors (λ author_data,
      author_uri ← add_author author_data;
      add (paper_uri, SCHEMA "author", author_uri))) ;;
  if_nonempty (keywords md) (λ kws,
    for_each kws (λ keyword,
      let keyword_uri := URIRef (create_uri "https://keywords.org/" keyword) in
      add (keyword_uri, RDF_type, SCHEMA "DefinedTerm") ;;
      add (keyword_uri, SCHEMA "name", Literal keyword None) ;;
      add (paper_uri, SCHEMA "keywords", keyword_uri))) ;;
  if_truthy (methodology md) (λ m,
    t ← getitem_title md;
    let method_uri := URIRef (create_uri "https://methods.org/" (t +:+ "_method")) in
    add (method_uri, RDF_type, SCIENTIFIC "Methodology") ;;
    add (method_uri, SCHEMA "description", Literal m None) ;;
    add (paper_uri, SCIENTIFIC "usesMethodology", method_uri)) ;;
  if_nonempty (tools md) (λ ts,
    for_each ts (λ tool,
      tool_uri ← add_tool tool;
      add (paper_uri, SCIENTIFIC "usesTool", tool_uri))) ;;
  if_nonempty (datasets md) (λ ds,
    for_each ds (λ dataset,
      dataset_uri ← add_dataset dataset;
      add (paper_uri, SCIENTIFIC "usesDataset", dataset_uri))) ;;
  if_truthy (results md) (λ r,
    t ← getitem_title md;
    let result_uri := URIRef (create_uri "https://results.org/" (t +:+ "_results")) in
    add (result_uri, RDF_type, SCIENTIFIC "Results") ;;
    add (result_uri, SCHEMA "description", Literal r None) ;;
    add (paper_uri, SCIENTIFIC "hasResults", result_uri)) ;;
  if_truthy (conclusions md) (λ c,
    t ← getitem_title md;
    let conclusion_uri :=
      URIRef (create_uri "https://conclusions.org/" (t +:+ "_conclusions")) in
    add (conclusion_uri, RDF_type, SCIENTIFIC "Conclusions") ;;
    add (conclusion_uri, SCHEMA "description", Literal c None) ;;
    add (paper_uri, SCIENTIFIC "hasConclusions", conclusion_uri)) ;;
  ret paper_uri.

(** [get_statistics].  Its keys ["tools"] and ["datasets"] get a suffix
    here, the metadata record has fields of these names. *)
Record statistics : Type := Statistics {
  total_triples : nat;
  papers : nat;
  authors : nat;
  tools_count : nat;
  datasets_count : nat;
  assessments : nat
}.

Definition get_statistics (g : gset triple) : statistics :=
  {| total_triples := len g;
     papers := length (subjects g RDF_type (SCHEMA "ScholarlyArticle"));
     authors := length (subjects g RDF_type (SCHEMA "Person"));
     tools_count := length (subjects g RDF_type (SCIENTIFIC "SoftwareTool"));
     datasets_count := length (subjects g RDF_type (SCHEMA "Dataset"));
     assessments :=
       length (subjects g RDF_type (REPRO "ReproducibilityAssessment")) |}.

(** Three properties of a method, used to state what ingestion does: it
    only adds statements, the same ones from whatever store it starts
    ([framed]); it returns ([total]); it raises a given exception
    ([raises]). *)
Definition framed {A} (m : M A) : Prop := ∀ g, m g = ((m ∅).1 ∪ g, (m ∅).2).
Definition total {A} (m : M A) : Prop := ∀ g, returns (m g).2.
Definition raises {A} (m : M A) (e : exn) : Prop := ∀ g, (m g).2 = Raise e.

(** The record names its paper: it has a title, or a DOI or a URL that
    Python takes as true. *)
Definition identified (md : metadata) : Prop :=
  is_Some (title md) ∨ truthy (doi md) = true ∨ truthy (url md) = true.

End Builder.
Import Builder.

(** ** [HypothesisGenerator]: analysis and opportunity mining *)

Module Generator.

Local Open Scope Qc_scope.

(** The two mapping classes of [collections] the code is concerned with.
    Both keep their items in insertion order; only [Counter] has a
    [most_common] method. *)
Inductive mapping_class : Type := DefaultDict | Counter.

Record counts : Type := Counts {
  class_of : mapping_class;
  items : list (string * nat)
}.

(** [defaultdict(int)]. *)
Definition defaultdict_int : counts := Counts DefaultDict [].

(** [d[k] += 1]. *)
Fixpoint incr_items (k : string) (l : list (string * nat)) : list (string * nat) :=
  match l with
  | [] => [(k, 1%nat)]
  | (k', n) :: l' =>
      if decide (k' = k) then (k', S n) :: l' else (k', n) :: incr_items k l'
  end.
Definition incr (k : string) (c : counts) : counts :=
  Counts (class_of c) (incr_items k (items c)).

Definition keys (c : counts) : list string := (items c).*1.

(** [sorted(l, key=key, reverse=True)]: stable, largest key first. *)
Fixpoint insert_desc {A K} (gt : K → K → bool) (key : A → K) (x : A) (l : list A)
  : list A :=
  match l with
  | [] => [x]
  | y :: l' => if gt (key y) (key x) then y :: insert_desc gt key x l' else x :: l
  end.
Definition sorted_desc {A K} (gt : K → K → bool) (key : A → K) (l : list A) : list A :=
  foldr (insert_desc gt key) [] l.

(** [c.most_common(n)]: an attribute error on a mapping that is no
    [Counter]. *)
Definition most_common (c : counts) (n : nat) : result (list (string * nat)) :=
  match class_of c with
  | DefaultDict => Raise (AttributeError "most_common")
  | Counter => Ok (take n (sorted_desc (λ a b : nat, bool_decide (b < a)%nat) snd (items c)))
  end.

(** The undirected [networkx.Graph]: nodes in insertion order, each with
    its set of neighbours. *)
Definition nx_graph : Type := list (string * list string).

Definition nx_add_node (u : string) (G : nx_graph) : nx_graph :=
  if bool_decide (u ∈ G.*1) then G else G ++ [(u, [])].
Definition nx_add_nbr (u v : string) (G : nx_graph) : nx_graph :=
  (λ '(n, nbrs), if decide (n = u)
                 then (n, if bool_decide (v ∈ nbrs) then nbrs else nbrs ++ [v])
                 else (n, nbrs)) <$> G.
Definition nx_add_edge (u v : string) (G : nx_graph) : nx_graph :=
  nx_add_nbr v u (nx_add_nbr u v (nx_add_node v (nx_add_node u G))).

(** A self-loop counts twice in the degree. *)
Definition nx_degree (G : nx_graph) : list (string * nat) :=
  (λ '(n, nbrs), (n, length nbrs + (if bool_decide (n ∈ nbrs) then 1 else 0))%nat) <$> G.

Definition Qc_of_nat (n : nat) : Qc := Qc_of_Z (Z.of_nat n).

Definition degree_centrality (G : nx_graph) : list (string * Qc) :=
  if bool_decide (length G ≤ 1)%nat then (λ '(n, _), (n, 1)) <$> G
  else
    let s := 1 / (Qc_of_nat (length G) - 1) in
    (λ '(n, d), (n, Qc_of_nat d * s)) <$> nx_degree G.

Record analysis : Type := Analysis {
  entity_counts : counts;
  relationship_counts : counts;
  tool_usage : counts;
  dataset_usage : counts;
  author_collaborations : counts;
  reproducibility_scores : list Qc;
  highly_connected_entities : list (string * Qc);
  research_gaps : list string
}.

(** The generator object. *)
Record generator : Type := GeneratorObj {
  api_key : option string;
  model : string;
  graph : gset triple;
  nx : nx_graph
}.

(** [HypothesisGenerator()] with no key in the arguments or the environment:
    the default model, an empty graph. *)
Definition empty_generator : generator := GeneratorObj None "gemini-pro" ∅ [].

(** [_build_networkx_graph]. *)
Definition build_networkx_graph (g : gset triple) (G : nx_graph) : nx_graph :=
  foldl (λ G (t : triple),
           if is_URIRef t.2 then nx_add_edge (str t.1.1) (str t.2) G else G)
        G (triples g).

(** [load_knowledge_graph], given the triples that [Graph.parse] reads. *)
Definition load_knowledge_graph (parsed : gset triple) (self : generator) : generator :=
  let g := parsed ∪ graph self in
  GeneratorObj (api_key self) (model self) g (build_networkx_graph g (nx self)).

(** [_get_entity_name]. *)
Definition get_entity_name (g : gset triple) (entity_uri : term) : option string :=
  match objects g entity_uri (SCHEMA "name") with
  | name :: _ => Some (str name)
  | [] =>
      match objects g entity_uri (RDFS "label") with
      | name :: _ => Some (str name)
      | [] => None
      end
  end.

(** One usage table: the loop over the statements with predicate [pred]. *)
Definition usage_of (g : gset triple) (pred : term) : counts :=
  foldl (λ c (t : triple),
           if decide (t.1.2 = pred) then
             match get_entity_name g t.2 with
             | Some (String a s) => incr (String a s) c
             | _ => c
             end
           else c)
        defaultdict_int (triples g).

(** [analyze_graph_patterns].  [to_float] is [float(obj)], [None] where it
    raises [ValueError]. *)
Definition analyze_graph_patterns (to_float : term → option Qc) (self : generator)
  : analysis :=
  let g := graph self in
  let '(ec, rc) :=
    foldl (λ '(ec, rc) (t : triple),
             if decide (t.1.2 = RDF_type) then (incr (str t.2) ec, rc)
             else (ec, incr (str t.1.2) rc))
          (defaultdict_int, defaultdict_int) (triples g) in
  let scores :=
    foldl (λ acc (t : triple),
             if decide (t.1.2 = REPRO "reproducibilityScore") then
               match to_float t.2 with
               | Some score => acc ++ [score]
               | None => acc
               end
             else acc)
          [] (triples g) in
  let top_entities :=
    match nx self with
    | [] => []
    | _ :: _ =>
        take 10 (sorted_desc (λ a b : Qc, bool_decide (b < a)) snd
                             (degree_centrality (nx self)))
    end in
  {| entity_counts := ec;
     relationship_counts := rc;
     tool_usage := usage_of g (SCIENTIFIC "usesTool");
     dataset_usage := usage_of g (SCIENTIFIC "usesDataset");
     author_collaborations := defaultdict_int;
     reproducibility_scores := scores;
     highly_connected_entities := top_entities;
     research_gaps := [] |}.

(** An opportunity: a dict whose ["type"] key selects the payload. *)
Inductive opportunity : Type :=
| ToolCombination (description : string) (tools : string * string) (rationale : string)
| DatasetReuse (description : string) (dataset : string) (rationale : string)
| ReproducibilityImprovement (description : string) (current_avg_score : Qc)
                             (rationale : string).

Definition opp_description (o : opportunity) : string :=
  match o with
  | ToolCombination d _ _ | DatasetReuse d _ _ | ReproducibilityImprovement d _ _ => d
  end.
Definition opp_rationale (o : opportunity) : string :=
  match o with
  | ToolCombination _ _ r | DatasetReuse _ _ r | ReproducibilityImprovement _ _ r => r
  end.

(** [_count_combined_tool_usage]: the body of its loop, and the function. *)
Definition combined_usage_step (g : gset triple) (tool1 tool2 : string)
    (acc : gset term * gset term) (t : triple) : gset term * gset term :=
  let '(papers_with_tool1, papers_with_tool2) := acc in
  if decide (t.1.2 = SCIENTIFIC "usesTool") then
    let tool_name := get_entity_name g t.2 in
    if decide (tool_name = Some tool1) then
      ({[ t.1.1 ]} ∪ papers_with_tool1, papers_with_tool2)
    else if decide (tool_name = Some tool2) then
      (papers_with_tool1, {[ t.1.1 ]} ∪ papers_with_tool2)
    else acc
  else acc.

Definition count_combined_tool_usage (g : gset triple) (tool1 tool2 : string) : nat :=
  let '(papers_with_tool1, papers_with_tool2) :=
    foldl (combined_usage_step g tool1 tool2) (∅, ∅) (triples g) in
  size (papers_with_tool1 ∩ papers_with_tool2).

(** The pairs [(tool1, tool2)] of the two nested loops over the keys. *)
Fixpoint tool_pairs (ks : list string) : list (string * string) :=
  match ks with
  | [] => []
  | tool1 :: rest => ((λ tool2, (tool1, tool2)) <$> rest) ++ tool_pairs rest
  end.

(** [sum(xs)] and [sum(xs) / len(xs)], on rationals: the rounding of the
    float additions and of the division is not modelled. *)
Definition py_sum (xs : list Qc) : Qc := foldl Qcplus 0 xs.
Definition average (xs : list Qc) : Qc := py_sum xs / Qc_of_nat (length xs).

Definition tool_combination_opportunities (g : gset triple) (ks : list string)
  : list opportunity :=
  omap (λ '(tool1, tool2),
          if decide (count_combined_tool_usage g tool1 tool2 = 0)%nat then
            Some (ToolCombination
                    ("Explore combining " +:+ tool1 +:+ " with " +:+ tool2)
                    (tool1, tool2)
                    "These popular tools haven't been used together in existing research")
          else None)
       (tool_pairs ks).

Definition dataset_reuse_opportunities (a : analysis) : list opportunity :=
  let underused_datasets :=
    omap (λ '(name, count), if decide (count = 1)%nat then Some name else None)
         (items (dataset_usage a)) in
  (λ dataset,
     DatasetReuse ("Apply different methodologies to " +:+ dataset) dataset
                  "This dataset has been underutilized in research")
  <$> take 5 underused_datasets.

Definition reproducibility_opportunities (a : analysis) : list opportunity :=
  match reproducibility_scores a with
  | [] => []
  | _ :: _ =>
      let avg_score := average (reproducibility_scores a) in
      if decide (avg_score < Q2Qc (7 # 10)) then
        [ReproducibilityImprovement "Develop better reproducibility practices"
           avg_score "Current research shows low reproducibility scores"]
      else []
  end.

(** [find_research_opportunities]; its first statement is the call of
    [most_common]. *)
Definition find_research_opportunities (self : generator) (a : analysis)
  : result (list opportunity) :=
  match most_common (tool_usage a) 10 with
  | Raise e => Raise e
  | Ok top =>
      let popular_tools := top.*1 in
      Ok (tool_combination_opportunities (graph self) popular_tools
          ++ dataset_reuse_opportunities a
          ++ reproducibility_opportunities a)
  end.

(** For the statement of what the miner computes once it gets past
    [most_common]: the analysis with its tool usage table held in a
    [Counter]; a paper that uses a tool of a given name; an opportunity
    that combines two given tools, in either order. *)
Definition with_counter (a : analysis) : analysis :=
  {| entity_counts := entity_counts a;
     relationship_counts := relationship_counts a;
     tool_usage := Counts Counter (items (tool_usage a));
     dataset_usage := dataset_usage a;
     author_collaborations := author_collaborations a;
     reproducibility_scores := reproducibility_scores a;
     highly_connected_entities := highly_connected_entities a;
     research_gaps := research_gaps a |}.

Definition paper_uses (g : gset triple) (paper : term) (tool : string) : Prop :=
  ∃ o, (paper, SCIENTIFIC "usesTool", o) ∈ g ∧ get_entity_name g o = Some tool.

Definition same_pair (A B : string) (p : string * string) : Prop :=
  p = (A, B) ∨ p = (B, A).

Global Instance same_pair_dec A B p : Decision (same_pair A B p).
Proof. unfold same_pair. apply _. Defined.

Definition combines (A B : string) (opp : opportunity) : Prop :=
  match opp with
  | ToolCombination _ p _ => same_pair A B p
  | _ => False
  end.

Global Instance combines_dec A B opp : Decision (combines A B opp).
Proof. destruct opp; apply _. Defined.

End Generator.
Import Generator.

(** ** [HypothesisGenerator]: synthesis and report *)

Module Synthesis.

Local Open Scope Qc_scope.

(** A hypothesis dict; a key that is absent is [None].  The fields are the
    keys with an [h_] in front, to keep them apart from the fields of the
    metadata record. *)
Record hypothesis : Type := MkHypothesis {
  h_hypothesis : option string;
  h_rationale : option string;
  h_methodology : option string;
  h_required_resources : option (list string);
  h_expected_impact : option string;
  h_feasibility : option string;
  h_novelty_score : option Qc
}.

(** All seven keys are present. *)
Definition has_required_fields (h : hypothesis) : Prop :=
  is_Some (h_hypothesis h) ∧ is_Some (h_rationale h) ∧ is_Some (h_methodology h)
  ∧ is_Some (h_required_resources h) ∧ is_Some (h_expected_impact h)
  ∧ is_Some (h_feasibility h) ∧ is_Some (h_novelty_score h).

(** [xs[:n]] for a Python int [n]; a negative [n] counts from the end. *)
Definition slice_to {A} (n : Z) (xs : list A) : list A :=
  if bool_decide (0 ≤ n)%Z then take (Z.to_nat n) xs
  else take (length xs - Z.to_nat (- n)) xs.

(** The body of the loop of [_generate_rule_based_hypotheses]. *)
Definition hypothesis_of_opportunity (opp : opportunity) : hypothesis :=
  match opp with
  | ToolCombination _ (t0, t1) rationale =>
      {| h_hypothesis :=
           Some ("Combining " +:+ t0 +:+ " and " +:+ t1
                 +:+ " will improve research outcomes");
         h_rationale := Some rationale;
         h_methodology :=
           Some ("Develop integrated workflow using both " +:+ t0 +:+ " and " +:+ t1);
         h_required_resources := Some [t0; t1];
         h_expected_impact := Some "Improved computational efficiency and accuracy";
         h_feasibility := Some "medium";
         h_novelty_score := Some (Q2Qc (7 # 10)) |}
  | DatasetReuse _ dataset rationale =>
      {| h_hypothesis :=
           Some ("Applying machine learning methods to " +:+ dataset
                 +:+ " will reveal new insights");
         h_rationale := Some rationale;
         h_methodology := Some ("Apply modern ML techniques to analyze " +:+ dataset);
         h_required_resources := Some [dataset; "machine learning tools"];
         h_expected_impact := Some "Discovery of previously unknown patterns";
         h_feasibility := Some "high";
         h_novelty_score := Some (Q2Qc (6 # 10)) |}
  | ReproducibilityImprovement _ _ _ =>
      {| h_hypothesis :=
           Some "Improving research reproducibility through automated validation";
         h_rationale := Some "Current reproducibility scores are low";
         h_methodology := Some "Develop automated reproducibility assessment tools";
         h_required_resources := Some ["containerization"; "automated testing"];
         h_expected_impact := Some "Higher reproducibility across scientific research";
         h_feasibility := Some "medium";
         h_novelty_score := Some (Q2Qc (5 # 10)) |}
  end.

(** [_generate_rule_based_hypotheses]. *)
Definition generate_rule_based_hypotheses (a : analysis) (opportunities : list opportunity)
    (num_hypotheses : Z) : list hypothesis :=
  hypothesis_of_opportunity <$> slice_to num_hypotheses opportunities.

(** [needle in haystack] on strings. *)
Fixpoint contains (needle haystack : string) : bool :=
  String.prefix needle haystack
  || match haystack with
     | "" => false
     | String _ rest => contains needle rest
     end.

(** [", ".join(xs)]. *)
Fixpoint join (sep : string) (xs : list string) : string :=
  match xs with
  | [] => ""
  | [x] => x
  | x :: xs' => x +:+ sep +:+ join sep xs'
  end.

(** What a parsed backend response can be, as far as [response[:n]] tells
    them apart: an array (of objects), a string, or a value that has no
    slice. *)
Inductive json : Type :=
| JArray (elements : list hypothesis)
| JString (s : string)
| JOther.

(** What [generate_hypotheses_with_llm] can return. *)
Inductive value : Type :=
| VList (hs : list hypothesis)
| VStr (s : string).

(** The double quote, and one line of the JSON template of the prompt. *)
Definition dq : string := String (ascii_of_nat 34) "".
Definition template_line (key val : string) : string :=
  "    " +:+ dq +:+ key +:+ dq +:+ ": " +:+ val +:+ String (ascii_of_nat 10) "".

Section Backend.

(** What is outside the program: [str.lower] and [s[:n]], which work on
    characters and not on bytes, the formatting of numbers in an f-string,
    the three vendor clients (given the key, the model name and the prompt)
    and [json.loads]. *)
Variable lower : string → string.
Variable str_slice : Z → string → string.
Variable format_nat : nat → string.
Variable format_float : Qc → string.
Variable openai_chat : string → string → string → result string.
Variable anthropic_messages : string → string → string → result string.
Variable gemini_generate_content : string → string → string → result string.
Variable json_loads : string → result json.

Definition count_get (c : counts) (k : string) : nat :=
  match list_find (λ kv : string * nat, kv.1 = k) (items c) with
  | Some (_, (_, n)) => n
  | None => 0%nat
  end.

(** [_prepare_llm_context]. *)
Definition prepare_llm_context (a : analysis) (opportunities : list opportunity)
    (focus_area : option string) : string :=
  let nl := String (ascii_of_nat 10) "" in
  let header :=
    nl +:+ "Based on the following analysis of a scientific knowledge graph, generate novel research hypotheses:" +:+ nl
    +:+ nl +:+ "GRAPH STATISTICS:" +:+ nl
    +:+ "- Papers: "
    +:+ format_nat (count_get (entity_counts a) "https://schema.org/ScholarlyArticle") +:+ nl
    +:+ "- Authors: "
    +:+ format_nat (count_get (entity_counts a) "https://schema.org/Person") +:+ nl
    +:+ "- Tools: "
    +:+ format_nat (count_get (entity_counts a) "https://scientific.org/SoftwareTool") +:+ nl
    +:+ "- Datasets: "
    +:+ format_nat (count_get (entity_counts a) "https://schema.org/Dataset") +:+ nl
    +:+ nl +:+ "POPULAR TOOLS:" +:+ nl
    +:+ join ", " (take 10 (keys (tool_usage a))) +:+ nl
    +:+ nl +:+ "POPULAR DATASETS:" +:+ nl
    +:+ join ", " (take 10 (keys (dataset_usage a))) +:+ nl
    +:+ nl +:+ "REPRODUCIBILITY INSIGHTS:" +:+ nl
    +:+ "- Average reproducibility score: "
    +:+ match reproducibility_scores a with
        | [] => "N/A"
        | _ :: _ => format_float (average (reproducibility_scores a))
        end +:+ nl
    +:+ "- Number of assessed repositories: "
    +:+ format_nat (length (reproducibility_scores a)) +:+ nl
    +:+ nl +:+ "RESEARCH OPPORTUNITIES:" +:+ nl in
  let opps :=
    foldl (λ ctx opp,
             ctx +:+ "- " +:+ opp_description opp +:+ ": " +:+ opp_rationale opp +:+ nl)
          header (take 5 opportunities) in
  let focus :=
    match focus_area with
    | Some (String c s) => opps +:+ nl +:+ "FOCUS AREA: " +:+ String c s +:+ nl
    | _ => opps
    end in
  focus +:+ nl +:+ "Generate research hypotheses that:" +:+ nl
  +:+ "1. Combine existing tools/datasets in novel ways" +:+ nl
  +:+ "2. Address reproducibility challenges" +:+ nl
  +:+ "3. Explore underutilized resources" +:+ nl
  +:+ "4. Propose methodological improvements" +:+ nl
  +:+ "5. Suggest cross-disciplinary applications" +:+ nl
  +:+ nl +:+ "Return the response as a JSON array with this structure:" +:+ nl
  +:+ "[" +:+ nl +:+ "  {" +:+ nl
  +:+ template_line "hypothesis" (dq +:+ "Clear, testable research hypothesis" +:+ dq +:+ ",")
  +:+ template_line "rationale"
        (dq +:+ "Why this hypothesis is worth investigating" +:+ dq +:+ ",")
  +:+ template_line "methodology"
        (dq +:+ "Suggested approach to test the hypothesis" +:+ dq +:+ ",")
  +:+ template_line "required_resources"
        ("[" +:+ dq +:+ "tool1" +:+ dq +:+ ", " +:+ dq +:+ "dataset1" +:+ dq +:+ ", "
         +:+ dq +:+ "etc" +:+ dq +:+ "],")
  +:+ template_line "expected_impact" (dq +:+ "Potential scientific impact" +:+ dq +:+ ",")
  +:+ template_line "feasibility" (dq +:+ "high/medium/low" +:+ dq +:+ ",")
  +:+ template_line "novelty_score" "0.8"
  +:+ "  }" +:+ nl +:+ "]" +:+ nl.

(** [json.loads(result)] followed by [hypotheses[:num_hypotheses]].  A value
    with no slice (an object, a number, [null]) raises there. *)
Definition loads_and_slice (text : string) (num_hypotheses : Z) : result value :=
  match json_loads text with
  | Raise e => Raise e
  | Ok (JArray hs) => Ok (VList (slice_to num_hypotheses hs))
  | Ok (JString s) => Ok (VStr (str_slice num_hypotheses s))
  | Ok JOther => Raise TypeError
  end.

(** [_generate_with_openai], [_generate_with_anthropic] and
    [_generate_with_gemini]. *)
Definition generate_with_openai (self : generator) (context : string)
    (num_hypotheses : Z) : result value :=
  match openai_chat (default "" (api_key self)) (model self) context with
  | Raise e => Raise e
  | Ok text => loads_and_slice text num_hypotheses
  end.

Definition generate_with_anthropic (self : generator) (context : string)
    (num_hypotheses : Z) : result value :=
  match anthropic_messages (default "" (api_key self)) "claude-3-sonnet-20240229"
                           context with
  | Raise e => Raise e
  | Ok text => loads_and_slice text num_hypotheses
  end.

Definition generate_with_gemini (self : generator) (context : string)
    (num_hypotheses : Z) : result value :=
  match gemini_generate_content (default "" (api_key self)) "gemini-pro" context with
  | Raise e => Raise e
  | Ok text => loads_and_slice text num_hypotheses
  end.

(** [try: body except Exception: handler]. *)
Definition try_except {A} (body : result A) (handler : exn → result A) : result A :=
  match body with
  | Ok a => Ok a
  | Raise e => if is_Exception e then handler e else Raise e
  end.

(** [generate_hypotheses_with_llm]. *)
Definition generate_hypotheses_with_llm (self : generator) (a : analysis)
    (opportunities : list opportunity) (num_hypotheses : Z)
    (focus_area : option string) : result value :=
  if negb (truthy (api_key self)) then
    Ok (VList (generate_rule_based_hypotheses a opportunities num_hypotheses))
  else
    let context := prepare_llm_context a opportunities focus_area in
    try_except
      (if contains "gpt" (lower (model self)) then
         generate_with_openai self context num_hypotheses
       else if contains "claude" (lower (model self)) then
         generate_with_anthropic self context num_hypotheses
       else if contains "gemini" (lower (model self)) then
         generate_with_gemini self context num_hypotheses
       else
         Ok (VList (generate_rule_based_hypotheses a opportunities num_hypotheses)))
      (λ _, Ok (VList (generate_rule_based_hypotheses a opportunities num_hypotheses))).

(** The model name selects no vendor. *)
Definition unknown_model (m : string) : Prop :=
  contains "gpt" (lower m) = false ∧ contains "claude" (lower m) = false
  ∧ contains "gemini" (lower m) = false.

(** The vendor call that the model name selects, parsed and sliced. *)
Definition backend_attempt (self : generator) (context : string) (num_hypotheses : Z)
  : option (result value) :=
  if contains "gpt" (lower (model self)) then
    Some (generate_with_openai self context num_hypotheses)
  else if contains "claude" (lower (model self)) then
    Some (generate_with_anthropic self context num_hypotheses)
  else if contains "gemini" (lower (model self)) then
    Some (generate_with_gemini self context num_hypotheses)
  else None.

End Backend.

(** [_analyze_feasibility]: the counts of ["high"], ["medium"] and ["low"]. *)
Record distribution : Type := Distribution { high : nat; medium : nat; low : nat }.

Definition analyze_feasibility (hypotheses : list hypothesis) : distribution :=
  foldl (λ d h,
           let feasibility := default "medium" (h_feasibility h) in
           if decide (feasibility = "high") then Distribution (S (high d)) (medium d) (low d)
           else if decide (feasibility = "medium") then
                  Distribution (high d) (S (medium d)) (low d)
           else if decide (feasibility = "low") then
                  Distribution (high d) (medium d) (S (low d))
           else d)
        (Distribution 0 0 0) hypotheses.

(** The ["summary"] entry of the report that [generate_research_report]
    builds from the list of hypotheses; the average on rationals, its
    rounding not modelled. *)
Record summary : Type := Summary {
  total_hypotheses : nat;
  avg_novelty_score : Qc;
  feasibility_distribution : distribution
}.

Definition report_summary (hypotheses : list hypothesis) : summary :=
  {| total_hypotheses := length hypotheses;
     avg_novelty_score :=
       match hypotheses with
       | [] => 0
       | _ :: _ =>
           py_sum ((λ h, default 0 (h_novelty_score h)) <$> hypotheses)
           / Qc_of_nat (length hypotheses)
       end;
     feasibility_distribution := analyze_feasibility hypotheses |}.

(** The same expression on binary64 floats, [sum] adding from the left
    starting at 0, to check a stated value against rounding. *)
Fixpoint float_of_nat (n : nat) : float :=
  match n with
  | O => 0%float
  | S n' => (float_of_nat n' + 1)%float
  end.

Definition avg_novelty_score_binary64 (scores : list float) : float :=
  match scores with
  | [] => 0%float
  | _ :: _ => (foldl PrimFloat.add 0 scores / float_of_nat (length scores))%float
  end.

End Synthesis.
Import Synthesis.

(** ** [KnowledgeGraphBuilder]: assessments and input files *)

Module Assessment.

(** The assessment record.  Of the dict under ["repository_analysis"] the
    code reads three keys, of the one under ["execution_results"] one; what
    else these dicts hold changes nothing. *)
Record repository_analysis : Type := RepositoryAnalysis {
  has_readme : option bool;
  has_requirements : option bool;
  has_dockerfile : option bool
}.

Record execution_results : Type := ExecutionResults {
  success_rate : option Qc
}.

Record assessment : Type := MkAssessment {
  repository_url : option string;
  assessment_timestamp : option string;
  reproducibility_score : option Qc;
  repository_analysis_of : option repository_analysis;
  execution_results_of : option execution_results;
  recommendations : option (list string)
}.

(** The lexical form of a Python [bool] in an [xsd:boolean] literal. *)
Definition format_bool (b : bool) : string := if b then "true" else "false".

(** [if paper_uri:] on an optional [URIRef], a [str]. *)
Definition uri_truthy (o : option term) : option term :=
  match o with
  | Some t => match str t with "" => None | String _ _ => Some t end
  | None => None
  end.

Definition if_some {A} (o : option A) (body : A → M unit) : M unit :=
  match o with
  | Some a => body a
  | None => mret tt
  end.

Section Ingestion.

(** What is outside the program: the decimal text of [hash(s)], which
    changes from one process to the next; the text of a float; the label of
    the [i]-th [BNode()] that a call creates. *)
Variable py_hash : string → string.
Variable format_float : Qc → string.
Variable bnode : nat → string.

(** [add_reproducibility_assessment]. *)
Definition add_reproducibility_assessment (a : assessment) (paper_uri : option term)
  : M term :=
  let repo_url := default "" (repository_url a) in
  let assessment_uri :=
    URIRef (create_uri "https://assessments.org/" ("assessment_" +:+ py_hash repo_url)) in
  add (assessment_uri, RDF_type, REPRO "ReproducibilityAssessment") ;;
  if_truthy (assessment_timestamp a) (λ ts,
    add (assessment_uri, DCTERMS "created", Literal ts (Some (XSD "dateTime")))) ;;
  if_some (reproducibility_score a) (λ score,
    add (assessment_uri, REPRO "reproducibilityScore",
         Literal (format_float score) (Some (XSD "float")))) ;;
  if_truthy (Some repo_url) (λ repo_url,
    let repo_uri := URIRef repo_url in
    add (repo_uri, RDF_type, SCIENTIFIC "CodeRepository") ;;
    add (repo_uri, SCHEMA "url", URIRef repo_url) ;;
    add (assessment_uri, REPRO "assessesRepository", repo_uri) ;;
    if_some (uri_truthy paper_uri) (λ paper_uri,
      add (paper_uri, SCIENTIFIC "hasCodeRepository", repo_uri))) ;;
  if_some (repository_analysis_of a) (λ analysis,
    if_some (has_readme analysis) (λ v,
      add (assessment_uri, REPRO "readme",
           Literal (format_bool v) (Some (XSD "boolean")))) ;;
    if_some (has_requirements analysis) (λ v,
      add (assessment_uri, REPRO "requirements",
           Literal (format_bool v) (Some (XSD "boolean")))) ;;
    if_some (has_dockerfile analysis) (λ v,
      add (assessment_uri, REPRO "dockerfile",
           Literal (format_bool v) (Some (XSD "boolean"))))) ;;
  if_some (execution_results_of a) (λ exec_results,
    if_some (success_rate exec_results) (λ rate,
      add (assessment_uri, REPRO "executionSuccessRate",
           Literal (format_float rate) (Some (XSD "float"))))) ;;
  if_nonempty (recommendations a) (λ recs,
    for_each (imap (λ i rec, (i, rec)) recs) (λ '(i, rec),
      let rec_uri := BNode (bnode i) in
      add (rec_uri, RDF_type, REPRO "Recommendation") ;;
      add (rec_uri, SCHEMA "description", Literal rec None) ;;
      add (assessment_uri, REPRO "hasRecommendation", rec_uri))) ;;
  mret assessment_uri.

(** [try: body except Exception: log]: what the body returned, if it did. *)
Definition try_log {A} (body : M A) : M (option A) :=
  λ g, match body g with
       | (g', Ok a) => (g', Ok (Some a))
       | (g', Raise e) => if is_Exception e then (g', Ok None) else (g', Raise e)
       end.

(** Reading and parsing a file: its outcome, the store untouched. *)
Definition read_json {A} (outcome : result A) : M A := λ g, (g, outcome).

Record load_results : Type := LoadResults {
  papers_added : nat;
  assessments_added : nat
}.

(** What a file argument comes to: the argument is [None] or the empty
    string; or [Path(file).exists()] raises (a name too long, a directory
    that may not be searched); or it answers [False]; or it answers [True],
    and then what [open] and [json.load] make of the file. *)
Inductive input_file (A : Type) : Type :=
| NotGiven
| ExistsRaises (e : exn)
| NotFound
| Found (content : result A).
Global Arguments NotGiven {A}.
Global Arguments ExistsRaises {A} e.
Global Arguments NotFound {A}.
Global Arguments Found {A} content.

(** [if file and Path(file).exists(): try: ... except Exception: log].  The
    test stands before the [try], so an error of [exists] leaves the
    method. *)
Definition process_file {A B} (file : input_file A) (body : A → M B) : M (option B) :=
  match file with
  | NotGiven | NotFound => mret None
  | ExistsRaises e => raise e
  | Found content => try_log (x ← read_json content; body x)
  end.

(** [load_and_process_files]. *)
Definition load_and_process_files (uuid4 : string)
    (metadata_file : input_file metadata)
    (reproducibility_file : input_file assessment) : M load_results :=
  paper ← process_file metadata_file (add_paper_metadata uuid4);
  assessed ← process_file reproducibility_file
                (λ assessment, add_reproducibility_assessment assessment paper);
  mret {| papers_added := if paper is Some _ then 1 else 0;
          assessments_added := if assessed is Some _ then 1 else 0 |}.

End Ingestion.

End Assessment.
Import Assessment.

(** ** [HypothesisGenerator]: the report *)

Module Report.

Local Open Scope Qc_scope.

Global Instance result_ret : MRet result := @Ok.
Global Instance result_bind : MBind result :=
  λ A B k r, match r with Ok a => k a | Raise e => Raise e end.

(** The report and its ["graph_analysis"] entry. *)
Record graph_analysis : Type := GraphAnalysis {
  ga_total_triples : nat;
  ga_entity_counts : list (string * nat);
  popular_tools : list (string * nat);
  popular_datasets : list (string * nat);
  avg_reproducibility_score : option Qc
}.

Record report : Type := MkReport {
  generation_timestamp : string;
  source_graph : string;
  focus_area : option string;
  graph_analysis_of : graph_analysis;
  research_opportunities : list opportunity;
  generated_hypotheses : value;
  summary_of : summary
}.

(** The ["summary"] entry for what the synthesis returned.  On a string that
    is not empty, [h.get] is called on a character and raises. *)
Definition summary_of_value (v : value) : result summary :=
  match v with
  | VList hs => Ok (report_summary hs)
  | VStr "" => Ok (report_summary [])
  | VStr (String _ _) => Raise (AttributeError "get")
  end.

Section Reporting.

Variable lower : string → string.
Variable str_slice : Z → string → string.
Variable format_nat : nat → string.
Variable format_float : Qc → string.
Variable openai_chat : string → string → string → result string.
Variable anthropic_messages : string → string → string → result string.
Variable gemini_generate_content : string → string → string → result string.
Variable json_loads : string → result json.
Variable to_float : term → option Qc.

(** [generate_research_report].  [now] is the text of [datetime.now()],
    [parsed] what [Graph.parse] makes of the file: [load_knowledge_graph]
    logs an exception and raises it again. *)
Definition generate_research_report (now : string) (self : generator)
    (graph_file : string) (parsed : result (gset triple))
    (num_hypotheses : Z) (focus_area : option string) : result report :=
  g ← parsed;
  let self := load_knowledge_graph g self in
  let analysis := analyze_graph_patterns to_float self in
  opportunities ← find_research_opportunities self analysis;
  hypotheses ← generate_hypotheses_with_llm lower str_slice format_nat format_float
                  openai_chat anthropic_messages gemini_generate_content json_loads
                  self analysis opportunities num_hypotheses focus_area;
  tools ← most_common (tool_usage analysis) 10;
  datasets ← most_common (dataset_usage analysis) 10;
  summary ← summary_of_value hypotheses;
  mret {| generation_timestamp := now;
          source_graph := graph_file;
          focus_area := focus_area;
          graph_analysis_of :=
            {| ga_total_triples := len (graph self);
               ga_entity_counts := items (entity_counts analysis);
               popular_tools := tools;
               popular_datasets := datasets;
               avg_reproducibility_score :=
                 match reproducibility_scores analysis with
                 | [] => None
                 | _ :: _ => Some (average (reproducibility_scores analysis))
                 end |};
          research_opportunities := opportunities;
          generated_hypotheses := hypotheses;
          summary_of := summary |}.

End Reporting.

End Report.
Import Report.

(** ** Measures used to state properties *)

Module Measures.

(** The sum of the counts of a table. *)
Definition total_count (c : counts) : nat := sum_list (items c).*2.

(** Every character of a string passes a test. *)
Fixpoint all_chars (P : ascii → bool) (s : string) : bool :=
  match s with
  | "" => true
  | String c s' => P c && all_chars P s'
  end.

(** The entity has a name that [_get_entity_name] finds and Python takes as
    true. *)
Definition named (g : gset triple) (e : term) : bool :=
  match get_entity_name g e with
  | Some (String _ _) => true
  | _ => false
  end.

(** The feasibility of a hypothesis is one that [_analyze_feasibility]
    counts. *)
Definition recognized (h : hypothesis) : Prop :=
  default "medium" (h_feasibility h) ∈ ["high"; "medium"; "low"].

Global Instance recognized_dec h : Decision (recognized h).
Proof. unfold recognized. apply _. Defined.

(** What a method of the builder does: it adds a given statement; it returns
    a given value. *)
Definition emits {A} (m : M A) (t : triple) : Prop := ∀ g, t ∈ (m g).1.
Definition yields {A} (m : M A) (a : A) : Prop := ∀ g, (m g).2 = Ok a.

(** Every statement that a method adds passes a test. *)
Definition adds_only {A} (m : M A) (P : triple → Prop) : Prop :=
  ∀ g t, t ∈ (m g).1 → t ∈ g ∨ P t.

(** The record reads [metadata['title']] nowhere without a title: it has
    the key, or it has none of the three fields whose identifiers are made
    from the title. *)
Definition ingestible (md : metadata) : Prop :=
  is_Some (title md)
  ∨ truthy (methodology md) || truthy (results md) || truthy (conclusions md) = false.

(** The identifiers that ingestion mints: of the paper ([add_paper_metadata]),
    of an author, a tool, a dataset and a keyword. *)
Definition paper_uri_of (uuid4 : string) (md : metadata) : term :=
  if truthy (doi md) then URIRef ("https://doi.org/" +:+ default "" (doi md))
  else if truthy (url md) then URIRef (default "" (url md))
  else URIRef (create_uri "https://papers.org/" (default uuid4 (title md))).

Definition author_uri_of (a : author_data) : term :=
  URIRef (create_uri "https://authors.org/"
            match a with
            | AuthorStr s => s
            | AuthorDict n _ => default "Unknown Author" n
            end).

Definition tool_name_of (d : resource_data) : string :=
  match d with
  | ResourceStr s => s
  | ResourceDict n _ => default "Unknown Tool" n
  end.
Definition tool_uri_of (d : resource_data) : term :=
  URIRef (create_uri "https://tools.org/" (tool_name_of d)).

Definition dataset_name_of (d : resource_data) : string :=
  match d with
  | ResourceStr s => s
  | ResourceDict n _ => default "Unknown Dataset" n
  end.
Definition dataset_uri_of (d : resource_data) : term :=
  URIRef (create_uri "https://datasets.org/" (dataset_name_of d)).

Definition keyword_uri_of (k : string) : term :=
  URIRef (create_uri "https://keywords.org/" k).

(** The ["type"] entry of an opportunity. *)
Definition opp_type (o : opportunity) : string :=
  match o with
  | ToolCombination _ _ _ => "tool_combination"
  | DatasetReuse _ _ _ => "dataset_reuse"
  | ReproducibilityImprovement _ _ _ => "reproducibility_improvement"
  end.

(** Two nodes of the network are joined: the second is among the
    neighbours of the first. *)
Definition adjacent (G : nx_graph) (u v : string) : Prop :=
  ∃ nbrs, (u, nbrs) ∈ G ∧ v ∈ nbrs.

(** The identifier of an assessment, given the text of the hash of its
    repository URL. *)
Definition assessment_uri_of (py_hash : string → string) (a : assessment) : term :=
  URIRef (create_uri "https://assessments.org/"
            ("assessment_" +:+ py_hash (default "" (repository_url a)))).

End Measures.
Import Measures.

(** ** Properties of the identifier minter *)

Section MinterFacts.

Lemma unquote_quote_byte (c : ascii) (s : string) :
  unquote (quote_byte c +:+ s) = String c (unquote s).
Proof.
  destruct c as [[] [] [] [] [] [] [] []]; reflexivity.
Qed.

Lemma unquote_quote (s : string) : unquote (quote s) = s.
Proof.
  induction s as [|c s IH]; [reflexivity|].
  cbn [quote]. rewrite unquote_quote_byte. by rewrite IH.
Qed.

Lemma quote_inj (s1 s2 : string) : quote s1 = quote s2 → s1 = s2.
Proof.
  intros H. rewrite <-(unquote_quote s1), <-(unquote_quote s2). by rewrite H.
Qed.

Lemma append_cancel_l (b s1 s2 : string) : b +:+ s1 = b +:+ s2 → s1 = s2.
Proof.
  induction b as [|c b IH]; simpl; [done|]. intros [= H]. by apply IH.
Qed.

Lemma replace_space_length (s : string) :
  String.length (replace_space s) = String.length s.
Proof. induction s as [|c s IH]; [done|]. simpl. by f_equal. Qed.

Lemma string_length_app (s1 s2 : string) :
  String.length (s1 +:+ s2) = String.length s1 + String.length s2.
Proof. induction s1 as [|c s1 IH]; [done|]. simpl. by f_equal. Qed.

Lemma spaces_length (n : nat) : String.length (spaces n) = n.
Proof. induction n as [|n IH]; [done|]. simpl. by f_equal. Qed.

Lemma create_uri_eq_iff (ns s1 s2 : string) :
  create_uri ns s1 = create_uri ns s2 ↔ replace_space s1 = replace_space s2.
Proof.
  unfold create_uri. split.
  - intros H. by apply quote_inj, (append_cancel_l ns).
  - by intros ->.
Qed.

End MinterFacts.

(** C6, as the specification states it, fails: the two names of its own
    example, which differ only in the length of a run of spaces, are minted
    two different identifiers. *)
Lemma create_uri_space_runs_differ :
  create_uri "https://papers.org/" "Foo  Bar" = "https://papers.org/Foo__Bar"
  ∧ create_uri "https://papers.org/" "Foo Bar" = "https://papers.org/Foo_Bar"
  ∧ create_uri "https://papers.org/" "Foo  Bar"
    ≠ create_uri "https://papers.org/" "Foo Bar".
Proof. repeat split. intros [=]. Qed.

(** C6, amended: [create_uri] is a function of the namespace and the name
    (two calls on equal inputs give equal identifiers), and it replaces every
    space by one underscore without merging runs: two names are minted the
    same identifier exactly when they are equal after that replacement, so two
    names that differ in the length of a run of spaces are minted different
    identifiers. *)
Theorem create_uri_deterministic_run_sensitive (ns : string) :
  (∀ s1 s2, create_uri ns s1 = create_uri ns s2 ↔ replace_space s1 = replace_space s2)
  ∧ (∀ a b n m, n ≠ m →
       create_uri ns (a +:+ spaces n +:+ b) ≠ create_uri ns (a +:+ spaces m +:+ b)).
Proof.
  split; [apply create_uri_eq_iff|].
  intros a b n m Hnm Heq%create_uri_eq_iff%(f_equal String.length).
  rewrite !replace_space_length, !string_length_app, !spaces_length in Heq. lia.
Qed.

Lemma create_uri_deterministic_run_sensitive_witness :
  (create_uri "https://tools.org/" "a b" = create_uri "https://tools.org/" "a_b"
   ↔ replace_space "a b" = replace_space "a_b")
  ∧ create_uri "https://tools.org/" ("Foo" +:+ spaces 2 +:+ "Bar")
    ≠ create_uri "https://tools.org/" ("Foo" +:+ spaces 1 +:+ "Bar").
Proof.
  split.
  - apply (create_uri_deterministic_run_sensitive "https://tools.org/").
  - apply (create_uri_deterministic_run_sensitive "https://tools.org/"). lia.
Defined.

(** ** Properties of the statement store *)

Section StoreFacts.

Implicit Types (g : gset triple) (t : triple) (s p o : term).

Lemma NoDup_triples g : NoDup (triples g).
Proof. apply NoDup_elements. Qed.

Lemma graph_add_present g t : t ∈ g → graph_add t g = g.
Proof.
  intros Hin. unfold graph_add.
  apply subseteq_union_1_L. by apply singleton_subseteq_l.
Qed.

Lemma elem_of_subjects g s p o : s ∈ subjects g p o ↔ (s, p, o) ∈ g.
Proof.
  unfold subjects, triples. rewrite list_elem_of_omap. split.
  - intros ([[s' p'] o'] & Hin & Hs). apply elem_of_elements in Hin.
    cbn in Hs. case_decide as Hd; [|done].
    destruct Hd as [-> ->]. by injection Hs as ->.
  - intros Hin. exists (s, p, o). split; [by apply elem_of_elements|].
    cbn. by rewrite decide_True.
Qed.

Lemma elem_of_objects g s p o : o ∈ objects g s p ↔ (s, p, o) ∈ g.
Proof.
  unfold objects, triples. rewrite list_elem_of_omap. split.
  - intros ([[s' p'] o'] & Hin & Hs). apply elem_of_elements in Hin.
    cbn in Hs. case_decide as Hd; [|done].
    destruct Hd as [-> ->]. by injection Hs as ->.
  - intros Hin. exists (s, p, o). split; [by apply elem_of_elements|].
    cbn. by rewrite decide_True.
Qed.

End StoreFacts.

(** C8: the store has set semantics.  Adding a triple that the store already
    holds leaves it as it was, so its size, which [get_statistics] reports
    as [total_triples], does not change (in particular when the builder adds
    the same triple twice), and an enumeration of the store never meets the
    same statement twice. *)
Theorem graph_add_present_keeps_size (g : gset triple) (t : triple) :
  t ∈ g →
  len (graph_add t g) = len g
  ∧ total_triples (get_statistics (graph_add t g)) = total_triples (get_statistics g)
  ∧ len (add t (add t g).1).1 = len (add t g).1
  ∧ NoDup (triples (graph_add t g)).
Proof.
  intros Hin. rewrite (graph_add_present g t Hin).
  split_and!; [done..| |apply NoDup_triples].
  cbn. f_equal. apply graph_add_present. unfold graph_add.
  apply elem_of_union_l, elem_of_singleton. done.
Qed.

Lemma graph_add_present_keeps_size_witness :
  let t := (URIRef "https://papers.org/P", RDF_type, SCHEMA "ScholarlyArticle") in
  let g := graph_add t ∅ in
  len (graph_add t g) = len g
  ∧ total_triples (get_statistics (graph_add t g)) = total_triples (get_statistics g)
  ∧ len (add t (add t g).1).1 = len (add t g).1
  ∧ NoDup (triples (graph_add t g)).
Proof.
  intros t g. apply (graph_add_present_keeps_size g t).
  unfold g, graph_add. apply elem_of_union_l, elem_of_singleton. done.
Defined.

(** ** Properties of ingestion *)

Section BuilderFacts.

Implicit Types (g : gset triple) (t : triple).

Lemma framed_ret {A} (a : A) : framed (mret a).
Proof. intros g. cbn. unfold ret. cbn. by rewrite (left_id_L ∅ (∪)). Qed.

Lemma framed_raise {A} e : framed (raise (A:=A) e).
Proof. intros g. unfold raise. cbn. by rewrite (left_id_L ∅ (∪)). Qed.

Lemma framed_add t : framed (add t).
Proof. intros g. unfold add, graph_add. cbn. by rewrite (right_id_L ∅ (∪)). Qed.

Lemma framed_bind {A B} (m : M A) (k : A → M B) :
  framed m → (∀ a, framed (k a)) → framed (m ≫= k).
Proof.
  intros Hm Hk g. unfold mbind, M_bind, bind.
  rewrite (Hm g). destruct (m ∅) as [W [a|e]]; cbn; [|done].
  rewrite (Hk a (W ∪ g)), (Hk a W). cbn. by rewrite (assoc_L (∪)).
Qed.

Lemma framed_for_each {A} (xs : list A) (body : A → M unit) :
  (∀ x, framed (body x)) → framed (for_each xs body).
Proof.
  intros Hb. induction xs as [|x xs IH]; cbn.
  - apply (framed_ret tt).
  - apply framed_bind; [apply Hb|]. by intros _.
Qed.

Lemma framed_if_truthy o (body : string → M unit) :
  (∀ s, framed (body s)) → framed (if_truthy o body).
Proof. intros Hb. destruct o as [[|c s]|]; cbn; [apply (framed_ret tt)|apply Hb|apply (framed_ret tt)]. Qed.

Lemma framed_if_nonempty {A} (o : option (list A)) (body : list A → M unit) :
  (∀ l, framed (body l)) → framed (if_nonempty o body).
Proof. intros Hb. destruct o as [[|x l]|]; cbn; [apply (framed_ret tt)|apply Hb|apply (framed_ret tt)]. Qed.

Lemma framed_getitem_title md : framed (getitem_title md).
Proof. unfold getitem_title. destruct (title md); [apply framed_ret|apply framed_raise]. Qed.

Ltac framed_step :=
  lazymatch goal with
  | |- framed (add _) => apply framed_add
  | |- framed (ret _) => apply framed_ret
  | |- framed (mret _) => apply framed_ret
  | |- framed (raise _) => apply framed_raise
  | |- framed (getitem_title _) => apply framed_getitem_title
  | |- framed (if_truthy _ _) => apply framed_if_truthy; intros ?
  | |- framed (if_nonempty _ _) => apply framed_if_nonempty; intros ?
  | |- framed (for_each _ _) => apply framed_for_each; intros ?
  | |- framed (mbind _ _) => apply framed_bind; [|intros ?]
  end.

Lemma framed_add_author a : framed (add_author a).
Proof. unfold add_author. destruct a; repeat framed_step. Qed.

Lemma framed_add_tool d : framed (add_tool d).
Proof. unfold add_tool. destruct d; repeat framed_step. Qed.

Lemma framed_add_dataset d : framed (add_dataset d).
Proof. unfold add_dataset. destruct d; repeat framed_step. Qed.

Lemma framed_add_paper_metadata uuid4 md : framed (add_paper_metadata uuid4 md).
Proof.
  unfold add_paper_metadata.
  repeat lazymatch goal with
         | |- framed (add_author _) => apply framed_add_author
         | |- framed (add_tool _) => apply framed_add_tool
         | |- framed (add_dataset _) => apply framed_add_dataset
         | |- _ => framed_step
         end.
Qed.

(** A framed method run a second time, on the store the first run left,
    changes nothing and ends the same way. *)
Lemma framed_twice {A} (m : M A) g : framed m → m (m g).1 = m g.
Proof.
  intros Hm. rewrite (Hm g). cbn. rewrite (Hm (_ ∪ g)). f_equal.
  by rewrite (assoc_L (∪)), (idemp_L (∪)).
Qed.

Lemma add_paper_metadata_uuid_irrelevant md u1 u2 :
  identified md → add_paper_metadata u1 md = add_paper_metadata u2 md.
Proof.
  intros Hid.
  assert (default u1 (title md) = default u2 (title md)
          ∨ truthy (doi md) = true ∨ truthy (url md) = true) as Hcases.
  { destruct Hid as [[t Ht]|[?|?]]; [left|right; by left|right; by right].
    rewrite Ht. reflexivity. }
  unfold add_paper_metadata.
  destruct Hcases as [->|[->| ->]]; [reflexivity..|].
  destruct (truthy (doi md)); reflexivity.
Qed.

(** Ingestion of a record that names its paper is idempotent as far as the
    store and the outcome go: a second call, whatever [uuid4] draws, leaves
    the store of the first call as it is and ends as the first call did. *)
Lemma add_paper_metadata_twice md u1 u2 g :
  identified md →
  add_paper_metadata u2 md (add_paper_metadata u1 md g).1 = add_paper_metadata u1 md g.
Proof.
  intros Hid. rewrite (add_paper_metadata_uuid_irrelevant md u2 u1 Hid).
  apply framed_twice, framed_add_paper_metadata.
Qed.

Lemma total_ret {A} (a : A) : total (mret a).
Proof. intros g. by exists a. Qed.

Lemma total_add t : total (add t).
Proof. intros g. by exists tt. Qed.

Lemma total_bind {A B} (m : M A) (k : A → M B) :
  total m → (∀ a, total (k a)) → total (m ≫= k).
Proof.
  intros Hm Hk g. unfold mbind, M_bind, bind.
  destruct (Hm g) as [a Ha]. destruct (m g) as [g' r]. cbn in Ha. subst r.
  apply Hk.
Qed.

Lemma total_for_each {A} (xs : list A) (body : A → M unit) :
  (∀ x, total (body x)) → total (for_each xs body).
Proof.
  intros Hb. induction xs as [|x xs IH]; cbn.
  - apply (total_ret tt).
  - apply total_bind; [apply Hb|]. by intros _.
Qed.

Lemma total_if_truthy o (body : string → M unit) :
  (∀ s, total (body s)) → total (if_truthy o body).
Proof.
  intros Hb. destruct o as [[|c s]|]; cbn;
    [apply (total_ret tt)|apply Hb|apply (total_ret tt)].
Qed.

Lemma total_if_nonempty {A} (o : option (list A)) (body : list A → M unit) :
  (∀ l, total (body l)) → total (if_nonempty o body).
Proof.
  intros Hb. destruct o as [[|x l]|]; cbn;
    [apply (total_ret tt)|apply Hb|apply (total_ret tt)].
Qed.

Lemma total_getitem_title md : is_Some (title md) → total (getitem_title md).
Proof. intros [t Ht]. unfold getitem_title. rewrite Ht. apply total_ret. Qed.

Ltac total_step :=
  lazymatch goal with
  | |- total (add _) => apply total_add
  | |- total (ret _) => apply total_ret
  | |- total (mret _) => apply total_ret
  | |- total (getitem_title _) => by apply total_getitem_title
  | |- total (if_truthy _ _) => apply total_if_truthy; intros ?
  | |- total (if_nonempty _ _) => apply total_if_nonempty; intros ?
  | |- total (for_each _ _) => apply total_for_each; intros ?
  | |- total (mbind _ _) => apply total_bind; [|intros ?]
  end.

Lemma total_add_author a : total (add_author a).
Proof. unfold add_author. destruct a; repeat total_step. Qed.

Lemma total_add_tool d : total (add_tool d).
Proof. unfold add_tool. destruct d; repeat total_step. Qed.

Lemma total_add_dataset d : total (add_dataset d).
Proof. unfold add_dataset. destruct d; repeat total_step. Qed.

(** With the title key present, ingestion returns, whatever else the record
    holds or lacks. *)
Lemma add_paper_metadata_returns_with_title uuid4 md g :
  is_Some (title md) → returns (add_paper_metadata uuid4 md g).2.
Proof.
  intros Ht. revert g. change (total (add_paper_metadata uuid4 md)).
  unfold add_paper_metadata.
  repeat lazymatch goal with
         | |- total (add_author _) => apply total_add_author
         | |- total (add_tool _) => apply total_add_tool
         | |- total (add_dataset _) => apply total_add_dataset
         | |- _ => total_step
         end.
Qed.

Lemma raises_bind_l {A B} (m : M A) (k : A → M B) e :
  raises m e → raises (m ≫= k) e.
Proof.
  intros Hm g. unfold mbind, M_bind, bind. specialize (Hm g).
  destruct (m g) as [g' r]. cbn in Hm. by subst r.
Qed.

Lemma raises_bind_r {A B} (m : M A) (k : A → M B) e :
  total m → (∀ a, raises (k a) e) → raises (m ≫= k) e.
Proof.
  intros Hm Hk g. unfold mbind, M_bind, bind. destruct (Hm g) as [a Ha].
  destruct (m g) as [g' r]. cbn in Ha. subst r. apply Hk.
Qed.

Lemma raises_getitem_title md :
  title md = None → raises (getitem_title md) (KeyError "title").
Proof. intros Ht g. unfold getitem_title. by rewrite Ht. Qed.

Lemma raises_if_truthy o (body : string → M unit) e :
  truthy o = true → (∀ s, raises (body s) e) → raises (if_truthy o body) e.
Proof. intros Ho Hb. destruct o as [[|c s]|]; [done| |done]. apply Hb. Qed.

Lemma total_if_falsy o (body : string → M unit) :
  truthy o = false → total (if_truthy o body).
Proof. intros Ho. destruct o as [[|c s]|]; [|done|]; apply (total_ret tt). Qed.

(** The three blocks that read [metadata['title']]. *)
Ltac title_block :=
  lazymatch goal with
  | Ht : title ?md = None |- raises (if_truthy ?o _) _ =>
      apply raises_if_truthy; [assumption|intros ?];
      apply raises_bind_l; by apply raises_getitem_title
  end.

Ltac total_block :=
  repeat lazymatch goal with
         | |- total (add_author _) => apply total_add_author
         | |- total (add_tool _) => apply total_add_tool
         | |- total (add_dataset _) => apply total_add_dataset
         | H : truthy ?o = false |- total (if_truthy ?o _) => by apply total_if_falsy
         | |- _ => total_step
         end.

(** C5: a record with no title key.  The specification asks that an
    absent field be left out and that ingestion never raise; the code reads
    [metadata['title']] to mint the identifiers of the methodology, the
    results and the conclusions, so as soon as the record has one of these
    three the call raises [KeyError]. *)
Theorem add_paper_metadata_no_title_raises (uuid4 : string) (md : metadata) :
  title md = None →
  truthy (methodology md) || truthy (results md) || truthy (conclusions md) = true →
  raises (add_paper_metadata uuid4 md) (KeyError "title").
Proof.
  intros Ht Hsome. unfold add_paper_metadata.
  do 8 (apply raises_bind_r; [total_block|intros _]).
  destruct (truthy (methodology md)) eqn:Hm.
  { apply raises_bind_l. title_block. }
  do 3 (apply raises_bind_r; [total_block|intros _]).
  destruct (truthy (results md)) eqn:Hr.
  { apply raises_bind_l. title_block. }
  apply raises_bind_r; [total_block|intros _].
  apply raises_bind_l. cbn in Hsome. title_block.
Qed.

(** And only there: with no title key and none of the three, it returns. *)
Lemma add_paper_metadata_returns_without_those uuid4 md :
  truthy (methodology md) || truthy (results md) || truthy (conclusions md) = false →
  total (add_paper_metadata uuid4 md).
Proof.
  intros Hnone.
  apply orb_false_elim in Hnone as [[Hm Hr]%orb_false_elim Hc].
  unfold add_paper_metadata. total_block.
Qed.

End BuilderFacts.

Lemma add_paper_metadata_no_title_raises_witness :
  (add_paper_metadata "1b4e28ba-2fa1-11d2-883f-0016d3cca427"
     {| title := None; abstract := None; doi := None; url := None;
        datePublished := None; author := None; keywords := None;
        methodology := Some "randomized controlled trial";
        tools := None; datasets := None; results := None; conclusions := None |}
     ∅).2
  = Raise (KeyError "title").
Proof.
  apply (add_paper_metadata_no_title_raises
           "1b4e28ba-2fa1-11d2-883f-0016d3cca427"
           {| title := None; abstract := None; doi := None; url := None;
              datePublished := None; author := None; keywords := None;
              methodology := Some "randomized controlled trial";
              tools := None; datasets := None; results := None;
              conclusions := None |});
    reflexivity.
Defined.

(** C7: a record that is named by its DOI, has a methodology and has no
    title.  Both calls raise [KeyError], so neither returns an identifier,
    where the specification asks that both return the same one. *)
Theorem add_paper_metadata_doi_no_title_raises_twice (u1 u2 : string) (g : gset triple) :
  let md :=
    {| title := None; abstract := None; doi := Some "10.1000/xyz123"; url := None;
       datePublished := None; author := None; keywords := None;
       methodology := Some "survey";
       tools := None; datasets := None; results := None; conclusions := None |} in
  let first := add_paper_metadata u1 md g in
  let second := add_paper_metadata u2 md first.1 in
  identified md
  ∧ first.2 = Raise (KeyError "title")
  ∧ second.2 = Raise (KeyError "title").
Proof.
  intros md first second.
  assert (identified md) as Hid by (right; left; reflexivity).
  split_and!; [done|reflexivity|].
  unfold second, first. by rewrite add_paper_metadata_twice.
Qed.

(** ** Anonymous authors *)

Section AnonymousAuthors.

Implicit Types (g : gset triple) (aff : option string) (s : term).

Lemma add_author_anonymous_uri aff g :
  (add_author (AuthorDict None aff) g).2
  = Ok (URIRef "https://authors.org/Unknown_Author").
Proof. destruct aff as [[|c a]|]; reflexivity. Qed.

(** The Person statements of the store after one anonymous author. *)
Lemma add_author_anonymous_person aff g s :
  (s, RDF_type, SCHEMA "Person") ∈ (add_author (AuthorDict None aff) g).1
  ↔ s = URIRef "https://authors.org/Unknown_Author"
    ∨ (s, RDF_type, SCHEMA "Person") ∈ g.
Proof.
  destruct aff as [[|c a]|]; cbn;
    unfold mbind, M_bind, bind, add, ret, graph_add; cbn;
    rewrite ?elem_of_union, ?elem_of_singleton.
  all: split;
    [ intros H;
      repeat (destruct H as [H|H];
              [pose proof (f_equal (λ t : triple, t.1.1) H) as Hs;
               pose proof (f_equal (λ t : triple, t.1.2) H) as Hp;
               pose proof (f_equal (λ t : triple, t.2) H) as Ho;
               cbn in Hs, Hp, Ho;
               first [ by vm_compute in Hp | by vm_compute in Ho
                     | left; subst s; reflexivity ]|]);
      by right
    | intros [->|H];
      [repeat first [left; reflexivity | right] | repeat right; exact H] ].
Qed.

(** The loop of [add_paper_metadata] over the authors, for authors that are
    all mappings with no name; every entry carries the paper it belongs to,
    so that the loop runs over the anonymous authors of several papers. *)
Lemma anonymous_loop_persons (entries : list (term * option string)) g s :
  s ∈ subjects
        (for_each entries
           (λ '(paper_uri, aff),
              author_uri ← add_author (AuthorDict None aff);
              add (paper_uri, SCHEMA "author", author_uri)) g).1
        RDF_type (SCHEMA "Person")
  ↔ s ∈ subjects g RDF_type (SCHEMA "Person")
    ∨ (entries ≠ [] ∧ s = URIRef "https://authors.org/Unknown_Author").
Proof.
  revert g. induction entries as [|[paper_uri aff] entries IH]; intros g.
  - cbn. split; [by left|]. by intros [?|[? _]].
  - cbn [for_each]. unfold mbind at 1, M_bind at 1, bind at 1.
    unfold mbind at 1, M_bind at 1, bind at 1.
    pose proof (add_author_anonymous_uri aff g) as Huri.
    pose proof (add_author_anonymous_person aff g s) as Hperson.
    destruct (add_author (AuthorDict None aff) g) as [g1 r]. cbn in Huri, Hperson.
    subst r. unfold add at 1. rewrite IH, !elem_of_subjects.
    unfold graph_add. rewrite elem_of_union, elem_of_singleton, Hperson.
    split.
    + intros [[Heq|[->|Hin]]|[_ ->]]; [|right..|by left|by right].
      * pose proof (f_equal (λ t : triple, t.1.2) Heq) as Hp. by vm_compute in Hp.
      * done.
    + intros [Hin|[_ ->]]; left; right; [by right|by left].
Qed.

End AnonymousAuthors.

(** C10: an author given as a mapping with no ["name"] key is minted
    [https://authors.org/Unknown_Author], whatever its affiliation and
    whatever the store holds; and when the anonymous authors of any number of
    papers are ingested into one store, the only Person entity that the store
    gains is that one. *)
Theorem anonymous_authors_collapse
    (entries : list (term * option string)) (g : gset triple) :
  (∀ aff g0, (add_author (AuthorDict None aff) g0).2
             = Ok (URIRef "https://authors.org/Unknown_Author"))
  ∧ (∀ s,
       s ∈ subjects
             (for_each entries
                (λ '(paper_uri, aff),
                   author_uri ← add_author (AuthorDict None aff);
                   add (paper_uri, SCHEMA "author", author_uri)) g).1
             RDF_type (SCHEMA "Person")
       ↔ s ∈ subjects g RDF_type (SCHEMA "Person")
         ∨ (entries ≠ [] ∧ s = URIRef "https://authors.org/Unknown_Author")).
Proof.
  split; [apply add_author_anonymous_uri|apply anonymous_loop_persons].
Qed.

(** ** Properties of the fallback synthesis *)

Section RuleBasedFacts.

Implicit Types (a : analysis) (opps : list opportunity) (n : Z).

Lemma slice_to_nonneg {A} n (xs : list A) :
  (0 ≤ n)%Z → slice_to n xs = take (Z.to_nat n) xs.
Proof. intros Hn. unfold slice_to. by rewrite bool_decide_eq_true_2. Qed.

Lemma hypothesis_of_opportunity_fields (opp : opportunity) :
  has_required_fields (hypothesis_of_opportunity opp).
Proof. destruct opp as [d [t0 t1] r|d ds r|d avg r]; repeat split; by eexists. Qed.

Lemma rule_based_fields a opps n :
  Forall has_required_fields (generate_rule_based_hypotheses a opps n).
Proof.
  unfold generate_rule_based_hypotheses. apply Forall_fmap, Forall_forall.
  intros opp _. apply hypothesis_of_opportunity_fields.
Qed.

End RuleBasedFacts.

(** C2, as the specification states it, fails: asked for three hypotheses
    when there is no opportunity, the fallback path returns none; it has no
    padding step. *)
Lemma rule_based_does_not_pad :
  generate_rule_based_hypotheses
    (analyze_graph_patterns (λ _, None) empty_generator) [] 3 = []
  ∧ length (generate_rule_based_hypotheses
              (analyze_graph_patterns (λ _, None) empty_generator) [] 3) ≠ 3.
Proof. split; [reflexivity|]. intros H. discriminate H. Qed.

(** C2, amended: for every analysis, every opportunity list and every
    requested count [n] that is not negative, the fallback path returns one
    hypothesis for each of the first [n] opportunities, [min n (number of
    opportunities)] records in all, and each of them has all seven required
    fields. *)
Theorem rule_based_length_and_fields
    (a : analysis) (opps : list opportunity) (n : Z) :
  (0 ≤ n)%Z →
  length (generate_rule_based_hypotheses a opps n) = Z.to_nat n `min` length opps
  ∧ Forall has_required_fields (generate_rule_based_hypotheses a opps n).
Proof.
  intros Hn. split; [|apply rule_based_fields].
  unfold generate_rule_based_hypotheses.
  by rewrite length_fmap, slice_to_nonneg, length_take.
Qed.

Lemma rule_based_length_and_fields_witness :
  let a := analyze_graph_patterns (λ _, None) empty_generator in
  let opps :=
    [ToolCombination "Explore combining Alpha with Beta" ("Alpha", "Beta")
       "These popular tools haven't been used together in existing research"] in
  length (generate_rule_based_hypotheses a opps 3) = Z.to_nat 3 `min` length opps
  ∧ Forall has_required_fields (generate_rule_based_hypotheses a opps 3).
Proof. intros a opps. apply (rule_based_length_and_fields a opps 3). lia. Defined.

(** ** Properties of the backend path *)

Section BackendFacts.

Context (lower : string → string) (str_slice : Z → string → string)
        (format_nat : nat → string) (format_float : Qc → string)
        (openai_chat anthropic_messages gemini_generate_content :
           string → string → string → result string)
        (json_loads : string → result json).

Implicit Types (self : generator) (a : analysis) (opps : list opportunity)
               (n : Z) (focus : option string).

Local Abbreviation generate :=
  (generate_hypotheses_with_llm lower str_slice format_nat format_float openai_chat
     anthropic_messages gemini_generate_content json_loads).
Local Abbreviation attempt :=
  (backend_attempt lower str_slice openai_chat anthropic_messages
     gemini_generate_content json_loads).
Local Abbreviation context := (prepare_llm_context format_nat format_float).

(** The body of the [try] is the selected vendor path, or the rule-based
    path when the model name selects none. *)
Lemma generate_unfold self a opps n focus :
  truthy (api_key self) = true →
  generate self a opps n focus
  = try_except
      (default (Ok (VList (generate_rule_based_hypotheses a opps n)))
               (attempt self (context a opps focus) n))
      (λ _, Ok (VList (generate_rule_based_hypotheses a opps n))).
Proof.
  intros Hkey. unfold generate_hypotheses_with_llm, backend_attempt.
  rewrite Hkey. cbn [negb].
  by repeat case_match.
Qed.

Lemma attempt_unknown_model self ctx n :
  unknown_model lower (model self) → attempt self ctx n = None.
Proof.
  intros (Hgpt & Hclaude & Hgemini). unfold backend_attempt.
  by rewrite Hgpt, Hclaude, Hgemini.
Qed.

(** A failure of the vendor call, of [json.loads], or of the slice, is a
    failure of the attempt. *)
Lemma loads_and_slice_raises text n e :
  json_loads text = Raise e → loads_and_slice str_slice json_loads text n = Raise e.
Proof. intros H. unfold loads_and_slice. by rewrite H. Qed.

Lemma loads_and_slice_no_slice text n :
  json_loads text = Ok JOther →
  loads_and_slice str_slice json_loads text n = Raise TypeError.
Proof. intros H. unfold loads_and_slice. by rewrite H. Qed.

Lemma generate_with_openai_call_raises self ctx n e :
  openai_chat (default "" (api_key self)) (model self) ctx = Raise e →
  generate_with_openai str_slice openai_chat json_loads self ctx n = Raise e.
Proof. intros H. unfold generate_with_openai. by rewrite H. Qed.

Lemma generate_never_raises_Exception self a opps n focus e :
  generate self a opps n focus = Raise e → is_Exception e = false.
Proof.
  destruct (truthy (api_key self)) eqn:Hkey.
  - rewrite generate_unfold by done. unfold try_except.
    destruct (default _ _) as [v|e']; [done|].
    destruct (is_Exception e') eqn:He; [done|]. by intros [= <-].
  - unfold generate_hypotheses_with_llm. by rewrite Hkey.
Qed.

Lemma generate_falls_back self a opps n focus :
  truthy (api_key self) = false
  ∨ unknown_model lower (model self)
  ∨ (∃ e, attempt self (context a opps focus) n = Some (Raise e)
          ∧ is_Exception e = true) →
  generate self a opps n focus
  = Ok (VList (generate_rule_based_hypotheses a opps n)).
Proof.
  destruct (truthy (api_key self)) eqn:Hkey.
  - intros [?|[Hm|(e & He & Hexc)]]; [done|..]; rewrite generate_unfold by done.
    + by rewrite attempt_unknown_model.
    + rewrite He. cbn. by rewrite Hexc.
  - intros _. unfold generate_hypotheses_with_llm. by rewrite Hkey.
Qed.

End BackendFacts.

(** C4: hypothesis generation does not surface a backend error.  Whatever
    the vendor clients and the JSON parser do, the call never ends in an
    exception of class [Exception]; and when no key is configured, or the
    model name selects no vendor, or the selected vendor path (the call, the
    parsing of its response, the slice) raises an error, the call returns what
    the rule-based path returns. *)
Theorem llm_errors_fall_back_to_rules
    (lower : string → string) (str_slice : Z → string → string)
    (format_nat : nat → string) (format_float : Qc → string)
    (openai_chat anthropic_messages gemini_generate_content :
       string → string → string → result string)
    (json_loads : string → result json)
    (self : generator) (a : analysis) (opps : list opportunity) (n : Z)
    (focus : option string) :
  let outcome :=
    generate_hypotheses_with_llm lower str_slice format_nat format_float openai_chat
      anthropic_messages gemini_generate_content json_loads self a opps n focus in
  (∀ e, outcome = Raise e → is_Exception e = false)
  ∧ (truthy (api_key self) = false
     ∨ unknown_model lower (model self)
     ∨ (∃ e, backend_attempt lower str_slice openai_chat anthropic_messages
               gemini_generate_content json_loads self
               (prepare_llm_context format_nat format_float a opps focus) n
             = Some (Raise e)
             ∧ is_Exception e = true) →
     outcome = Ok (VList (generate_rule_based_hypotheses a opps n))).
Proof.
  intros outcome. split.
  - intros e. apply generate_never_raises_Exception.
  - apply generate_falls_back.
Qed.

Lemma llm_errors_fall_back_to_rules_witness :
  let timeout : string → string → string → result string :=
    λ _ _ _, Raise (RuntimeError "request timed out") in
  let self := GeneratorObj (Some "sk-test") "gpt-4" ∅ [] in
  let a := analyze_graph_patterns (λ _, None) self in
  generate_hypotheses_with_llm (λ s, s) (λ _ s, s) (λ _, "0") (λ _, "0.0")
    timeout timeout timeout (λ _, Raise ValueError) self a [] 5 None
  = Ok (VList (generate_rule_based_hypotheses a [] 5)).
Proof.
  intros timeout self a.
  apply (llm_errors_fall_back_to_rules (λ s, s) (λ _ s, s) (λ _, "0") (λ _, "0.0")
           timeout timeout timeout (λ _, Raise ValueError) self a [] 5 None).
  right. right. exists (RuntimeError "request timed out"). split; reflexivity.
Defined.

(** ** Properties of the report summary *)

(** The expression of the summary on binary64 floats, adding from the left:
    with 0.2 and 0.8 rounded to the nearest float it gives exactly 0.5, and
    0 for the empty list; but it is the rounded quotient of the rounded sum
    and not the exact mean: six scores 0.7 give a value above 0.7. *)
Example avg_novelty_score_binary64_example :
  avg_novelty_score_binary64 [0x1.999999999999ap-3%float; 0x1.999999999999ap-1%float]
  = 0x1p-1%float
  ∧ avg_novelty_score_binary64 [] = 0%float.
Proof. split; reflexivity. Qed.

Example avg_novelty_score_binary64_rounds :
  PrimFloat.ltb 0x1.6666666666666p-1
    (avg_novelty_score_binary64 (replicate 6 0x1.6666666666666p-1%float))
  = true.
Proof. reflexivity. Qed.

(** ** Properties of the analyzer and the miner *)

Section MinerFacts.

Implicit Types (g : gset triple) (c : counts) (self : generator).

Lemma class_of_incr k c : class_of (incr k c) = class_of c.
Proof. reflexivity. Qed.

(** The usage tables are [defaultdict]s: that is how the analyzer creates
    them, and counting does not change the class. *)
Lemma class_of_usage_of g pred : class_of (usage_of g pred) = DefaultDict.
Proof.
  unfold usage_of. generalize (triples g).
  assert (class_of defaultdict_int = DefaultDict) as Hinit by reflexivity.
  revert Hinit. generalize defaultdict_int.
  intros c Hc l. revert c Hc.
  induction l as [|t l IH]; intros c Hc; cbn; [done|].
  apply IH. case_decide; [|done].
  destruct (get_entity_name g t.2) as [[|ch s]|]; by rewrite ?class_of_incr.
Qed.

Lemma tool_usage_analysis to_float self :
  tool_usage (analyze_graph_patterns to_float self)
  = usage_of (graph self) (SCIENTIFIC "usesTool").
Proof. unfold analyze_graph_patterns. by destruct (foldl _ _ _). Qed.

(** The miner applied to what the analyzer returns never gets past its
    first statement: [most_common] is no attribute of a [defaultdict]. *)
Lemma find_research_opportunities_raises to_float self :
  find_research_opportunities self (analyze_graph_patterns to_float self)
  = Raise (AttributeError "most_common").
Proof.
  unfold find_research_opportunities, most_common.
  by rewrite tool_usage_analysis, class_of_usage_of.
Qed.

Lemma slice_to_nil {A} (n : Z) : slice_to n (@nil A) = [].
Proof. unfold slice_to. case_bool_decide; apply take_nil. Qed.

End MinerFacts.

(** C1: two papers, one using the tool Alpha and the other the tool Beta.
    Both tools are in the usage table (which has two entries, so both are
    among the ten most used) and no paper uses both; the specification asks
    for one [tool_combination] opportunity for the pair, and the miner
    raises [AttributeError] instead. *)
Theorem unpaired_tools_miner_raises (to_float : term → option Qc) (u1 u2 : string) :
  let paper (t tool : string) :=
    {| title := Some t; abstract := None; doi := None; url := None;
       datePublished := None; author := None; keywords := None;
       methodology := None; tools := Some [ResourceStr tool]; datasets := None;
       results := None; conclusions := None |} in
  let g :=
    (add_paper_metadata u2 (paper "Second paper" "Beta")
       (add_paper_metadata u1 (paper "First paper" "Alpha") ∅).1).1 in
  let self := load_knowledge_graph g empty_generator in
  let a := analyze_graph_patterns to_float self in
  items (tool_usage a) ≡ₚ [("Alpha", 1); ("Beta", 1)]
  ∧ count_combined_tool_usage (graph self) "Alpha" "Beta" = 0
  ∧ find_research_opportunities self a = Raise (AttributeError "most_common").
Proof.
  intros paper g self a. split_and!.
  - unfold a. rewrite tool_usage_analysis. vm_compute.
    first [reflexivity | apply perm_swap].
  - vm_compute. reflexivity.
  - apply find_research_opportunities_raises.
Qed.

(** C3: the empty graph.  The analyzer returns its default analysis, with
    an empty centrality list, and the rule-based synthesizer returns the empty
    list; the miner, which the specification asks to return an empty
    opportunity list, raises [AttributeError]. *)
Theorem empty_graph_miner_raises
    (to_float : term → option Qc) (key : option string) (m : string) (n : Z) :
  let self := load_knowledge_graph ∅ (GeneratorObj key m ∅ []) in
  let a := analyze_graph_patterns to_float self in
  a = {| entity_counts := defaultdict_int; relationship_counts := defaultdict_int;
         tool_usage := defaultdict_int; dataset_usage := defaultdict_int;
         author_collaborations := defaultdict_int; reproducibility_scores := [];
         highly_connected_entities := []; research_gaps := [] |}
  ∧ generate_rule_based_hypotheses a [] n = []
  ∧ find_research_opportunities self a = Raise (AttributeError "most_common").
Proof.
  intros self a. split_and!.
  - reflexivity.
  - unfold generate_rule_based_hypotheses. by rewrite slice_to_nil.
  - apply find_research_opportunities_raises.
Qed.

(** C9: the report is where [avg_novelty_score] is computed, and no
    report is ever built.  For every graph file that parses, and whatever
    hypotheses the backends or the rules would give, [generate_research_report]
    ends in the [AttributeError] of the miner, which it calls before it
    generates a hypothesis and long before the summary; for a file that
    does not parse it ends in the error of the parser.  The specification
    asks for a report whose [avg_novelty_score] is the mean of the scores. *)
Theorem avg_novelty_score_never_reported
    (lower : string → string) (str_slice : Z → string → string)
    (format_nat : nat → string) (format_float : Qc → string)
    (openai_chat anthropic_messages gemini_generate_content :
       string → string → string → result string)
    (json_loads : string → result json) (to_float : term → option Qc)
    (now : string) (self : generator) (graph_file : string)
    (parsed : result (gset triple)) (num_hypotheses : Z)
    (focus_area : option string) :
  let outcome :=
    generate_research_report lower str_slice format_nat format_float openai_chat
      anthropic_messages gemini_generate_content json_loads to_float now self
      graph_file parsed num_hypotheses focus_area in
  (∀ g, parsed = Ok g → outcome = Raise (AttributeError "most_common"))
  ∧ (∀ report, outcome ≠ Ok report).
Proof.
  intros outcome. subst outcome. unfold generate_research_report.
  destruct parsed as [g|e].
  - unfold mbind, result_bind.
    rewrite find_research_opportunities_raises.
    split; [by intros g' _|by intros report].
  - split; [by intros g|by intros report].
Qed.

(** ** The miner past [most_common] *)

Section MinerWithCounter.

Implicit Types (g : gset triple) (l : list (string * nat)) (ks : list string)
               (A B k : string).

Lemma incr_items_keys k l :
  (incr_items k l).*1 = if bool_decide (k ∈ l.*1) then l.*1 else l.*1 ++ [k].
Proof.
  induction l as [|[k' n] l IH]; cbn; [done|].
  destruct (decide (k' = k)) as [->|Hk].
  - rewrite bool_decide_eq_true_2 by apply list_elem_of_here. done.
  - cbn. rewrite IH. destruct (bool_decide (k ∈ l.*1)) eqn:Hin.
    + apply bool_decide_eq_true_1 in Hin.
      by rewrite bool_decide_eq_true_2 by by apply list_elem_of_further.
    + apply bool_decide_eq_false_1 in Hin.
      rewrite bool_decide_eq_false_2; [done|].
      intros [?|?]%elem_of_cons; [by subst|done].
Qed.

Lemma incr_items_NoDup k l : NoDup l.*1 → NoDup (incr_items k l).*1.
Proof.
  intros Hl. rewrite incr_items_keys. case_bool_decide as Hin; [done|].
  apply NoDup_app. split_and!; [done| |apply NoDup_singleton].
  intros x Hx ->%list_elem_of_singleton. done.
Qed.

Lemma usage_of_NoDup g pred : NoDup (keys (usage_of g pred)).
Proof.
  unfold usage_of, keys. generalize (triples g).
  assert (NoDup (items defaultdict_int).*1) as Hinit by apply NoDup_nil_2.
  revert Hinit. generalize defaultdict_int.
  intros c Hc l. revert c Hc.
  induction l as [|t l IH]; intros c Hc; cbn; [done|].
  apply IH. case_decide; [|done].
  destruct (get_entity_name g t.2) as [[|ch s]|]; [done| |done].
  by apply incr_items_NoDup.
Qed.

Lemma insert_desc_perm {T K} (gt : K → K → bool) (key : T → K) x (l : list T) :
  insert_desc gt key x l ≡ₚ x :: l.
Proof.
  induction l as [|y l IH]; cbn; [done|].
  destruct (gt (key y) (key x)); [|done].
  rewrite IH. apply perm_swap.
Qed.

Lemma sorted_desc_perm {T K} (gt : K → K → bool) (key : T → K) (l : list T) :
  sorted_desc gt key l ≡ₚ l.
Proof.
  unfold sorted_desc. induction l as [|x l IH]; cbn; [done|].
  by rewrite insert_desc_perm, IH.
Qed.

Lemma top_keys_NoDup l n :
  NoDup l.*1 →
  NoDup (take n (sorted_desc (λ a b : nat, bool_decide (b < a)) snd l)).*1.
Proof.
  intros Hl. rewrite fmap_take.
  eapply sublist_NoDup; [|apply sublist_take].
  by rewrite sorted_desc_perm.
Qed.

Lemma elem_of_tool_pairs ks (p : string * string) :
  p ∈ tool_pairs ks → p.1 ∈ ks ∧ p.2 ∈ ks.
Proof.
  induction ks as [|k ks IH]; cbn; [by intros ?%elem_of_nil|].
  intros [Hp|Hp]%elem_of_app.
  - apply list_elem_of_fmap in Hp as (x & -> & Hx). cbn.
    split; [apply list_elem_of_here|by apply list_elem_of_further].
  - destruct (IH Hp). split; by apply list_elem_of_further.
Qed.

Lemma same_pair_sym A B p : same_pair A B p ↔ same_pair B A p.
Proof. unfold same_pair. tauto. Qed.

(** The pairs that start at [k]. *)
Lemma pairs_from_count A B k ks :
  A ≠ B → NoDup ks →
  length (filter (same_pair A B) ((λ x, (k, x)) <$> ks))
  = if bool_decide ((k = A ∧ B ∈ ks) ∨ (k = B ∧ A ∈ ks)) then 1 else 0.
Proof.
  intros HAB. induction 1 as [|x ks Hx Hks IH].
  - cbn. rewrite bool_decide_eq_false_2; [done|].
    intros [[_ ?%elem_of_nil]|[_ ?%elem_of_nil]]; done.
  - rewrite fmap_cons, filter_cons. unfold same_pair at 1.
    destruct (decide _) as [Hsame|Hsame]; cbn [length]; rewrite IH.
    + assert ((k = A ∧ x = B) ∨ (k = B ∧ x = A)) as Hkx.
      { destruct Hsame as [[= -> ->]|[= -> ->]]; [by left|by right]. }
      rewrite (bool_decide_eq_false_2 (_ ∨ _)).
      * rewrite bool_decide_eq_true_2; [done|].
        destruct Hkx as [[-> ->]|[-> ->]]; [left|right];
          (split; [done|apply list_elem_of_here]).
      * destruct Hkx as [[-> ->]|[-> ->]]; intros [[? ?]|[? ?]]; done.
    + erewrite bool_decide_ext; [done|]. rewrite !elem_of_cons.
      split.
      * intros [[-> ?]|[-> ?]]; [left|right]; (split; [done|by right]).
      * intros [[-> [->|?]]|[-> [->|?]]].
        -- destruct Hsame. by left.
        -- left. done.
        -- destruct Hsame. by right.
        -- right. done.
Qed.

Lemma tool_pairs_count A B ks :
  A ≠ B → NoDup ks →
  length (filter (same_pair A B) (tool_pairs ks))
  = if bool_decide (A ∈ ks ∧ B ∈ ks) then 1 else 0.
Proof.
  intros HAB. induction 1 as [|k ks Hk Hks IH].
  - cbn. rewrite bool_decide_eq_false_2; [done|]. by intros [?%elem_of_nil _].
  - cbn [tool_pairs]. rewrite filter_app, length_app, IH, pairs_from_count by done.
    repeat case_bool_decide; try done; exfalso;
      repeat match goal with
             | H : context [_ ∈ _ :: _] |- _ => setoid_rewrite elem_of_cons in H
             end;
      intuition (subst; tauto).
Qed.


(** What one statement contributes to the two sets that
    [_count_combined_tool_usage] collects. *)
Lemma combined_usage_step_spec g A B (P1 P2 : gset term) (t : triple) paper :
  let r := combined_usage_step g A B (P1, P2) t in
  (paper ∈ r.1 ↔
     paper ∈ P1 ∨ (t.1.1 = paper ∧ t.1.2 = SCIENTIFIC "usesTool"
                   ∧ get_entity_name g t.2 = Some A))
  ∧ (paper ∈ r.2 ↔
       paper ∈ P2 ∨ (t.1.1 = paper ∧ t.1.2 = SCIENTIFIC "usesTool"
                     ∧ get_entity_name g t.2 ≠ Some A
                     ∧ get_entity_name g t.2 = Some B)).
Proof.
  unfold combined_usage_step. cbn zeta.
  destruct (decide (t.1.2 = SCIENTIFIC "usesTool")) as [Hp|Hp];
    [destruct (decide (get_entity_name g t.2 = Some A)) as [HA|HA];
     [|destruct (decide (get_entity_name g t.2 = Some B)) as [HB|HB]]|];
    cbn [fst snd]; rewrite ?elem_of_union, ?elem_of_singleton;
    split; split; intros H; intuition congruence.
Qed.

Lemma combined_usage_fold g A B (l : list triple) (P1 P2 : gset term) paper :
  let r := foldl (combined_usage_step g A B) (P1, P2) l in
  (paper ∈ r.1 ↔
     paper ∈ P1
     ∨ Exists (λ t, t.1.1 = paper ∧ t.1.2 = SCIENTIFIC "usesTool"
                    ∧ get_entity_name g t.2 = Some A) l)
  ∧ (paper ∈ r.2 ↔
       paper ∈ P2
       ∨ Exists (λ t, t.1.1 = paper ∧ t.1.2 = SCIENTIFIC "usesTool"
                      ∧ get_entity_name g t.2 ≠ Some A
                      ∧ get_entity_name g t.2 = Some B) l).
Proof.
  revert P1 P2. induction l as [|t l IH]; intros P1 P2; cbn zeta.
  - cbn. rewrite !Exists_nil. tauto.
  - cbn [foldl].
    pose proof (combined_usage_step_spec g A B P1 P2 t paper) as Hstep.
    cbn zeta in Hstep.
    destruct (combined_usage_step g A B (P1, P2) t) as [Q1 Q2].
    cbn [fst snd] in Hstep. destruct Hstep as [H1 H2].
    specialize (IH Q1 Q2). cbn zeta in IH. destruct IH as [IH1 IH2].
    rewrite IH1, IH2, H1, H2, !Exists_cons. tauto.
Qed.

(** The count is zero exactly when no paper uses both tools. *)
Lemma count_combined_zero g A B :
  A ≠ B →
  count_combined_tool_usage g A B = 0
  ↔ ∀ paper, ¬ (paper_uses g paper A ∧ paper_uses g paper B).
Proof.
  intros HAB. unfold count_combined_tool_usage.
  pose proof (λ paper, combined_usage_fold g A B (triples g) ∅ ∅ paper) as Hfold.
  cbn zeta in Hfold.
  destruct (foldl _ _ _) as [p1 p2]. cbn [fst snd] in Hfold.
  assert (∀ paper, paper ∈ p1 ↔ paper_uses g paper A) as Hp1.
  { intros paper. destruct (Hfold paper) as [-> _]. rewrite Exists_exists.
    unfold paper_uses, triples. split.
    - intros [?%elem_of_empty|([[s p] o] & Hin%elem_of_elements & Hs & Hp & Hn)];
        [done|]. cbn in *. subst. by exists o.
    - intros (o & Hin & Hn). right. exists (paper, SCIENTIFIC "usesTool", o).
      by rewrite elem_of_elements. }
  assert (∀ paper, paper ∈ p2 ↔ paper_uses g paper B) as Hp2.
  { intros paper. destruct (Hfold paper) as [_ ->]. rewrite Exists_exists.
    unfold paper_uses, triples. split.
    - intros [?%elem_of_empty|([[s p] o] & Hin%elem_of_elements & Hs & Hp & _ & Hn)];
        [done|]. cbn in *. subst. by exists o.
    - intros (o & Hin & Hn). right. exists (paper, SCIENTIFIC "usesTool", o).
      rewrite elem_of_elements. split_and!; [done..| |done].
      cbn. rewrite Hn. by intros [= ->]. }
  rewrite size_empty_iff. split.
  - intros Hempty paper [HA HB]. apply (not_elem_of_empty (C:=gset term) paper).
    rewrite <-Hempty, elem_of_intersection, Hp1, Hp2. done.
  - intros Hnone paper. split; [|by intros ?%elem_of_empty].
    rewrite elem_of_intersection, Hp1, Hp2. intros ?. by destruct (Hnone paper).
Qed.


Lemma filter_none {T} (P : T → Prop) `{!∀ x, Decision (P x)} (xs : list T) :
  (∀ x, ¬ P x) → filter P xs = [].
Proof.
  intros HP. induction xs as [|x xs IH]; [done|].
  rewrite filter_cons. by rewrite decide_False by apply HP.
Qed.

Lemma paper_uses_both_sym g A B :
  (∀ paper, ¬ (paper_uses g paper A ∧ paper_uses g paper B))
  ↔ (∀ paper, ¬ (paper_uses g paper B ∧ paper_uses g paper A)).
Proof. split; intros H paper [? ?]; by apply (H paper). Qed.

(** The opportunities for the pair among those of the first rule: one for
    every occurrence of the pair in the loops whose count is zero. *)
Lemma combination_opportunities_filter g A B (pairs : list (string * string)) :
  length (filter (combines A B)
            (omap (λ '(tool1, tool2),
                     if decide (count_combined_tool_usage g tool1 tool2 = 0) then
                       Some (ToolCombination
                               ("Explore combining " +:+ tool1 +:+ " with " +:+ tool2)
                               (tool1, tool2)
                               "These popular tools haven't been used together in existing research")
                     else None) pairs))
  = length (filter (λ p, same_pair A B p
                         ∧ count_combined_tool_usage g p.1 p.2 = 0) pairs).
Proof.
  induction pairs as [|[t1 t2] pairs IH]; [done|].
  rewrite filter_cons. cbn [omap list_omap fst snd].
  destruct (decide (count_combined_tool_usage g t1 t2 = 0)) as [Hz|Hz].
  - rewrite filter_cons. cbn [combines].
    destruct (decide (same_pair A B (t1, t2))) as [Hs|Hs].
    + rewrite decide_True by done. cbn [length]. by rewrite IH.
    + rewrite decide_False by tauto. done.
  - rewrite decide_False by tauto. done.
Qed.

Lemma other_opportunities_do_not_combine A B (a : analysis) :
  filter (combines A B)
    (dataset_reuse_opportunities a ++ reproducibility_opportunities a) = [].
Proof.
  rewrite filter_app.
  assert (filter (combines A B) (dataset_reuse_opportunities a) = []) as ->.
  { unfold dataset_reuse_opportunities. generalize (take 5 (omap (λ '(name, count), if decide (count = 1) then Some name else None) (items (dataset_usage a)))) as ds.
    induction ds as [|d ds IH]; [done|].
    rewrite fmap_cons, filter_cons. cbn [combines]. by rewrite decide_False by tauto. }
  unfold reproducibility_opportunities.
  destruct (reproducibility_scores a); [done|].
  case_decide; [|done]. rewrite filter_cons. cbn [combines].
  by rewrite decide_False by tauto.
Qed.

(** What the miner returns once [tool_usage] is a [Counter]: for two
    different tools among the ten most used, one [tool_combination]
    opportunity if no paper uses both, and none if some paper does. *)
Lemma miner_with_counter to_float (self : generator) A B :
  let a := with_counter (analyze_graph_patterns to_float self) in
  ∃ top opps,
    most_common (tool_usage a) 10 = Ok top
    ∧ find_research_opportunities self a = Ok opps
    ∧ (A ∈ top.*1 → B ∈ top.*1 → A ≠ B →
       ((∀ paper, ¬ (paper_uses (graph self) paper A ∧ paper_uses (graph self) paper B))
        → length (filter (combines A B) opps) = 1)
       ∧ ((∃ paper, paper_uses (graph self) paper A ∧ paper_uses (graph self) paper B)
          → filter (combines A B) opps = [])).
Proof.
  intros a.
  set (top := take 10 (sorted_desc (λ x y : nat, bool_decide (y < x)) snd
                         (items (tool_usage (analyze_graph_patterns to_float self))))).
  exists top, (tool_combination_opportunities (graph self) top.*1
               ++ dataset_reuse_opportunities a ++ reproducibility_opportunities a).
  split_and!; [done..|].
  intros HA HB HAB.
  assert (NoDup top.*1) as Hnodup.
  { apply top_keys_NoDup. rewrite tool_usage_analysis. apply usage_of_NoDup. }
  assert (length (filter (same_pair A B) (tool_pairs top.*1)) = 1) as Hone.
  { rewrite tool_pairs_count by done. by rewrite bool_decide_eq_true_2. }
  rewrite filter_app, other_opportunities_do_not_combine, app_nil_r.
  unfold tool_combination_opportunities.
  split.
  - intros Hnone. rewrite combination_opportunities_filter, <-Hone.
    f_equal. apply list_filter_iff. intros [t1 t2]. cbn [fst snd].
    split; [tauto|]. intros Hs. split; [done|].
    destruct Hs as [[= -> ->]|[= -> ->]].
    + by apply count_combined_zero.
    + apply count_combined_zero; [done|]. by apply paper_uses_both_sym.
  - intros (paper & HpA & HpB). apply nil_length_inv.
    rewrite combination_opportunities_filter.
    rewrite filter_none; [done|].
    intros [t1 t2] [Hs Hz]. cbn [fst snd] in Hz.
    destruct Hs as [[= -> ->]|[= -> ->]].
    + pose proof (proj1 (count_combined_zero _ _ _ HAB) Hz) as Hnone.
      by apply (Hnone paper).
    + pose proof (proj1 (count_combined_zero _ _ _ (not_eq_sym HAB)) Hz) as Hnone.
      by apply (Hnone paper).
Qed.

End MinerWithCounter.

(** ** More on the identifier minter *)

Section QuoteFacts.

Lemma all_chars_app P (s1 s2 : string) :
  all_chars P (s1 +:+ s2) = all_chars P s1 && all_chars P s2.
Proof.
  induction s1 as [|c s1 IH]; [done|]. simpl. by rewrite IH, andb_assoc.
Qed.

Lemma quote_byte_alphabet (c : ascii) :
  all_chars (λ c, always_safe c || Ascii.eqb c "%") (quote_byte c) = true.
Proof. destruct c as [[] [] [] [] [] [] [] []]; reflexivity. Qed.

Lemma quote_byte_safe (c : ascii) :
  always_safe c = true → quote_byte c = String c "".
Proof. intros H. unfold quote_byte. by rewrite H. Qed.

End QuoteFacts.

(** X1: the part that [create_uri] adds to the namespace is made of
    unreserved characters (letters, digits, [_.-~]) and percent signs only:
    whatever the name, the identifier has no space, slash, colon, quote or
    byte outside ASCII after its namespace. *)
Theorem create_uri_alphabet (base s : string) :
  ∃ local_part,
    create_uri base s = base +:+ local_part
    ∧ all_chars (λ c, always_safe c || Ascii.eqb c "%") local_part = true.
Proof.
  exists (quote (replace_space s)). split; [done|].
  generalize (replace_space s) as r.
  induction r as [|c r IH]; [done|].
  cbn [quote]. by rewrite all_chars_app, quote_byte_alphabet, IH.
Qed.

(** X2: a name made of unreserved characters and spaces is kept as it is
    but for the spaces: the identifier is the namespace followed by the name
    with an underscore for every space. *)
Theorem create_uri_verbatim (base s : string) :
  all_chars (λ c, always_safe c || Ascii.eqb c " ") s = true →
  create_uri base s = base +:+ replace_space s.
Proof.
  intros Hs. unfold create_uri. f_equal.
  induction s as [|c s IH]; [done|].
  cbn [all_chars] in Hs. apply andb_true_iff in Hs as [Hc Hs].
  cbn [replace_space quote]. rewrite (IH Hs).
  destruct (Ascii.eqb c " ") eqn:Hsp.
  - reflexivity.
  - rewrite orb_false_r in Hc. by rewrite quote_byte_safe.
Qed.

Lemma create_uri_verbatim_witness :
  create_uri "https://tools.org/" "scikit-learn 1.4"
  = "https://tools.org/" +:+ replace_space "scikit-learn 1.4".
Proof. apply (create_uri_verbatim "https://tools.org/" "scikit-learn 1.4"). reflexivity. Defined.

(** ** More on ingestion *)

Section IngestionFacts.

Implicit Types (g : gset triple) (t : triple).

Lemma framed_grows {A} (m : M A) g : framed m → g ⊆ (m g).1.
Proof. intros Hm. rewrite (Hm g). cbn. apply union_subseteq_r. Qed.

Lemma framed_if_some {A} (o : option A) (body : A → M unit) :
  (∀ a, framed (body a)) → framed (if_some o body).
Proof. intros Hb. destruct o; cbn; [apply Hb|apply (framed_ret tt)]. Qed.

Lemma total_if_some {A} (o : option A) (body : A → M unit) :
  (∀ a, total (body a)) → total (if_some o body).
Proof. intros Hb. destruct o; cbn; [apply Hb|apply (total_ret tt)]. Qed.

Lemma emits_add t : emits (add t) t.
Proof. intros g. unfold add, graph_add. cbn. apply elem_of_union_l, elem_of_singleton. done. Qed.

Lemma emits_bind_l {A B} (m : M A) (k : A → M B) t :
  emits m t → (∀ a, framed (k a)) → emits (m ≫= k) t.
Proof.
  intros Hm Hk g. unfold mbind, M_bind, bind. specialize (Hm g).
  destruct (m g) as [g' [a|e]]; cbn in *; [|done].
  by apply (framed_grows (k a) g' (Hk a)).
Qed.

Lemma emits_bind_r {A B} (m : M A) (k : A → M B) t :
  total m → (∀ a, emits (k a) t) → emits (m ≫= k) t.
Proof.
  intros Hm Hk g. unfold mbind, M_bind, bind. destruct (Hm g) as [a Ha].
  destruct (m g) as [g' r]. cbn in Ha. subst r. apply Hk.
Qed.

Lemma emits_for_each {A} (xs : list A) (body : A → M unit) x t :
  x ∈ xs → (∀ y, total (body y)) → (∀ y, framed (body y)) →
  emits (body x) t → emits (for_each xs body) t.
Proof.
  intros Hx Htot Hfr Hem. induction xs as [|y xs IH]; [by apply elem_of_nil in Hx|].
  cbn [for_each]. apply elem_of_cons in Hx as [->|Hx].
  - apply emits_bind_l; [done|]. intros _. by apply framed_for_each.
  - apply emits_bind_r; [apply Htot|]. intros _. by apply IH.
Qed.

Lemma emits_if_truthy o (body : string → M unit) t :
  (∀ s, o = Some s → emits (body s) t) → truthy o = true → emits (if_truthy o body) t.
Proof. intros Hb Ho. destruct o as [[|c s]|]; [done| |done]. by apply Hb. Qed.

Lemma emits_if_nonempty {A} (o : option (list A)) (body : list A → M unit) l t :
  o = Some l → l ≠ [] → emits (body l) t → emits (if_nonempty o body) t.
Proof. intros -> Hl Hb. destruct l; done. Qed.

Lemma yields_ret {A} (a : A) : yields (mret a) a.
Proof. by intros g. Qed.

Lemma yields_bind {A B} (m : M A) (k : A → M B) b :
  total m → (∀ a, yields (k a) b) → yields (m ≫= k) b.
Proof.
  intros Hm Hk g. unfold mbind, M_bind, bind. destruct (Hm g) as [a Ha].
  destruct (m g) as [g' r]. cbn in Ha. subst r. apply Hk.
Qed.

Lemma emits_bind_yield {A B} (m : M A) (k : A → M B) a t :
  yields m a → emits (k a) t → emits (m ≫= k) t.
Proof.
  intros Hm Hk g. unfold mbind, M_bind, bind. specialize (Hm g).
  destruct (m g) as [g' r]. cbn in Hm. subst r. apply Hk.
Qed.

Lemma yields_total {A} (m : M A) a : yields m a → total m.
Proof. intros Hm g. by exists a. Qed.

Lemma yields_add_author a : yields (add_author a) (author_uri_of a).
Proof.
  unfold add_author, author_uri_of.
  destruct a as [s|n aff]; repeat (apply yields_bind; [|intros ?]);
    try apply yields_ret;
    repeat first [apply total_add | apply total_if_truthy; intros ?
                 | apply total_bind; [|intros ?]].
Qed.

Lemma yields_add_tool d : yields (add_tool d) (tool_uri_of d).
Proof.
  unfold add_tool, tool_uri_of, tool_name_of.
  destruct d as [s|n u]; repeat (apply yields_bind; [|intros ?]);
    try apply yields_ret;
    repeat first [apply total_add | apply total_if_truthy; intros ?
                 | apply total_bind; [|intros ?]].
Qed.

Lemma yields_add_dataset d : yields (add_dataset d) (dataset_uri_of d).
Proof.
  unfold add_dataset, dataset_uri_of, dataset_name_of.
  destruct d as [s|n u]; repeat (apply yields_bind; [|intros ?]);
    try apply yields_ret;
    repeat first [apply total_add | apply total_if_truthy; intros ?
                 | apply total_bind; [|intros ?]].
Qed.

End IngestionFacts.

Ltac builder_framed :=
  repeat lazymatch goal with
         | |- framed (add _) => apply framed_add
         | |- framed (ret _) => apply framed_ret
         | |- framed (mret _) => apply framed_ret
         | |- framed (raise _) => apply framed_raise
         | |- framed (getitem_title _) => apply framed_getitem_title
         | |- framed (add_author _) => apply framed_add_author
         | |- framed (add_tool _) => apply framed_add_tool
         | |- framed (add_dataset _) => apply framed_add_dataset
         | |- framed (if_truthy _ _) => apply framed_if_truthy; intros ?
         | |- framed (if_some _ _) => apply framed_if_some; intros ?
         | |- framed (if_nonempty _ _) => apply framed_if_nonempty; intros ?
         | |- framed (for_each _ _) => apply framed_for_each; intros ?
         | |- framed (mbind _ _) => apply framed_bind; [|intros ?]
         | |- framed (let '(_, _) := ?p in _) => destruct p
         end.

Ltac builder_total :=
  repeat lazymatch goal with
         | |- total (add _) => apply total_add
         | |- total (ret _) => apply total_ret
         | |- total (mret _) => apply total_ret
         | |- total (add_author _) => apply total_add_author
         | |- total (add_tool _) => apply total_add_tool
         | |- total (add_dataset _) => apply total_add_dataset
         | H : is_Some (title ?md) |- total (getitem_title ?md) =>
             by apply total_getitem_title
         | H : truthy ?o = false |- total (if_truthy ?o _) => by apply total_if_falsy
         | |- total (if_truthy _ _) => apply total_if_truthy; intros ?
         | |- total (if_some _ _) => apply total_if_some; intros ?
         | |- total (if_nonempty _ _) => apply total_if_nonempty; intros ?
         | |- total (for_each _ _) => apply total_for_each; intros ?
         | |- total (mbind _ _) => apply total_bind; [|intros ?]
         | |- total (let '(_, _) := ?p in _) => destruct p
         end.

(** X3: ingestion never takes a statement out of the store, whether it
    returns or raises: the store after [add_paper_metadata] holds every
    statement of the store before, and so does the store after
    [add_author], [add_tool] and [add_dataset]. *)
Theorem ingestion_keeps_statements
    (uuid4 : string) (md : metadata) (a : author_data) (d : resource_data)
    (g : gset triple) :
  g ⊆ (add_paper_metadata uuid4 md g).1
  ∧ g ⊆ (add_author a g).1 ∧ g ⊆ (add_tool d g).1 ∧ g ⊆ (add_dataset d g).1.
Proof.
  split_and!; apply framed_grows.
  - apply framed_add_paper_metadata.
  - apply framed_add_author.
  - apply framed_add_tool.
  - apply framed_add_dataset.
Qed.

Section ReturnFacts.

(** In the embedding every identifier can be minted, so that a record
    which has a title key, or none of methodology, results and conclusions,
    is ingested to the end. *)
Lemma ingestible_yields (uuid4 : string) (md : metadata) :
  ingestible md → yields (add_paper_metadata uuid4 md) (paper_uri_of uuid4 md).
Proof.
  intros Hing. unfold add_paper_metadata, paper_uri_of.
  destruct Hing as [Ht|Hnone].
  - repeat (apply yields_bind; [builder_total|intros _]). apply yields_ret.
  - apply orb_false_elim in Hnone as [[Hm Hr]%orb_false_elim Hc].
    repeat (apply yields_bind; [builder_total|intros _]). apply yields_ret.
Qed.

(** A call that returned has read [metadata['title']] nowhere without a
    title. *)
Lemma returned_ingestible (uuid4 : string) (md : metadata) (g : gset triple) paper :
  (add_paper_metadata uuid4 md g).2 = Ok paper → ingestible md.
Proof.
  intros Hret. unfold ingestible.
  destruct (title md) as [t|] eqn:Ht; [left; by eexists|right].
  destruct (truthy (methodology md) || truthy (results md) || truthy (conclusions md))
    eqn:Hsome; [exfalso|done].
  assert (raises (add_paper_metadata uuid4 md) (KeyError "title")) as Hraises.
  { assert (∀ o (body : string → M unit),
              truthy o = true →
              (∀ s, raises (body s) (KeyError "title")) →
              raises (if_truthy o body) (KeyError "title")) as Hblock.
    { intros o body Ho Hb. by apply raises_if_truthy. }
    unfold add_paper_metadata.
    do 8 (apply raises_bind_r; [builder_total|intros _]).
    destruct (truthy (methodology md)) eqn:Hm.
    { apply raises_bind_l, Hblock; [done|intros ?].
      apply raises_bind_l. by apply raises_getitem_title. }
    do 3 (apply raises_bind_r; [builder_total|intros _]).
    destruct (truthy (results md)) eqn:Hr.
    { apply raises_bind_l, Hblock; [done|intros ?].
      apply raises_bind_l. by apply raises_getitem_title. }
    apply raises_bind_r; [builder_total|intros _].
    apply raises_bind_l, Hblock; [by cbn in Hsome|intros ?].
    apply raises_bind_l. by apply raises_getitem_title. }
  specialize (Hraises g). congruence.
Qed.

End ReturnFacts.

(** X4: when [add_paper_metadata] returns, the record has a title key or
    has none of methodology, results and conclusions, and what is returned
    is the identifier made from the DOI if the record has one, else the URL
    if it has one, else minted from the title (from [uuid4] when there is no
    title key). *)
Theorem add_paper_metadata_returned_identifier
    (uuid4 : string) (md : metadata) (g : gset triple) (paper : term) :
  (add_paper_metadata uuid4 md g).2 = Ok paper →
  ingestible md ∧ paper = paper_uri_of uuid4 md.
Proof.
  intros Hret.
  assert (ingestible md) as Hing by by eapply returned_ingestible.
  split; [done|].
  pose proof (ingestible_yields uuid4 md Hing g) as Hy.
  rewrite Hret in Hy. by injection Hy.
Qed.

Lemma add_paper_metadata_returned_identifier_witness :
  let md :=
    {| title := Some "Graph mining"; abstract := None; doi := Some "10.1000/xyz123";
       url := None; datePublished := None; author := None; keywords := None;
       methodology := Some "survey"; tools := None; datasets := None;
       results := None; conclusions := None |} in
  ingestible md
  ∧ URIRef "https://doi.org/10.1000/xyz123"
    = paper_uri_of "1b4e28ba-2fa1-11d2-883f-0016d3cca427" md.
Proof.
  intros md.
  apply (add_paper_metadata_returned_identifier
           "1b4e28ba-2fa1-11d2-883f-0016d3cca427" md ∅
           (URIRef "https://doi.org/10.1000/xyz123")).
  by vm_compute.
Defined.

Ltac skip_block := apply emits_bind_r; [builder_total|intros _].
Ltac here_block := apply emits_bind_l; [|intros ?; builder_framed].
Ltac in_loop l x H :=
  eapply (emits_if_nonempty _ _ l);
    [done|let Hnil := fresh in intros Hnil; rewrite Hnil in H; by apply elem_of_nil in H|];
  apply (emits_for_each l _ x);
    [done|intros ?; builder_total|intros ?; builder_framed|].

Section LinkFacts.

Lemma ingestible_cases (md : metadata) :
  ingestible md →
  is_Some (title md)
  ∨ (truthy (methodology md) = false ∧ truthy (results md) = false
     ∧ truthy (conclusions md) = false).
Proof.
  intros [?|Hnone]; [by left|right].
  apply orb_false_elim in Hnone as [[? ?]%orb_false_elim ?]. done.
Qed.

(** The three statements that ingestion adds for a tool of the record. *)
Lemma emits_tool_statements (uuid4 : string) (md : metadata) l (d : resource_data) :
  ingestible md → tools md = Some l → d ∈ l →
  emits (add_paper_metadata uuid4 md)
    (paper_uri_of uuid4 md, SCIENTIFIC "usesTool", tool_uri_of d)
  ∧ emits (add_paper_metadata uuid4 md)
      (tool_uri_of d, RDF_type, SCIENTIFIC "SoftwareTool")
  ∧ emits (add_paper_metadata uuid4 md)
      (tool_uri_of d, SCHEMA "name", Literal (tool_name_of d) None).
Proof.
  intros Hcases%ingestible_cases Hl Hd. unfold add_paper_metadata, paper_uri_of.
  split_and!;
    (destruct Hcases as [Ht|(Hm & Hr & Hc)]; do 9 skip_block; here_block;
     in_loop l d Hd).
  1,2: eapply emits_bind_yield; [apply yields_add_tool|apply emits_add].
  1,2: here_block; unfold add_tool, tool_uri_of, tool_name_of; destruct d;
    here_block; apply emits_add.
  1,2: here_block; unfold add_tool, tool_uri_of, tool_name_of; destruct d;
    skip_block; here_block; apply emits_add.
Qed.

End LinkFacts.

(** What the store holds once an ingestible record has been ingested. *)
Lemma ingestible_links
    (uuid4 : string) (md : metadata) (g : gset triple) :
  ingestible md →
  let g' := (add_paper_metadata uuid4 md g).1 in
  let paper := paper_uri_of uuid4 md in
  (paper, RDF_type, SCHEMA "ScholarlyArticle") ∈ g'
  ∧ (∀ l a, author md = Some l → a ∈ l →
       (paper, SCHEMA "author", author_uri_of a) ∈ g')
  ∧ (∀ l k, keywords md = Some l → k ∈ l →
       (paper, SCHEMA "keywords", keyword_uri_of k) ∈ g')
  ∧ (∀ l d, tools md = Some l → d ∈ l →
       (paper, SCIENTIFIC "usesTool", tool_uri_of d) ∈ g'
       ∧ (tool_uri_of d, RDF_type, SCIENTIFIC "SoftwareTool") ∈ g'
       ∧ (tool_uri_of d, SCHEMA "name", Literal (tool_name_of d) None) ∈ g')
  ∧ (∀ l d, datasets md = Some l → d ∈ l →
       (paper, SCIENTIFIC "usesDataset", dataset_uri_of d) ∈ g'
       ∧ (dataset_uri_of d, RDF_type, SCHEMA "Dataset") ∈ g'
       ∧ (dataset_uri_of d, SCHEMA "name", Literal (dataset_name_of d) None) ∈ g').
Proof.
  intros Hing g' paper. subst g' paper. revert g.
  assert (∀ t, emits (add_paper_metadata uuid4 md) t →
               ∀ g, t ∈ (add_paper_metadata uuid4 md g).1) as Hem by (intros t H; exact H).
  assert (is_Some (title md)
          ∨ (truthy (methodology md) = false ∧ truthy (results md) = false
             ∧ truthy (conclusions md) = false)) as Hcases.
  { by apply ingestible_cases. }
  assert (emits (add_paper_metadata uuid4 md)
            (paper_uri_of uuid4 md, RDF_type, SCHEMA "ScholarlyArticle")) as H0.
  { unfold add_paper_metadata, paper_uri_of. here_block. apply emits_add. }
  assert (∀ l a, author md = Some l → a ∈ l →
            emits (add_paper_metadata uuid4 md)
              (paper_uri_of uuid4 md, SCHEMA "author", author_uri_of a)) as H1.
  { intros l a Hl Ha. unfold add_paper_metadata, paper_uri_of.
    destruct Hcases as [Ht|(Hm & Hr & Hc)]; do 6 skip_block; here_block;
      in_loop l a Ha;
      (eapply emits_bind_yield; [apply yields_add_author|apply emits_add]). }
  assert (∀ l k, keywords md = Some l → k ∈ l →
            emits (add_paper_metadata uuid4 md)
              (paper_uri_of uuid4 md, SCHEMA "keywords", keyword_uri_of k)) as H2.
  { intros l k Hl Hk. unfold add_paper_metadata, paper_uri_of, keyword_uri_of.
    destruct Hcases as [Ht|(Hm & Hr & Hc)]; do 7 skip_block; here_block;
      in_loop l k Hk; do 2 skip_block; apply emits_add. }
  pose proof (λ l d, emits_tool_statements uuid4 md l d Hing) as H3.
  assert (∀ l d, datasets md = Some l → d ∈ l →
            emits (add_paper_metadata uuid4 md)
              (paper_uri_of uuid4 md, SCIENTIFIC "usesDataset", dataset_uri_of d)
            ∧ emits (add_paper_metadata uuid4 md)
                (dataset_uri_of d, RDF_type, SCHEMA "Dataset")
            ∧ emits (add_paper_metadata uuid4 md)
                (dataset_uri_of d, SCHEMA "name", Literal (dataset_name_of d) None))
    as H4.
  { intros l d Hl Hd. unfold add_paper_metadata, paper_uri_of.
    split_and!;
      (destruct Hcases as [Ht|(Hm & Hr & Hc)]; do 10 skip_block; here_block;
       in_loop l d Hd).
    1,2: eapply emits_bind_yield; [apply yields_add_dataset|apply emits_add].
    1,2: here_block; unfold add_dataset, dataset_uri_of, dataset_name_of; destruct d;
      here_block; apply emits_add.
    1,2: here_block; unfold add_dataset, dataset_uri_of, dataset_name_of; destruct d;
      skip_block; here_block; apply emits_add. }
  intros g. split_and!.
  - by apply Hem.
  - intros l a Hl Ha. by apply Hem, (H1 l).
  - intros l k Hl Hk. by apply Hem, (H2 l).
  - intros l d Hl Hd. destruct (H3 l d Hl Hd) as (? & ? & ?). split_and!; by apply Hem.
  - intros l d Hl Hd. destruct (H4 l d Hl Hd) as (? & ? & ?). split_and!; by apply Hem.
Qed.

(** X5: when [add_paper_metadata] has returned, the store holds the type
    of the paper and, for every author, keyword, tool and dataset that the
    record lists, the edge from the returned identifier to the identifier
    minted for it; a tool and a dataset also have their type and their name
    there. *)
Theorem add_paper_metadata_links
    (uuid4 : string) (md : metadata) (g : gset triple) (paper : term) :
  (add_paper_metadata uuid4 md g).2 = Ok paper →
  let g' := (add_paper_metadata uuid4 md g).1 in
  (paper, RDF_type, SCHEMA "ScholarlyArticle") ∈ g'
  ∧ (∀ l a, author md = Some l → a ∈ l →
       (paper, SCHEMA "author", author_uri_of a) ∈ g')
  ∧ (∀ l k, keywords md = Some l → k ∈ l →
       (paper, SCHEMA "keywords", keyword_uri_of k) ∈ g')
  ∧ (∀ l d, tools md = Some l → d ∈ l →
       (paper, SCIENTIFIC "usesTool", tool_uri_of d) ∈ g'
       ∧ (tool_uri_of d, RDF_type, SCIENTIFIC "SoftwareTool") ∈ g'
       ∧ (tool_uri_of d, SCHEMA "name", Literal (tool_name_of d) None) ∈ g')
  ∧ (∀ l d, datasets md = Some l → d ∈ l →
       (paper, SCIENTIFIC "usesDataset", dataset_uri_of d) ∈ g'
       ∧ (dataset_uri_of d, RDF_type, SCHEMA "Dataset") ∈ g'
       ∧ (dataset_uri_of d, SCHEMA "name", Literal (dataset_name_of d) None) ∈ g').
Proof.
  intros Hret g'.
  assert (ingestible md) as Hing by by eapply returned_ingestible.
  assert (paper = paper_uri_of uuid4 md) as ->.
  { pose proof (ingestible_yields uuid4 md Hing g) as Hy.
    rewrite Hret in Hy. by injection Hy. }
  apply (ingestible_links uuid4 md g Hing).
Qed.

Lemma add_paper_metadata_links_witness :
  let md :=
    {| title := Some "Graph mining"; abstract := None; doi := None; url := None;
       datePublished := None; author := Some [AuthorStr "Ada Lovelace"];
       keywords := None; methodology := None;
       tools := Some [ResourceStr "networkx"]; datasets := None;
       results := None; conclusions := None |} in
  (URIRef "https://papers.org/Graph_mining", SCIENTIFIC "usesTool",
   URIRef "https://tools.org/networkx")
    ∈ (add_paper_metadata "1b4e28ba" md ∅).1.
Proof.
  intros md.
  assert ((add_paper_metadata "1b4e28ba" md ∅).2
          = Ok (URIRef "https://papers.org/Graph_mining")) as Hret by (by vm_compute).
  destruct (add_paper_metadata_links "1b4e28ba" md ∅ _ Hret) as (_ & _ & _ & Htools & _).
  destruct (Htools [ResourceStr "networkx"] (ResourceStr "networkx") eq_refl
              (list_elem_of_here _ _)) as (Huse & _).
  exact Huse.
Defined.

(** ** Assessments and input files *)

Section AddsOnly.

Implicit Types (g : gset triple) (t : triple) (P : triple → Prop).

Lemma adds_only_ret {A} (a : A) P : adds_only (mret a) P.
Proof. intros g t Ht. by left. Qed.

Lemma adds_only_raise {A} e P : adds_only (raise (A:=A) e) P.
Proof. intros g t Ht. by left. Qed.

Lemma adds_only_add t P : P t → adds_only (add t) P.
Proof.
  intros HP g t' Ht'. unfold add, graph_add in Ht'. cbn in Ht'.
  apply elem_of_union in Ht' as [->%elem_of_singleton|?]; [by right|by left].
Qed.

Lemma adds_only_bind {A B} (m : M A) (k : A → M B) P :
  adds_only m P → (∀ a, adds_only (k a) P) → adds_only (m ≫= k) P.
Proof.
  intros Hm Hk g t. unfold mbind, M_bind, bind. specialize (Hm g).
  destruct (m g) as [g' [a|e]]; cbn in *; [|apply Hm].
  intros [Ht|Ht]%Hk; [by apply Hm|by right].
Qed.

Lemma adds_only_for_each {A} (xs : list A) (body : A → M unit) P :
  (∀ x, x ∈ xs → adds_only (body x) P) → adds_only (for_each xs body) P.
Proof.
  induction xs as [|x xs IH]; intros Hb; cbn [for_each].
  - apply (adds_only_ret tt).
  - apply adds_only_bind; [apply Hb, list_elem_of_here|intros _].
    apply IH. intros y Hy. by apply Hb, list_elem_of_further.
Qed.

Lemma adds_only_if_truthy o (body : string → M unit) P :
  (∀ s, o = Some s → truthy o = true → adds_only (body s) P) →
  adds_only (if_truthy o body) P.
Proof.
  intros Hb. destruct o as [[|c s]|]; cbn; [apply (adds_only_ret tt)| |apply (adds_only_ret tt)].
  by apply Hb.
Qed.

Lemma adds_only_if_some {A} (o : option A) (body : A → M unit) P :
  (∀ a, o = Some a → adds_only (body a) P) → adds_only (if_some o body) P.
Proof. intros Hb. destruct o; cbn; [by apply Hb|apply (adds_only_ret tt)]. Qed.

Lemma adds_only_if_nonempty {A} (o : option (list A)) (body : list A → M unit) P :
  (∀ l, o = Some l → adds_only (body l) P) → adds_only (if_nonempty o body) P.
Proof.
  intros Hb. destruct o as [[|x l]|]; cbn;
    [apply (adds_only_ret tt)|by apply Hb|apply (adds_only_ret tt)].
Qed.

End AddsOnly.

Ltac adds_only_step :=
  lazymatch goal with
  | |- adds_only (ret _) _ => apply adds_only_ret
  | |- adds_only (mret _) _ => apply adds_only_ret
  | |- adds_only (raise _) _ => apply adds_only_raise
  | |- adds_only (add _) _ => apply adds_only_add
  | |- adds_only (if_truthy _ _) _ => apply adds_only_if_truthy; intros ? ? ?
  | |- adds_only (if_some _ _) _ => apply adds_only_if_some; intros ? ?
  | |- adds_only (if_nonempty _ _) _ => apply adds_only_if_nonempty; intros ? ?
  | |- adds_only (for_each _ _) _ => apply adds_only_for_each; intros ? ?
  | |- adds_only (mbind _ _) _ => apply adds_only_bind; [|intros ?]
  | |- adds_only (let '(_, _) := ?p in _) _ => destruct p
  end.

Section AssessmentFacts.

Context (py_hash : string → string) (format_float : Qc → string) (bnode : nat → string).

Implicit Types (g : gset triple) (a : assessment) (paper : option term).

Local Abbreviation ingest := (add_reproducibility_assessment py_hash format_float bnode).

Lemma emits_if_some {A} (o : option A) (body : A → M unit) x t :
  o = Some x → emits (body x) t → emits (if_some o body) t.
Proof. by intros ->. Qed.

Lemma framed_add_reproducibility_assessment a paper : framed (ingest a paper).
Proof. unfold add_reproducibility_assessment. builder_framed. Qed.

Lemma total_add_reproducibility_assessment a paper : total (ingest a paper).
Proof. unfold add_reproducibility_assessment. builder_total. Qed.

End AssessmentFacts.

(** X6: an assessment links a repository to a paper exactly when it has a
    repository URL and is given the identifier of a paper: the
    [hasCodeRepository] statements of the store afterwards are those it had
    before and, in that case, the one from the paper to the repository. *)
Theorem assessment_links_paper_to_repository
    (py_hash : string → string) (format_float : Qc → string) (bnode : nat → string)
    (a : assessment) (paper : option term) (g : gset triple) (s o : term) :
  (s, SCIENTIFIC "hasCodeRepository", o)
    ∈ (add_reproducibility_assessment py_hash format_float bnode a paper g).1
  ↔ (s, SCIENTIFIC "hasCodeRepository", o) ∈ g
    ∨ (truthy (repository_url a) = true ∧ uri_truthy paper = Some s
       ∧ o = URIRef (default "" (repository_url a))).
Proof.
  split.
  - intros Hin.
    assert (adds_only (add_reproducibility_assessment py_hash format_float bnode a paper)
              (λ t, t.1.2 = SCIENTIFIC "hasCodeRepository" →
                    truthy (repository_url a) = true ∧ uri_truthy paper = Some t.1.1
                    ∧ t.2 = URIRef (default "" (repository_url a)))) as Honly.
    { unfold add_reproducibility_assessment.
      repeat adds_only_step; cbn [fst snd]; intros Hp;
        try (by vm_compute in Hp).
      match goal with H : Some _ = Some _ |- _ => injection H as <- end.
      split_and!; [|done..].
      by destruct (repository_url a) as [[|]|]. }
    destruct (Honly g _ Hin) as [?|HP]; [by left|right]. by apply HP.
  - intros [Hin|(Hrepo & Hpaper & ->)].
    + by apply (framed_grows _ g (framed_add_reproducibility_assessment _ _ _ a paper)).
    + revert g. change (emits (add_reproducibility_assessment py_hash format_float bnode a paper)
                          (s, SCIENTIFIC "hasCodeRepository",
                           URIRef (default "" (repository_url a)))).
      unfold add_reproducibility_assessment.
      do 3 skip_block. here_block.
      apply emits_if_truthy; [|by destruct (repository_url a) as [[|]|]].
      intros r [= <-]. do 3 skip_block.
      by apply (emits_if_some _ _ s), emits_add.
Qed.

(** X7: an assessment that has no recommendation can be ingested again
    without changing the store, whatever blank nodes the second call would
    create; a recommendation, though, is stored under the blank node created
    for it, so that a second ingestion, which creates new blank nodes, stores
    every recommendation once more. *)
Theorem assessment_ingested_again
    (py_hash : string → string) (format_float : Qc → string)
    (bnode bnode' : nat → string)
    (a : assessment) (paper : option term) (g : gset triple) :
  (recommendations a = None ∨ recommendations a = Some [] →
   add_reproducibility_assessment py_hash format_float bnode' a paper
     (add_reproducibility_assessment py_hash format_float bnode a paper g).1
   = add_reproducibility_assessment py_hash format_float bnode a paper g)
  ∧ (∀ recs i rec, recommendations a = Some recs → recs !! i = Some rec →
       let g' := (add_reproducibility_assessment py_hash format_float bnode a paper g).1 in
       (BNode (bnode i), RDF_type, REPRO "Recommendation") ∈ g'
       ∧ (BNode (bnode i), SCHEMA "description", Literal rec None) ∈ g'
       ∧ (assessment_uri_of py_hash a, REPRO "hasRecommendation", BNode (bnode i)) ∈ g').
Proof.
  split.
  - intros Hnone.
    assert (add_reproducibility_assessment py_hash format_float bnode' a paper
            = add_reproducibility_assessment py_hash format_float bnode a paper) as ->.
    { unfold add_reproducibility_assessment. by destruct Hnone as [-> | ->]. }
    apply framed_twice, framed_add_reproducibility_assessment.
  - intros recs i rec Hrecs Hi g'. subst g'.
    assert ((i, rec) ∈ imap (λ i rec, (i, rec)) recs) as Hin.
    { by apply (elem_of_lookup_imap_2 (λ i rec, (i, rec))). }
    assert (recs ≠ []) as Hne by (by intros ->).
    assert (∀ t, emits (add_reproducibility_assessment py_hash format_float bnode a paper) t
                 → t ∈ (add_reproducibility_assessment py_hash format_float bnode a paper g).1)
      as Hem by (intros t H; apply H).
    split_and!; apply Hem; unfold add_reproducibility_assessment, assessment_uri_of;
      do 6 skip_block; here_block;
      (apply (emits_if_nonempty _ _ recs); [assumption|assumption|]);
      (apply (emits_for_each _ _ (i, rec));
         [assumption|intros ?; builder_total|intros ?; builder_framed|]).
    + here_block. apply emits_add.
    + skip_block. here_block. apply emits_add.
    + do 2 skip_block. apply emits_add.
Qed.

(** X8: [load_and_process_files] logs an error of the metadata step and goes
    on.  When [add_paper_metadata] returns, the assessment is ingested with
    the identifier of the paper and both counters are 1; when it raises an
    exception of class [Exception] (the [KeyError] of a missing title is
    one), [papers_added] stays 0, the statements it added before the error
    stay in the store, and the assessment is ingested on top of them with
    no paper to link to. *)
Theorem load_and_process_files_after_metadata
    (py_hash : string → string) (format_float : Qc → string) (bnode : nat → string)
    (uuid4 : string) (md : metadata) (a : assessment) (g : gset triple) :
  let first := add_paper_metadata uuid4 md g in
  let run :=
    load_and_process_files py_hash format_float bnode uuid4
      (Found (Ok md)) (Found (Ok a)) g in
  (∀ paper, first.2 = Ok paper →
     run = ((add_reproducibility_assessment py_hash format_float bnode a
               (Some paper) first.1).1,
            Ok {| papers_added := 1; assessments_added := 1 |}))
  ∧ (∀ e, first.2 = Raise e → is_Exception e = true →
       run = ((add_reproducibility_assessment py_hash format_float bnode a
                 None first.1).1,
              Ok {| papers_added := 0; assessments_added := 1 |})).
Proof.
  intros first run. subst first run.
  unfold load_and_process_files, process_file, try_log, read_json,
    mbind, M_bind, bind, mret, M_ret, ret.
  destruct (add_paper_metadata uuid4 md g) as [g1 r1]. cbn [fst snd].
  split.
  - intros paper ->.
    destruct (total_add_reproducibility_assessment py_hash format_float bnode a
                (Some paper) g1) as [u Hu].
    destruct (add_reproducibility_assessment _ _ _ a (Some paper) g1) as [g2 r2].
    cbn in Hu. by subst r2.
  - intros e -> He. rewrite He.
    destruct (total_add_reproducibility_assessment py_hash format_float bnode a
                None g1) as [u Hu].
    destruct (add_reproducibility_assessment _ _ _ a None g1) as [g2 r2].
    cbn in Hu. by subst r2.
Qed.

(** X9: an exception of class [Exception] gets out of
    [load_and_process_files] only from one of the two existence tests, which
    stand before the [try] blocks; whatever reading, parsing and ingesting
    a file raises is logged and the method goes on.  An error of the first
    test leaves the method before anything is ingested.  Each counter that
    the method returns is 0 or 1, and with no file to read it leaves the
    store as it is. *)
Theorem load_and_process_files_escaping_errors
    (py_hash : string → string) (format_float : Qc → string) (bnode : nat → string)
    (uuid4 : string) (metadata_file : input_file metadata)
    (reproducibility_file : input_file assessment) (g : gset triple) :
  let run :=
    load_and_process_files py_hash format_float bnode uuid4 metadata_file
      reproducibility_file g in
  (∀ e, metadata_file = ExistsRaises e → run = (g, Raise e))
  ∧ (∀ e, run.2 = Raise e → is_Exception e = true →
       metadata_file = ExistsRaises e ∨ reproducibility_file = ExistsRaises e)
  ∧ (∀ r, run.2 = Ok r → papers_added r ≤ 1 ∧ assessments_added r ≤ 1)
  ∧ (metadata_file = NotGiven ∨ metadata_file = NotFound →
     reproducibility_file = NotGiven ∨ reproducibility_file = NotFound →
     run = (g, Ok {| papers_added := 0; assessments_added := 0 |})).
Proof.
  intros run. subst run.
  unfold load_and_process_files, process_file, try_log, read_json,
    mbind, M_bind, bind, mret, M_ret, ret, raise.
  split_and!.
  - by intros e ->.
  - intros e.
    destruct metadata_file as [|e1| |[md|e1]]; cbn [fst snd];
      [ |intros [= <-] _; by left| |
        destruct (add_paper_metadata uuid4 md g) as [g1 [p|e1]]| ]; cbn [fst snd];
      try (destruct (is_Exception e1) eqn:He1; [|intros [= <-] ?; congruence]);
      (destruct reproducibility_file as [|e2| |[a|e2]]; cbn [fst snd];
       [ |intros [= <-] _; by right| |
         match goal with
         | |- context [add_reproducibility_assessment _ _ _ a ?p ?g0] =>
             destruct (add_reproducibility_assessment py_hash format_float bnode a p g0)
               as [g2 [u|e2]]
         end| ]; cbn [fst snd];
       try (destruct (is_Exception e2) eqn:He2; [|intros [= <-] ?; congruence]);
       done).
  - intros r.
    destruct metadata_file as [|e1| |[md|e1]]; cbn [fst snd];
      [ |done| |destruct (add_paper_metadata uuid4 md g) as [g1 [p|e1]]| ];
      cbn [fst snd];
      try (destruct (is_Exception e1) eqn:He1; [|done]);
      (destruct reproducibility_file as [|e2| |[a|e2]]; cbn [fst snd];
       [ |done| |
         match goal with
         | |- context [add_reproducibility_assessment _ _ _ a ?p ?g0] =>
             destruct (add_reproducibility_assessment py_hash format_float bnode a p g0)
               as [g2 [u|e2]]
         end| ]; cbn [fst snd];
       try (destruct (is_Exception e2) eqn:He2; [|done]);
       intros [= <-]; cbn; lia).
  - by intros [-> | ->] [-> | ->].
Qed.

(** X10: [generate_research_report] returns no report, whatever the graph
    file holds: an error of the parser is raised again by
    [load_knowledge_graph], and after a successful load the call of the
    miner on the analysis ends in [AttributeError]. *)
Theorem generate_research_report_never_returns
    (lower : string → string) (str_slice : Z → string → string)
    (format_nat : nat → string) (format_float : Qc → string)
    (openai_chat anthropic_messages gemini_generate_content :
       string → string → string → result string)
    (json_loads : string → result json) (to_float : term → option Qc)
    (now : string) (self : generator) (graph_file : string)
    (parsed : result (gset triple)) (num_hypotheses : Z)
    (focus_area : option string) :
  generate_research_report lower str_slice format_nat format_float openai_chat
    anthropic_messages gemini_generate_content json_loads to_float now self
    graph_file parsed num_hypotheses focus_area
  = match parsed with
    | Raise e => Raise e
    | Ok _ => Raise (AttributeError "most_common")
    end.
Proof.
  unfold generate_research_report.
  destruct parsed as [g|e]; [|done].
  unfold mbind, result_bind.
  by rewrite find_research_opportunities_raises.
Qed.

Section CountingFacts.

Lemma total_count_incr k c : total_count (incr k c) = S (total_count c).
Proof.
  unfold total_count, incr. cbn [items]. generalize (items c) as l.
  induction l as [|[k' n] l IH]; [done|].
  cbn [incr_items]. destruct (decide (k' = k)); cbn; [done|].
  cbn in IH. rewrite IH. lia.
Qed.

Lemma analyzer_fold_count (l : list triple) ec rc :
  let '(ec', rc') :=
    foldl (λ '(ec, rc) (t : triple),
             if decide (t.1.2 = RDF_type) then (incr (str t.2) ec, rc)
             else (ec, incr (str t.1.2) rc))
          (ec, rc) l in
  total_count ec' + total_count rc' = total_count ec + total_count rc + length l
  ∧ total_count ec'
    = total_count ec + length (filter (λ t : triple, t.1.2 = RDF_type) l).
Proof.
  revert ec rc. induction l as [|t l IH]; intros ec rc; cbn [foldl length]; [cbn; lia|].
  rewrite filter_cons.
  destruct (decide (t.1.2 = RDF_type)).
  - specialize (IH (incr (str t.2) ec) rc).
    destruct (foldl _ _ l) as [ec' rc']. rewrite !total_count_incr in IH.
    cbn [length]. lia.
  - specialize (IH ec (incr (str t.1.2) rc)).
    destruct (foldl _ _ l) as [ec' rc']. rewrite !total_count_incr in IH. lia.
Qed.

End CountingFacts.

(** X11: the analyzer counts every statement of the graph once: as an
    entity of the class it names when its predicate is [rdf:type], as a
    relationship otherwise.  The counts of the two tables add up to the
    number of statements. *)
Theorem analyze_graph_patterns_counts_every_statement
    (to_float : term → option Qc) (self : generator) :
  let a := analyze_graph_patterns to_float self in
  total_count (entity_counts a) + total_count (relationship_counts a)
  = len (graph self)
  ∧ total_count (entity_counts a)
    = length (filter (λ t : triple, t.1.2 = RDF_type) (triples (graph self))).
Proof.
  intros a. subst a. unfold analyze_graph_patterns.
  pose proof (analyzer_fold_count (triples (graph self)) defaultdict_int
                defaultdict_int) as H.
  destruct (foldl _ _ (triples (graph self))) as [ec rc]. cbn [entity_counts relationship_counts].
  unfold len, triples, size, set_size in *.
  change (total_count defaultdict_int) with 0 in H. cbn [compose]. lia.
Qed.

Section StatisticsFacts.

Lemma omap_submseteq {A B} (f : A → option B) (l1 l2 : list A) :
  l1 ⊆+ l2 → omap f l1 ⊆+ omap f l2.
Proof.
  induction 1 as [|x l1 l2 _ IH|x y l|x l1 l2 _ IH|l1 l2 l3 _ IH1 _ IH2]; cbn.
  - done.
  - destruct (f x); [by constructor|done].
  - destruct (f x), (f y); try done. apply submseteq_swap.
  - destruct (f x); [by constructor|done].
  - by etrans.
Qed.

Lemma subjects_mono g g' p o :
  g ⊆ g' → length (subjects g p o) ≤ length (subjects g' p o).
Proof.
  intros Hsub. apply submseteq_length, omap_submseteq.
  by apply elements_submseteq.
Qed.

Lemma typed_subjects_bound (l : list triple) (c1 c2 c3 c4 c5 : term) :
  NoDup [c1; c2; c3; c4; c5] →
  let typed c :=
    omap (λ t : triple, if decide (t.1.2 = RDF_type ∧ t.2 = c) then Some t.1.1 else None)
         l in
  length (typed c1) + length (typed c2) + length (typed c3) + length (typed c4)
  + length (typed c5) ≤ length l.
Proof.
  intros Hnd. cbn zeta. induction l as [|t l IH]; [done|].
  cbn [omap list_omap length].
  assert (∀ c c', c ≠ c' → (t.1.2 = RDF_type ∧ t.2 = c) →
                  ¬ (t.1.2 = RDF_type ∧ t.2 = c')) as Hex.
  { intros c c' Hne [_ <-] [_ H']. by subst. }
  repeat match goal with
         | H : NoDup (_ :: _) |- _ => apply NoDup_cons in H as [? H]
         end.
  repeat match goal with
         | H : _ ∉ _ :: _ |- _ => apply not_elem_of_cons in H as [? H]
         end.
  repeat case_decide; cbn [length];
    try lia;
    exfalso;
    match goal with
    | H1 : _ ∧ t.2 = ?c, H2 : _ ∧ t.2 = ?c' |- _ =>
        apply (Hex c c'); [intuition congruence|done..]
    end.
Qed.

End StatisticsFacts.

(** X12: the five entity counts of [get_statistics] count different
    statements of the store, so together they never exceed
    [total_triples]; and no count goes down when statements are added to
    the store. *)
Theorem get_statistics_bounded_and_monotone (g g' : gset triple) :
  let s := get_statistics g in
  let s' := get_statistics g' in
  papers s + authors s + tools_count s + datasets_count s + assessments s
  ≤ total_triples s
  ∧ (g ⊆ g' →
     total_triples s ≤ total_triples s' ∧ papers s ≤ papers s'
     ∧ authors s ≤ authors s' ∧ tools_count s ≤ tools_count s'
     ∧ datasets_count s ≤ datasets_count s' ∧ assessments s ≤ assessments s').
Proof.
  intros s s'. split.
  - unfold s, get_statistics. cbn [papers authors tools_count datasets_count assessments total_triples].
    unfold len, size, set_size. cbn [compose].
    apply (typed_subjects_bound (elements g)).
    apply (bool_decide_eq_true_1 (NoDup _)). by vm_compute.
  - intros Hsub. unfold s, s', get_statistics. cbn.
    split_and!; try by apply subjects_mono.
    by apply subseteq_size.
Qed.

(** ** The summary of the report *)

Section FeasibilityFacts.

Local Open Scope Qc_scope.

Lemma analyze_feasibility_fold (hs : list hypothesis) (d : distribution) :
  let count v :=
    length (filter (λ h, default "medium" (h_feasibility h) = v) hs) in
  let r :=
    foldl (λ d h,
             let feasibility := default "medium" (h_feasibility h) in
             if decide (feasibility = "high") then Distribution (S (high d)) (medium d) (low d)
             else if decide (feasibility = "medium") then
                    Distribution (high d) (S (medium d)) (low d)
             else if decide (feasibility = "low") then
                    Distribution (high d) (medium d) (S (low d))
             else d)
          d hs in
  high r = (high d + count "high")%nat ∧ medium r = (medium d + count "medium")%nat
  ∧ low r = (low d + count "low")%nat.
Proof.
  cbn zeta. revert d. induction hs as [|h hs IH]; intros d; [cbn; lia|].
  cbn [foldl]. rewrite !filter_cons.
  destruct (IH
    (if decide (default "medium" (h_feasibility h) = "high")
     then Distribution (S (high d)) (medium d) (low d)
     else if decide (default "medium" (h_feasibility h) = "medium")
          then Distribution (high d) (S (medium d)) (low d)
          else if decide (default "medium" (h_feasibility h) = "low")
               then Distribution (high d) (medium d) (S (low d))
               else d)) as (Hh & Hm & Hl).
  rewrite Hh, Hm, Hl. clear IH Hh Hm Hl.
  generalize (default "medium" (h_feasibility h)) as x. intros x.
  repeat case_decide; simplify_eq; cbn [high medium low length]; lia.
Qed.

Lemma recognized_split (hs : list hypothesis) :
  let count v :=
    length (filter (λ h, default "medium" (h_feasibility h) = v) hs) in
  (count "high" + count "medium" + count "low")%nat = length (filter recognized hs).
Proof.
  cbn zeta. induction hs as [|h hs IH]; [done|].
  rewrite !filter_cons.
  destruct (decide (recognized h)) as [Hin|Hin];
    unfold recognized in Hin; rewrite !elem_of_cons, elem_of_nil in Hin;
    revert Hin; generalize (default "medium" (h_feasibility h)) as x; intros x Hin;
    repeat case_decide; simplify_eq; cbn [length]; try lia; tauto.
Qed.

End FeasibilityFacts.

(** X13: [_analyze_feasibility] counts each hypothesis under its
    feasibility, a hypothesis with no such key as ["medium"], and a
    hypothesis with any other value (["High"], ["unknown"]) nowhere: the
    three counts add up to the number of hypotheses with a recognized
    value, which can be less than the number of hypotheses. *)
Theorem analyze_feasibility_counts (hs : list hypothesis) :
  let d := analyze_feasibility hs in
  let count v :=
    length (filter (λ h, default "medium" (h_feasibility h) = v) hs) in
  high d = count "high" ∧ medium d = count "medium" ∧ low d = count "low"
  ∧ high d + medium d + low d = length (filter recognized hs)
  ∧ high d + medium d + low d ≤ length hs.
Proof.
  intros d count.
  destruct (analyze_feasibility_fold hs (Distribution 0 0 0)) as (Hh & Hm & Hl).
  pose proof (recognized_split hs) as Hs. cbn zeta in Hs.
  pose proof (length_filter recognized hs) as Hle.
  change (foldl _ _ hs) with d in Hh, Hm, Hl.
  cbn [high medium low Nat.add] in Hh, Hm, Hl.
  unfold count. rewrite Hh, Hm, Hl. split_and!; try done; lia.
Qed.

Section RuleBasedFeasibility.

Lemma rule_based_feasibility (l : list opportunity) v :
  v ≠ "high" → v ≠ "medium" →
  filter (λ h, default "medium" (h_feasibility h) = v) (hypothesis_of_opportunity <$> l)
  = [].
Proof.
  intros Hh Hm. induction l as [|opp l IH]; [done|].
  rewrite fmap_cons, filter_cons, IH.
  destruct opp as [? [??] ?|???|???]; cbn [hypothesis_of_opportunity h_feasibility default];
    by rewrite decide_False by done.
Qed.

Lemma rule_based_high (l : list opportunity) :
  length (filter (λ h, default "medium" (h_feasibility h) = "high")
                 (hypothesis_of_opportunity <$> l))
  = length (filter (λ o, opp_type o = "dataset_reuse") l).
Proof.
  induction l as [|opp l IH]; [done|].
  rewrite fmap_cons, !filter_cons.
  destruct opp as [? [??] ?|???|???];
    cbn [hypothesis_of_opportunity h_feasibility default opp_type];
    repeat case_decide; try done; cbn [length]; by rewrite IH.
Qed.

Lemma rule_based_recognized (l : list opportunity) :
  filter recognized (hypothesis_of_opportunity <$> l) = hypothesis_of_opportunity <$> l.
Proof.
  induction l as [|opp l IH]; [done|].
  rewrite fmap_cons, filter_cons, IH. rewrite decide_True; [done|].
  unfold recognized.
  destruct opp as [? [??] ?|???|???]; cbn; rewrite !elem_of_cons; tauto.
Qed.

Lemma length_slice_to {A} (n : Z) (l : list A) : length (slice_to n l) ≤ length l.
Proof. unfold slice_to. case_bool_decide; rewrite length_take; lia. Qed.

End RuleBasedFeasibility.

(** X14: what [_analyze_feasibility] counts in the hypotheses that
    [_generate_rule_based_hypotheses] returns, for every requested number (a
    negative one included).  None is of low feasibility; the ones of high
    feasibility are those made from a dataset reuse among the opportunities
    taken, and all others are of medium feasibility; and there are no more
    hypotheses than opportunities. *)
Theorem rule_based_feasibility_distribution
    (a : analysis) (opps : list opportunity) (n : Z) :
  let hs := generate_rule_based_hypotheses a opps n in
  let d := analyze_feasibility hs in
  low d = 0
  ∧ high d = length (filter (λ o, opp_type o = "dataset_reuse") (slice_to n opps))
  ∧ high d + medium d = length hs
  ∧ length hs ≤ length opps.
Proof.
  intros hs d.
  destruct (analyze_feasibility_fold hs (Distribution 0 0 0)) as (Hh & Hm & Hl).
  change (foldl _ _ hs) with d in Hh, Hm, Hl.
  cbn [high medium low Nat.add] in Hh, Hm, Hl.
  pose proof (recognized_split hs) as Hs. cbn zeta in Hs.
  assert (low d = 0) as Hlow.
  { rewrite Hl. unfold hs, generate_rule_based_hypotheses.
    by rewrite rule_based_feasibility. }
  split_and!.
  - done.
  - rewrite Hh. unfold hs, generate_rule_based_hypotheses. apply rule_based_high.
  - unfold hs, generate_rule_based_hypotheses in Hs. rewrite rule_based_recognized in Hs.
    fold (generate_rule_based_hypotheses a opps n) in Hs. fold hs in Hs. lia.
  - unfold hs, generate_rule_based_hypotheses. rewrite length_fmap.
    apply length_slice_to.
Qed.

(** ** What the analyzer counts *)

Section TableFacts.

Implicit Types (g : gset triple) (c : counts) (l : list triple) (k : string).

Lemma count_get_incr k' c k :
  count_get (incr k' c) k = if decide (k' = k) then S (count_get c k) else count_get c k.
Proof.
  unfold count_get, incr. cbn [items]. generalize (items c) as kvs.
  induction kvs as [|[k0 n0] kvs IH]; cbn.
  - destruct (decide (k' = k)); by cbn.
  - destruct (decide (k0 = k')) as [->|Hne]; cbn.
    + destruct (decide (k' = k)); [done|]. cbn.
      by destruct (list_find _ kvs) as [[? [??]]|].
    + destruct (decide (k0 = k)) as [->|Hne'].
      * by rewrite decide_False by done.
      * cbn in IH. destruct (list_find _ (incr_items k' kvs)) as [[? [??]]|];
          destruct (list_find _ kvs) as [[? [??]]|]; cbn in *; done.
Qed.

Lemma filter_length_ext {A} (P Q : A → Prop) `{!∀ x, Decision (P x), !∀ x, Decision (Q x)}
    (xs : list A) :
  (∀ x, x ∈ xs → P x ↔ Q x) → length (filter P xs) = length (filter Q xs).
Proof.
  induction xs as [|x xs IH]; intros Hext; [done|].
  rewrite !filter_cons.
  pose proof (Hext x (list_elem_of_here _ _)) as Hx.
  assert (length (filter P xs) = length (filter Q xs)) as IH'.
  { apply IH. intros y Hy. apply Hext. by apply list_elem_of_further. }
  destruct (decide (P x)), (decide (Q x)); cbn [length]; [by rewrite IH'|tauto|tauto|done].
Qed.

Lemma length_subjects g p o :
  length (subjects g p o)
  = length (filter (λ t : triple, t.1.2 = p ∧ t.2 = o) (triples g)).
Proof.
  unfold subjects. generalize (triples g) as l.
  induction l as [|t l IH]; [done|].
  rewrite filter_cons. cbn. case_decide; cbn; by rewrite IH.
Qed.

Lemma entity_fold_count l ec rc k :
  let '(ec', rc') :=
    foldl (λ '(ec, rc) (t : triple),
             if decide (t.1.2 = RDF_type) then (incr (str t.2) ec, rc)
             else (ec, incr (str t.1.2) rc))
          (ec, rc) l in
  count_get ec' k
  = count_get ec k + length (filter (λ t : triple, t.1.2 = RDF_type ∧ str t.2 = k) l)
  ∧ count_get rc' k
    = count_get rc k
      + length (filter (λ t : triple, t.1.2 ≠ RDF_type ∧ str t.1.2 = k) l).
Proof.
  revert ec rc. induction l as [|t l IH]; intros ec rc; cbn [foldl]; [cbn; lia|].
  rewrite !filter_cons.
  destruct (decide (t.1.2 = RDF_type)) as [Ht|Ht].
  - specialize (IH (incr (str t.2) ec) rc).
    destruct (foldl _ _ l) as [ec' rc']. rewrite count_get_incr in IH.
    destruct IH as [-> ->].
    rewrite (decide_False (P := _ ≠ _ ∧ _)) by tauto.
    destruct (decide (str t.2 = k)).
    + rewrite decide_True by done. cbn [length]. lia.
    + rewrite decide_False by tauto. lia.
  - specialize (IH ec (incr (str t.1.2) rc)).
    destruct (foldl _ _ l) as [ec' rc']. rewrite count_get_incr in IH.
    destruct IH as [-> ->].
    rewrite (decide_False (P := _ = _ ∧ _)) by tauto.
    destruct (decide (str t.1.2 = k)).
    + rewrite decide_True by done. cbn [length]. lia.
    + rewrite decide_False by tauto. lia.
Qed.

Lemma usage_fold g pred l c k :
  let r :=
    foldl (λ c (t : triple),
             if decide (t.1.2 = pred) then
               match get_entity_name g t.2 with
               | Some (String a s) => incr (String a s) c
               | _ => c
               end
             else c)
          c l in
  count_get r k
  = count_get c k
    + (if decide (k = "") then 0
       else length (filter (λ t : triple,
                              t.1.2 = pred ∧ get_entity_name g t.2 = Some k) l))
  ∧ total_count r
    = total_count c
      + length (filter (λ t : triple, t.1.2 = pred ∧ named g t.2 = true) l).
Proof.
  cbn zeta. revert c. induction l as [|t l IH]; intros c; cbn [foldl].
  { cbn. destruct (decide (k = "")); lia. }
  rewrite !filter_cons.
  destruct (decide (t.1.2 = pred ∧ get_entity_name g t.2 = Some k)) as [Hk1|Hk1];
    destruct (decide (t.1.2 = pred ∧ named g t.2 = true)) as [Hn1|Hn1];
    unfold named in Hn1;
    destruct (decide (t.1.2 = pred)) as [Ht|Ht];
    destruct (get_entity_name g t.2) as [[|ch s]|] eqn:Hn;
    match goal with |- context [foldl _ ?c0 l] => destruct (IH c0) as [-> ->] end;
    rewrite ?count_get_incr, ?total_count_incr; cbn [length];
    repeat case_decide; simplify_eq; try lia; exfalso; intuition congruence.
Qed.

End TableFacts.

(** X15: the entity counts that the analyzer hands to the prompt agree
    with the statistics of the builder on a graph whose classes are all
    URIs: the count under the name of a class is the number of subjects of
    that class.  (The analyzer files a statement under the text of its
    object, the statistics compare the object itself.) *)
Theorem entity_counts_match_statistics
    (to_float : term → option Qc) (self : generator)
    (Hclasses : ∀ s o, (s, RDF_type, o) ∈ graph self → is_URIRef o = true) :
  let a := analyze_graph_patterns to_float self in
  let st := get_statistics (graph self) in
  count_get (entity_counts a) "https://schema.org/ScholarlyArticle" = papers st
  ∧ count_get (entity_counts a) "https://schema.org/Person" = authors st
  ∧ count_get (entity_counts a) "https://scientific.org/SoftwareTool" = tools_count st
  ∧ count_get (entity_counts a) "https://schema.org/Dataset" = datasets_count st
  ∧ count_get (entity_counts a) "https://reproducibility.org/ReproducibilityAssessment"
    = assessments st.
Proof.
  intros a st.
  assert (∀ k, count_get (entity_counts a) k
               = length (subjects (graph self) RDF_type (URIRef k))) as Hk.
  { intros k. unfold a, analyze_graph_patterns.
    pose proof (entity_fold_count (triples (graph self)) defaultdict_int
                  defaultdict_int k) as H.
    destruct (foldl _ _ (triples (graph self))) as [ec rc].
    cbn [entity_counts]. destruct H as [-> _].
    rewrite length_subjects. change (count_get defaultdict_int k) with 0.
    cbn [Nat.add]. apply filter_length_ext.
    intros [[s p] o] Hin. cbn [fst snd].
    apply elem_of_elements in Hin.
    split; intros [-> Ho]; (split; [done|]).
    - specialize (Hclasses _ _ Hin). destruct o; try done. cbn in Ho. by subst.
    - by subst. }
  unfold st, get_statistics. cbn [papers authors tools_count datasets_count assessments].
  split_and!; apply Hk.
Qed.

Lemma entity_counts_match_statistics_witness :
  let self :=
    GeneratorObj None "gemini-pro"
      {[ (URIRef "https://doi.org/10.1000/xyz123", RDF_type,
          SCHEMA "ScholarlyArticle") ]} [] in
  count_get (entity_counts (analyze_graph_patterns (λ _, None) self))
            "https://schema.org/ScholarlyArticle"
  = papers (get_statistics (graph self)).
Proof.
  intros self.
  refine (proj1 (entity_counts_match_statistics (λ _, None) self _)).
  intros s o Hin. cbn in Hin. apply elem_of_singleton in Hin.
  by injection Hin as -> ->.
Defined.

(** X16: a usage table of the analyzer counts, under a name, the
    statements of its predicate whose object [_get_entity_name] gives that
    name; an object with no name, or with the empty name, is counted
    nowhere, so the counts of the table add up to the number of statements
    whose object is named. *)
Theorem usage_tables_count_named_objects
    (to_float : term → option Qc) (self : generator) (k : string) :
  let a := analyze_graph_patterns to_float self in
  let g := graph self in
  let uses pred table :=
    count_get table k
    = (if decide (k = "") then 0
       else length (filter (λ t : triple,
                              t.1.2 = pred ∧ get_entity_name g t.2 = Some k)
                           (triples g)))
    ∧ total_count table
      = length (filter (λ t : triple, t.1.2 = pred ∧ named g t.2 = true) (triples g)) in
  uses (SCIENTIFIC "usesTool") (tool_usage a)
  ∧ uses (SCIENTIFIC "usesDataset") (dataset_usage a).
Proof.
  intros a g uses. unfold uses, a, analyze_graph_patterns.
  destruct (foldl _ (defaultdict_int, defaultdict_int) _) as [ec rc].
  cbn [tool_usage dataset_usage]. unfold usage_of.
  split; apply (usage_fold (graph self) _ (triples (graph self)) defaultdict_int k).
Qed.

(** ** Names written by the builder and read by the analyzer *)

Section NameFacts.

Lemma get_entity_name_unique (g : gset triple) (e : term) (n : string) :
  (e, SCHEMA "name", Literal n None) ∈ g →
  (∀ o, (e, SCHEMA "name", o) ∈ g → o = Literal n None) →
  get_entity_name g e = Some n.
Proof.
  intros Hin Huniq. unfold get_entity_name.
  destruct (objects g e (SCHEMA "name")) as [|o os] eqn:E.
  - apply elem_of_objects in Hin. rewrite E in Hin. by apply elem_of_nil in Hin.
  - assert (o ∈ objects g e (SCHEMA "name")) as Ho by (rewrite E; apply list_elem_of_here).
    apply elem_of_objects, Huniq in Ho. by subst.
Qed.

End NameFacts.

(** X17: the name under which [add_tool] and [add_dataset] store a
    resource is the name that [_get_entity_name] reads back for its
    identifier, provided the store holds no other name for that
    identifier (two names that differ only in a space and an underscore
    share one identifier). *)
Theorem resource_name_read_back (d : resource_data) (g : gset triple)
    (Htool : ∀ o, (tool_uri_of d, SCHEMA "name", o) ∈ g
                  → o = Literal (tool_name_of d) None)
    (Hdataset : ∀ o, (dataset_uri_of d, SCHEMA "name", o) ∈ g
                     → o = Literal (dataset_name_of d) None) :
  get_entity_name (add_tool d g).1 (tool_uri_of d) = Some (tool_name_of d)
  ∧ get_entity_name (add_dataset d g).1 (dataset_uri_of d) = Some (dataset_name_of d).
Proof.
  split; apply get_entity_name_unique.
  - clear Htool Hdataset. revert g.
    change (emits (add_tool d) (tool_uri_of d, SCHEMA "name", Literal (tool_name_of d) None)).
    unfold add_tool, tool_uri_of, tool_name_of. destruct d as [s|n u]; cbn zeta beta iota;
      skip_block; here_block; apply emits_add.
  - intros o Hin.
    assert (adds_only (add_tool d)
              (λ t, t.1.1 = tool_uri_of d → t.1.2 = SCHEMA "name"
                    → t.2 = Literal (tool_name_of d) None)) as Honly.
    { unfold add_tool, tool_uri_of, tool_name_of. destruct d as [s|n u]; cbn zeta beta iota;
        repeat adds_only_step; cbn [fst snd]; intros _ Hp;
        try (by vm_compute in Hp); done. }
    destruct (Honly g _ Hin) as [?|HP]; [by apply Htool|by apply HP].
  - clear Htool Hdataset. revert g.
    change (emits (add_dataset d)
              (dataset_uri_of d, SCHEMA "name", Literal (dataset_name_of d) None)).
    unfold add_dataset, dataset_uri_of, dataset_name_of.
    destruct d as [s|n u]; cbn zeta beta iota;
      skip_block; here_block; apply emits_add.
  - intros o Hin.
    assert (adds_only (add_dataset d)
              (λ t, t.1.1 = dataset_uri_of d → t.1.2 = SCHEMA "name"
                    → t.2 = Literal (dataset_name_of d) None)) as Honly.
    { unfold add_dataset, dataset_uri_of, dataset_name_of.
      destruct d as [s|n u]; cbn zeta beta iota;
        repeat adds_only_step; cbn [fst snd]; intros _ Hp;
        try (by vm_compute in Hp); done. }
    destruct (Honly g _ Hin) as [?|HP]; [by apply Hdataset|by apply HP].
Qed.

Lemma resource_name_read_back_witness :
  get_entity_name (add_tool (ResourceStr "scikit-learn") ∅).1
                  (tool_uri_of (ResourceStr "scikit-learn"))
  = Some "scikit-learn".
Proof.
  refine (proj1 (resource_name_read_back (ResourceStr "scikit-learn") ∅ _ _));
    intros o Hin; by apply elem_of_empty in Hin.
Defined.

(** X18: [_get_entity_name] finds no name exactly when the entity has
    neither a [schema:name] nor an [rdfs:label] statement; the name it
    finds is the text of the object of such a statement, and a label is
    used only when the entity has no [schema:name] at all. *)
Theorem get_entity_name_finds_names (g : gset triple) (e : term) :
  (get_entity_name g e = None
   ↔ (∀ o, ((e, SCHEMA "name", o) ∉ g) ∧ ((e, RDFS "label", o) ∉ g)))
  ∧ (∀ n, get_entity_name g e = Some n →
       ∃ o, str o = n
            ∧ ((e, SCHEMA "name", o) ∈ g
               ∨ ((e, RDFS "label", o) ∈ g ∧ ∀ o', (e, SCHEMA "name", o') ∉ g))).
Proof.
  unfold get_entity_name.
  destruct (objects g e (SCHEMA "name")) as [|o1 os1] eqn:E1.
  - assert (∀ o, (e, SCHEMA "name", o) ∉ g) as Hno.
    { intros o Hin. apply elem_of_objects in Hin. rewrite E1 in Hin.
      by apply elem_of_nil in Hin. }
    destruct (objects g e (RDFS "label")) as [|o2 os2] eqn:E2.
    + split; [|done]. split; [|done]. intros _ o. split; [apply Hno|].
      intros Hin. apply elem_of_objects in Hin. rewrite E2 in Hin.
      by apply elem_of_nil in Hin.
    + assert ((e, RDFS "label", o2) ∈ g) as Hin.
      { apply elem_of_objects. rewrite E2. apply list_elem_of_here. }
      split.
      * split; [done|]. intros H. by destruct (H o2) as [_ []].
      * intros n [= <-]. exists o2. split; [done|]. by right.
  - assert ((e, SCHEMA "name", o1) ∈ g) as Hin.
    { apply elem_of_objects. rewrite E1. apply list_elem_of_here. }
    split.
    + split; [done|]. intros H. by destruct (H o1) as [[] _].
    + intros n [= <-]. exists o1. split; [done|]. by left.
Qed.

(** ** The miner on an analysis whose tables are [Counter]s *)

Section MinerBounds.

Local Open Scope Qc_scope.

Lemma length_omap_le {A B} (f : A → option B) (l : list A) :
  (length (omap f l) ≤ length l)%nat.
Proof. induction l as [|x l IH]; cbn; [done|]. destruct (f x); cbn; lia. Qed.

Lemma length_tool_pairs (ks : list string) :
  (2 * length (tool_pairs ks) = length ks * (length ks - 1))%nat.
Proof.
  induction ks as [|k ks IH]; [done|].
  cbn [tool_pairs length]. rewrite length_app, length_fmap.
  destruct ks as [|k' ks']; [done|]. cbn [length] in *. nia.
Qed.

Lemma filter_type_app (ty : string) (l1 l2 : list opportunity) :
  length (filter (λ o, opp_type o = ty) (l1 ++ l2))
  = (length (filter (λ o, opp_type o = ty) l1)
     + length (filter (λ o, opp_type o = ty) l2))%nat.
Proof. by rewrite filter_app, length_app. Qed.

Lemma filter_type_none (ty : string) (l : list opportunity) :
  (∀ o, o ∈ l → opp_type o ≠ ty) → filter (λ o, opp_type o = ty) l = [].
Proof.
  induction l as [|o l IH]; intros H; [done|].
  rewrite filter_cons, decide_False by apply H, list_elem_of_here.
  apply IH. intros o' Ho'. by apply H, list_elem_of_further.
Qed.

Lemma combination_types g ks o :
  o ∈ tool_combination_opportunities g ks → opp_type o = "tool_combination".
Proof.
  unfold tool_combination_opportunities. rewrite list_elem_of_omap.
  intros ([t1 t2] & _ & H). case_decide; [|done]. by injection H as <-.
Qed.

Lemma reuse_types a o :
  o ∈ dataset_reuse_opportunities a →
  ∃ d, o = DatasetReuse ("Apply different methodologies to " +:+ d) d
             "This dataset has been underutilized in research"
       ∧ (d, 1%nat) ∈ items (dataset_usage a).
Proof.
  unfold dataset_reuse_opportunities. rewrite list_elem_of_fmap.
  intros (d & -> & Hd). exists d. split; [done|].
  apply elem_of_take in Hd as (i & Hd & _). apply list_elem_of_lookup_2 in Hd.
  apply list_elem_of_omap in Hd as ([name count] & Hin & H).
  case_decide; [|done]. injection H as <-. by subst.
Qed.

Lemma improvement_types a o :
  o ∈ reproducibility_opportunities a →
  opp_type o = "reproducibility_improvement" ∧ reproducibility_scores a ≠ [].
Proof.
  unfold reproducibility_opportunities.
  destruct (reproducibility_scores a) as [|x xs] eqn:E; [by intros ?%elem_of_nil|].
  case_decide; [|by intros ?%elem_of_nil].
  intros ->%list_elem_of_singleton. done.
Qed.

End MinerBounds.

(** X19: what the miner returns for an analysis whose tool usage table is
    a [Counter]: at most 45 tool combinations (the pairs of ten tools),
    then at most five dataset reuses, each of a dataset that the table
    counts exactly once, then at most one reproducibility improvement,
    and none when the analysis has no reproducibility score. *)
Theorem find_research_opportunities_on_counter
    (self : generator) (a : analysis)
    (Hcounter : class_of (tool_usage a) = Counter) :
  ∃ opps,
    find_research_opportunities self a = Ok opps
    ∧ length (filter (λ o, opp_type o = "tool_combination") opps) ≤ 45
    ∧ length (filter (λ o, opp_type o = "dataset_reuse") opps) ≤ 5
    ∧ length (filter (λ o, opp_type o = "reproducibility_improvement") opps) ≤ 1
    ∧ length opps ≤ 51
    ∧ (∀ desc d r, DatasetReuse desc d r ∈ opps → (d, 1) ∈ items (dataset_usage a))
    ∧ ((∃ o, o ∈ opps ∧ opp_type o = "reproducibility_improvement")
       → reproducibility_scores a ≠ []).
Proof.
  unfold find_research_opportunities, most_common. rewrite Hcounter.
  set (top := take 10 (sorted_desc _ snd (items (tool_usage a)))).
  eexists. split; [done|].
  assert (length (tool_combination_opportunities (graph self) top.*1) ≤ 45) as H1.
  { unfold tool_combination_opportunities.
    etrans; [apply length_omap_le|].
    pose proof (length_tool_pairs top.*1) as Hp.
    assert (length top.*1 ≤ 10) as Hl.
    { rewrite length_fmap. unfold top. rewrite length_take. lia. }
    nia. }
  assert (length (dataset_reuse_opportunities a) ≤ 5) as H2.
  { unfold dataset_reuse_opportunities. rewrite length_fmap, length_take. lia. }
  assert (length (reproducibility_opportunities a) ≤ 1) as H3.
  { unfold reproducibility_opportunities.
    destruct (reproducibility_scores a); [cbn; lia|]. case_decide; cbn; lia. }
  split_and!.
  - rewrite filter_type_app. rewrite (filter_type_none _ (_ ++ _)).
    + etrans; [|apply H1]. cbn [length]. rewrite Nat.add_0_r. apply length_filter.
    + intros o [Ho|Ho]%elem_of_app.
      * apply reuse_types in Ho as (d & -> & _). done.
      * apply improvement_types in Ho as (-> & _). done.
  - rewrite !filter_type_app.
    rewrite (filter_type_none _ (tool_combination_opportunities _ _)),
            (filter_type_none _ (reproducibility_opportunities _)).
    + cbn [length]. rewrite Nat.add_0_r. etrans; [apply length_filter|done].
    + intros o Ho. apply improvement_types in Ho as (-> & _). done.
    + intros o Ho. by rewrite (combination_types _ _ _ Ho).
  - rewrite !filter_type_app.
    rewrite (filter_type_none _ (tool_combination_opportunities _ _)),
            (filter_type_none _ (dataset_reuse_opportunities _)).
    + cbn [length Nat.add]. etrans; [apply length_filter|done].
    + intros o Ho. apply reuse_types in Ho as (d & -> & _). done.
    + intros o Ho. by rewrite (combination_types _ _ _ Ho).
  - rewrite !length_app. lia.
  - intros desc d r [Ho|[Ho|Ho]%elem_of_app]%elem_of_app.
    + by apply combination_types in Ho.
    + apply reuse_types in Ho as (d' & [= _ -> _] & Hd). done.
    + by apply improvement_types in Ho as ([=] & _).
  - intros (o & [Ho|[Ho|Ho]%elem_of_app]%elem_of_app & Hty).
    + by rewrite (combination_types _ _ _ Ho) in Hty.
    + apply reuse_types in Ho as (d' & -> & _). done.
    + by apply improvement_types in Ho as (_ & ?).
Qed.

Lemma find_research_opportunities_on_counter_witness :
  let a :=
    {| entity_counts := defaultdict_int; relationship_counts := defaultdict_int;
       tool_usage := Counts Counter [("numpy", 2); ("pandas", 1)];
       dataset_usage := Counts Counter [("MNIST", 1)];
       author_collaborations := defaultdict_int; reproducibility_scores := [];
       highly_connected_entities := []; research_gaps := [] |} in
  ∃ opps, find_research_opportunities empty_generator a = Ok opps ∧ length opps ≤ 51.
Proof.
  intros a.
  destruct (find_research_opportunities_on_counter empty_generator a eq_refl)
    as (opps & Hopps & _ & _ & _ & Hlen & _).
  exists opps. by split.
Defined.

(** ** The most connected entities *)

Section RankingFacts.

Context {T K : Type} (gt : K → K → bool) (le : K → K → Prop) (key : T → K).
Hypothesis gt_le : ∀ a b, gt a b = true → le b a.
Hypothesis not_gt_le : ∀ a b, gt a b = false → le a b.
Hypothesis le_trans : ∀ a b c, le a b → le b c → le a c.

Lemma insert_desc_sorted (x : T) (l : list T) :
  StronglySorted (λ a b, le (key b) (key a)) l →
  StronglySorted (λ a b, le (key b) (key a)) (insert_desc gt key x l).
Proof.
  induction 1 as [|y l Hl IH Hy]; cbn [insert_desc].
  - by repeat constructor.
  - destruct (gt (key y) (key x)) eqn:E.
    + constructor; [done|].
      apply Forall_forall. intros z Hz.
      rewrite insert_desc_perm in Hz. apply elem_of_cons in Hz as [->|Hz].
      * by apply gt_le.
      * by apply (proj1 (Forall_forall _ _) Hy).
    + constructor; [by constructor|].
      constructor; [by apply not_gt_le|].
      apply Forall_forall. intros z Hz.
      apply (le_trans _ (key y)); [|by apply not_gt_le].
      by apply (proj1 (Forall_forall _ _) Hy).
Qed.

Lemma sorted_desc_sorted (l : list T) :
  StronglySorted (λ a b, le (key b) (key a)) (sorted_desc gt key l).
Proof.
  unfold sorted_desc. induction l as [|x l IH]; cbn [foldr]; [constructor|].
  by apply insert_desc_sorted.
Qed.

End RankingFacts.

Section CentralityFacts.

Local Open Scope Qc_scope.

Lemma length_degree_centrality (G : nx_graph) : length (degree_centrality G) = length G.
Proof.
  unfold degree_centrality, nx_degree. case_bool_decide; by rewrite ?length_fmap.
Qed.

Lemma centrality_sorted (l : list (string * Qc)) :
  StronglySorted (λ x y, y.2 ≤ x.2)
                 (sorted_desc (λ a b : Qc, bool_decide (b < a)) snd l).
Proof.
  apply (sorted_desc_sorted _ Qcle snd).
  - intros a b Hab. apply bool_decide_eq_true_1 in Hab. by apply Qclt_le_weak.
  - intros a b Hab. apply bool_decide_eq_false_1 in Hab. by apply Qcnot_lt_le.
  - intros a b c. apply Qcle_trans.
Qed.

End CentralityFacts.

(** X20: the highly connected entities of the analysis are the first ten
    of the degree centralities in descending order: as many as there are
    nodes, up to ten; each one a node with its centrality; none of them
    less central than a node that is left out. *)
Theorem highly_connected_entities_ranked
    (to_float : term → option Qc) (self : generator) :
  let top := highly_connected_entities (analyze_graph_patterns to_float self) in
  let centrality := degree_centrality (nx self) in
  length top = min 10 (length (nx self))
  ∧ StronglySorted (λ x y, (y.2 ≤ x.2)%Qc) top
  ∧ (∀ x, x ∈ top → x ∈ centrality)
  ∧ (∀ x y, x ∈ top → y ∈ centrality → y ∉ top → (y.2 ≤ x.2)%Qc).
Proof.
  intros top centrality.
  set (sorted := sorted_desc (λ a b : Qc, bool_decide (b < a)%Qc) snd centrality).
  assert (top = take 10 sorted) as ->.
  { unfold top, analyze_graph_patterns.
    destruct (foldl _ (defaultdict_int, defaultdict_int) _) as [ec rc].
    cbn [highly_connected_entities]. unfold sorted, centrality.
    by destruct (nx self). }
  pose proof (centrality_sorted centrality) as Hs. fold sorted in Hs.
  assert (sorted ≡ₚ centrality) as Hperm by apply sorted_desc_perm.
  rewrite <-(take_drop 10 sorted) in Hs.
  split_and!.
  - rewrite length_take, Hperm. unfold centrality.
    rewrite length_degree_centrality. lia.
  - by apply StronglySorted_app_1_l in Hs.
  - intros x Hx. rewrite <-Hperm.
    apply elem_of_take in Hx as (i & Hx & _). by apply list_elem_of_lookup_2 in Hx.
  - intros x y Hx Hy Hny. rewrite <-Hperm, <-(take_drop 10 sorted) in Hy.
    apply elem_of_app in Hy as [Hy|Hy]; [done|].
    by apply (StronglySorted_app_1_elem_of _ _ _ x y Hs).
Qed.

(** ** From the builder to the analyzer *)

Section PipelineFacts.

Lemma filter_length_pos {A} (P : A → Prop) `{!∀ x, Decision (P x)} (l : list A) x :
  x ∈ l → P x → 1 ≤ length (filter P l).
Proof.
  intros Hx HP. assert (x ∈ filter P l) as Hin by by apply list_elem_of_filter.
  destruct (filter P l); [by apply elem_of_nil in Hin|cbn; lia].
Qed.

End PipelineFacts.

(** X21: when [add_paper_metadata] has returned, a tool that the record
    lists is counted by the analyzer of the graph, under its name: the
    count of the name in the tool usage table is at least one.  The name
    must not be empty, and the graph must hold no other name for the
    identifier of the tool. *)
Theorem ingested_tool_is_counted
    (to_float : term → option Qc) (key : option string) (m uuid4 : string)
    (md : metadata) (l : list resource_data) (d : resource_data) (g : gset triple) :
  let g' := (add_paper_metadata uuid4 md g).1 in
  let self := load_knowledge_graph g' (GeneratorObj key m ∅ []) in
  (∃ paper, (add_paper_metadata uuid4 md g).2 = Ok paper) →
  tools md = Some l → d ∈ l → tool_name_of d ≠ "" →
  (∀ o, (tool_uri_of d, SCHEMA "name", o) ∈ g' → o = Literal (tool_name_of d) None) →
  1 ≤ count_get (tool_usage (analyze_graph_patterns to_float self)) (tool_name_of d).
Proof.
  intros g' self [paper Hret] Hl Hd Hname Huniq.
  assert (ingestible md) as Hing by by eapply returned_ingestible.
  destruct (emits_tool_statements uuid4 md l d Hing Hl Hd) as (Huse & _ & Hnamed).
  specialize (Huse g). specialize (Hnamed g). fold g' in Huse, Hnamed.
  assert (graph self = g') as Hg.
  { unfold self, load_knowledge_graph. cbn [graph]. apply union_empty_r_L. }
  unfold analyze_graph_patterns.
  destruct (foldl _ (defaultdict_int, defaultdict_int) _) as [ec rc].
  cbn [tool_usage]. rewrite Hg. unfold usage_of.
  destruct (usage_fold g' (SCIENTIFIC "usesTool") (triples g') defaultdict_int
              (tool_name_of d)) as [-> _].
  rewrite decide_False by done. change (count_get defaultdict_int _) with 0.
  cbn [Nat.add].
  apply (filter_length_pos _ _ (paper_uri_of uuid4 md, SCIENTIFIC "usesTool", tool_uri_of d)).
  - by apply elem_of_elements.
  - split; [done|]. by apply get_entity_name_unique.
Qed.

Lemma ingested_tool_is_counted_witness :
  let md :=
    {| title := Some "Graph mining"; abstract := None; doi := None; url := None;
       datePublished := None; author := None; keywords := None;
       methodology := None; tools := Some [ResourceStr "networkx"]; datasets := None;
       results := None; conclusions := None |} in
  let g' := (add_paper_metadata "1b4e28ba" md ∅).1 in
  1 ≤ count_get
        (tool_usage
           (analyze_graph_patterns (λ _, None)
              (load_knowledge_graph g' (GeneratorObj None "gemini-pro" ∅ []))))
        "networkx".
Proof.
  intros md g'.
  refine (ingested_tool_is_counted (λ _, None) None "gemini-pro" "1b4e28ba" md
            [ResourceStr "networkx"] (ResourceStr "networkx") ∅ _ _ _ _ _).
  - exists (URIRef "https://papers.org/Graph_mining"). by vm_compute.
  - reflexivity.
  - apply list_elem_of_here.
  - done.
  - intros o Hin. apply elem_of_objects in Hin.
    assert (objects (add_paper_metadata "1b4e28ba" md ∅).1
              (tool_uri_of (ResourceStr "networkx")) (SCHEMA "name")
            = [Literal "networkx" None]) as E by (by vm_compute).
    rewrite E in Hin. by apply list_elem_of_singleton in Hin.
Defined.

(** ** The answer of a vendor *)

(** X22: with a key, when the vendor that the model name selects answers
    and its answer parses to a JSON array, hypothesis generation returns
    that array, cut to the requested number, as it is: no record is checked
    for the fields that the rule-based path fills in.  The model name goes
    to OpenAI only; the Anthropic and Gemini calls name their own model. *)
Theorem llm_answer_is_returned_as_parsed
    (lower : string → string) (str_slice : Z → string → string)
    (format_nat : nat → string) (format_float : Qc → string)
    (openai_chat anthropic_messages gemini_generate_content :
       string → string → string → result string)
    (json_loads : string → result json)
    (self : generator) (a : analysis) (opps : list opportunity) (n : Z)
    (focus : option string) (text : string) (hs : list hypothesis) :
  let context := prepare_llm_context format_nat format_float a opps focus in
  let key := default "" (api_key self) in
  let name := lower (model self) in
  truthy (api_key self) = true →
  (contains "gpt" name = true ∧ openai_chat key (model self) context = Ok text)
  ∨ (contains "gpt" name = false ∧ contains "claude" name = true
     ∧ anthropic_messages key "claude-3-sonnet-20240229" context = Ok text)
  ∨ (contains "gpt" name = false ∧ contains "claude" name = false
     ∧ contains "gemini" name = true
     ∧ gemini_generate_content key "gemini-pro" context = Ok text) →
  json_loads text = Ok (JArray hs) →
  generate_hypotheses_with_llm lower str_slice format_nat format_float openai_chat
    anthropic_messages gemini_generate_content json_loads self a opps n focus
  = Ok (VList (slice_to n hs)).
Proof.
  intros context key name Hkey Hvendor Hjson.
  unfold generate_hypotheses_with_llm. rewrite Hkey. cbn [negb].
  fold context name.
  destruct Hvendor as [[Hg Hcall]|[(Hg & Hc & Hcall)|(Hg & Hc & Hm & Hcall)]].
  - rewrite Hg. unfold generate_with_openai. fold key. rewrite Hcall.
    unfold loads_and_slice. by rewrite Hjson.
  - rewrite Hg, Hc. unfold generate_with_anthropic. fold key. rewrite Hcall.
    unfold loads_and_slice. by rewrite Hjson.
  - rewrite Hg, Hc, Hm. unfold generate_with_gemini. fold key. rewrite Hcall.
    unfold loads_and_slice. by rewrite Hjson.
Qed.

Lemma llm_answer_is_returned_as_parsed_witness :
  let answer : string → string → string → result string := λ _ _ _, Ok "[{}]" in
  let bare := MkHypothesis None None None None None None None in
  let self := GeneratorObj (Some "sk-test") "gpt-4" ∅ [] in
  let a := analyze_graph_patterns (λ _, None) self in
  generate_hypotheses_with_llm (λ s, s) (λ _ s, s) (λ _, "0") (λ _, "0.0")
    answer answer answer (λ _, Ok (JArray [bare])) self a [] 5 None
  = Ok (VList [bare]).
Proof.
  intros answer bare self a.
  apply (llm_answer_is_returned_as_parsed (λ s, s) (λ _ s, s) (λ _, "0") (λ _, "0.0")
           answer answer answer (λ _, Ok (JArray [bare])) self a [] 5 None "[{}]" [bare]).
  - reflexivity.
  - left. split; reflexivity.
  - reflexivity.
Defined.

(** ** The network of the analyzer *)

Section NetworkFacts.

Implicit Types (G : nx_graph) (u v a b : string).

Lemma nx_add_node_nodes u G a : a ∈ (nx_add_node u G).*1 ↔ a ∈ G.*1 ∨ a = u.
Proof.
  unfold nx_add_node. case_bool_decide as Hu.
  - split; [by left|]. intros [?| ->]; done.
  - rewrite fmap_app, elem_of_app. cbn. rewrite list_elem_of_singleton. done.
Qed.

Lemma nx_add_node_adjacent u G a b : adjacent (nx_add_node u G) a b ↔ adjacent G a b.
Proof.
  unfold nx_add_node, adjacent. case_bool_decide as Hu; [done|].
  split.
  - intros (nbrs & [Hin|Hin]%elem_of_app & Hb); [by exists nbrs|].
    apply list_elem_of_singleton in Hin as [= -> ->]. by apply elem_of_nil in Hb.
  - intros (nbrs & Hin & Hb). exists nbrs. split; [|done].
    apply elem_of_app. by left.
Qed.

Lemma nx_add_nbr_nodes u v G : (nx_add_nbr u v G).*1 = G.*1.
Proof.
  unfold nx_add_nbr. induction G as [|[n nbrs] G IH]; [done|].
  rewrite !fmap_cons, IH. by destruct (decide (n = u)).
Qed.

Lemma nx_add_nbr_adjacent u v G a b :
  u ∈ G.*1 →
  adjacent (nx_add_nbr u v G) a b ↔ adjacent G a b ∨ (a = u ∧ b = v).
Proof.
  intros Hu. unfold adjacent, nx_add_nbr. split.
  - intros (nbrs & Hin & Hb).
    apply list_elem_of_fmap in Hin as ([n nbrs0] & Heq & Hin).
    destruct (decide (n = u)) as [->|Hne]; injection Heq as -> ->.
    + case_bool_decide; [left; by exists nbrs0|].
      apply elem_of_app in Hb as [Hb|Hb%list_elem_of_singleton].
      * left. by exists nbrs0.
      * by right.
    + left. by exists nbrs0.
  - intros [(nbrs & Hin & Hb)|[-> ->]].
    + destruct (decide (a = u)) as [->|Hne].
      * exists (if bool_decide (v ∈ nbrs) then nbrs else nbrs ++ [v]). split.
        -- apply list_elem_of_fmap. exists (u, nbrs). by rewrite decide_True.
        -- case_bool_decide; [done|]. apply elem_of_app. by left.
      * exists nbrs. split; [|done].
        apply list_elem_of_fmap. exists (a, nbrs). by rewrite decide_False.
    + apply list_elem_of_fmap in Hu as ([n nbrs] & -> & Hin). cbn [fst].
      exists (if bool_decide (v ∈ nbrs) then nbrs else nbrs ++ [v]). split.
      * apply list_elem_of_fmap. exists (n, nbrs). by rewrite decide_True.
      * case_bool_decide; [done|]. apply elem_of_app. right. apply list_elem_of_here.
Qed.

Lemma nx_add_edge_nodes u v G a :
  a ∈ (nx_add_edge u v G).*1 ↔ a ∈ G.*1 ∨ a = u ∨ a = v.
Proof.
  unfold nx_add_edge. rewrite !nx_add_nbr_nodes, !nx_add_node_nodes. tauto.
Qed.

Lemma nx_add_edge_adjacent u v G a b :
  adjacent (nx_add_edge u v G) a b
  ↔ adjacent G a b ∨ (a = u ∧ b = v) ∨ (a = v ∧ b = u).
Proof.
  unfold nx_add_edge.
  rewrite nx_add_nbr_adjacent.
  2:{ rewrite nx_add_nbr_nodes. apply nx_add_node_nodes. by right. }
  rewrite nx_add_nbr_adjacent.
  2:{ apply nx_add_node_nodes. left. apply nx_add_node_nodes. by right. }
  rewrite !nx_add_node_adjacent. tauto.
Qed.

Lemma nx_add_node_NoDup u G : NoDup G.*1 → NoDup (nx_add_node u G).*1.
Proof.
  intros HG. unfold nx_add_node. case_bool_decide as Hu; [done|].
  rewrite fmap_app. apply NoDup_app. split_and!; [done| |apply NoDup_singleton].
  intros x Hx ->%list_elem_of_singleton. done.
Qed.

Lemma build_networkx_graph_spec (l : list triple) G :
  let G' :=
    foldl (λ G (t : triple),
             if is_URIRef t.2 then nx_add_edge (str t.1.1) (str t.2) G else G)
          G l in
  (∀ a, a ∈ G'.*1
        ↔ a ∈ G.*1
          ∨ ∃ t, t ∈ l ∧ is_URIRef t.2 = true ∧ (a = str t.1.1 ∨ a = str t.2))
  ∧ (∀ a b, adjacent G' a b
            ↔ adjacent G a b
              ∨ ∃ t, t ∈ l ∧ is_URIRef t.2 = true
                     ∧ ((a = str t.1.1 ∧ b = str t.2) ∨ (a = str t.2 ∧ b = str t.1.1)))
  ∧ (NoDup G.*1 → NoDup G'.*1).
Proof.
  cbn zeta. revert G. induction l as [|t l IH]; intros G; cbn [foldl].
  - split_and!; [| |done].
    + intros a. split; [by left|]. intros [?|(t & ?%elem_of_nil & _)]; done.
    + intros a b. split; [by left|]. intros [?|(t & ?%elem_of_nil & _)]; done.
  - destruct (IH (if is_URIRef t.2 then nx_add_edge (str t.1.1) (str t.2) G else G))
      as (Hn & Ha & Hd). clear IH.
    split_and!.
    + intros a. rewrite Hn. clear Hn Ha Hd.
      destruct (is_URIRef t.2) eqn:E.
      * rewrite nx_add_edge_nodes. split.
        -- intros [[?|Hor]|(t' & Hin & Hu & Hor)]; [by left| |].
           ++ right. exists t. split; [apply list_elem_of_here|done].
           ++ right. exists t'. split; [by apply list_elem_of_further|done].
        -- intros [?|(t' & [->|Hin]%elem_of_cons & Hu & Hor)]; [left; by left| |].
           ++ left. by right.
           ++ right. by exists t'.
      * split.
        -- intros [?|(t' & Hin & Hu & Hor)]; [by left|].
           right. exists t'. split; [by apply list_elem_of_further|done].
        -- intros [?|(t' & [->|Hin]%elem_of_cons & Hu & Hor)]; [by left| |].
           ++ congruence.
           ++ right. by exists t'.
    + intros a b. rewrite Ha. clear Hn Ha Hd.
      destruct (is_URIRef t.2) eqn:E.
      * rewrite nx_add_edge_adjacent. split.
        -- intros [[?|Hor]|(t' & Hin & Hu & Hor)]; [by left| |].
           ++ right. exists t. split; [apply list_elem_of_here|done].
           ++ right. exists t'. split; [by apply list_elem_of_further|done].
        -- intros [?|(t' & [->|Hin]%elem_of_cons & Hu & Hor)]; [left; by left| |].
           ++ left. by right.
           ++ right. by exists t'.
      * split.
        -- intros [?|(t' & Hin & Hu & Hor)]; [by left|].
           right. exists t'. split; [by apply list_elem_of_further|done].
        -- intros [?|(t' & [->|Hin]%elem_of_cons & Hu & Hor)]; [by left| |].
           ++ congruence.
           ++ right. by exists t'.
    + intros HG. apply Hd. destruct (is_URIRef t.2); [|done].
      unfold nx_add_edge. rewrite !nx_add_nbr_nodes.
      by apply nx_add_node_NoDup, nx_add_node_NoDup.
Qed.

End NetworkFacts.

(** X23: the network that [load_knowledge_graph] builds for a new
    generator has one node for every subject and object of a statement
    whose object is a URI, and no other node; two nodes are joined, in both
    directions, exactly when such a statement relates them; a statement
    with a literal object adds nothing. *)
Theorem load_knowledge_graph_network
    (key : option string) (m : string) (parsed : gset triple) :
  let self := load_knowledge_graph parsed (GeneratorObj key m ∅ []) in
  let related a b :=
    ∃ s p o, (s, p, o) ∈ parsed ∧ is_URIRef o = true ∧ a = str s ∧ b = str o in
  graph self = parsed
  ∧ NoDup (nx self).*1
  ∧ (∀ a, a ∈ (nx self).*1 ↔ ∃ b, related a b ∨ related b a)
  ∧ (∀ a b, adjacent (nx self) a b ↔ related a b ∨ related b a).
Proof.
  intros self related.
  assert (graph self = parsed) as Hg.
  { unfold self, load_knowledge_graph. cbn [graph]. apply union_empty_r_L. }
  assert (nx self = build_networkx_graph parsed []) as Hnx.
  { unfold self, load_knowledge_graph. cbn [graph nx]. by rewrite union_empty_r_L. }
  rewrite Hnx. unfold build_networkx_graph.
  destruct (build_networkx_graph_spec (triples parsed) []) as (Hn & Ha & Hd).
  split_and!; [done|by apply Hd, NoDup_nil_2| |].
  - intros a. rewrite Hn. split.
    + intros [?%elem_of_nil|([[s p] o] & Hin%elem_of_elements & Hu & [->| ->])]; [done| |].
      * exists (str o). left. by exists s, p, o.
      * exists (str s). right. by exists s, p, o.
    + intros (b & [(s & p & o & Hin & Hu & -> & ->)|(s & p & o & Hin & Hu & -> & ->)]);
        right; exists (s, p, o); (split; [by apply elem_of_elements|]); split; auto.
  - intros a b. rewrite Ha. split.
    + intros [(nbrs & ?%elem_of_nil & _)|([[s p] o] & Hin%elem_of_elements & Hu & Hor)];
        [done|].
      destruct Hor as [[-> ->]|[-> ->]]; [left|right]; by exists s, p, o.
    + intros [(s & p & o & Hin & Hu & -> & ->)|(s & p & o & Hin & Hu & -> & ->)];
        right; exists (s, p, o); (split; [by apply elem_of_elements|]); split; auto.
Qed.

(** ** Ingestion in another order, and again *)

Section OrderFacts.

Lemma framed_commute {A B} (m1 : M A) (m2 : M B) (g : gset triple) :
  framed m1 → framed m2 → (m2 (m1 g).1).1 = (m1 (m2 g).1).1.
Proof.
  intros H1 H2. rewrite (H1 g), (H2 g). cbn [fst].
  rewrite (H1 (_ ∪ g)), (H2 (_ ∪ g)). cbn [fst].
  rewrite !(assoc_L (∪)). f_equal. apply (comm_L (∪)).
Qed.

End OrderFacts.

(** X24: the store does not depend on the order in which two papers are
    ingested, whether the calls return or raise, nor on the order of a
    paper and an author, a tool or a dataset added on their own; and an
    author, a tool or a dataset added a second time changes nothing. *)
Theorem ingestion_order_is_irrelevant
    (u1 u2 : string) (md1 md2 : metadata) (a : author_data) (d : resource_data)
    (g : gset triple) :
  (add_paper_metadata u2 md2 (add_paper_metadata u1 md1 g).1).1
  = (add_paper_metadata u1 md1 (add_paper_metadata u2 md2 g).1).1
  ∧ (add_author a (add_paper_metadata u1 md1 g).1).1
    = (add_paper_metadata u1 md1 (add_author a g).1).1
  ∧ (add_tool d (add_paper_metadata u1 md1 g).1).1
    = (add_paper_metadata u1 md1 (add_tool d g).1).1
  ∧ (add_dataset d (add_paper_metadata u1 md1 g).1).1
    = (add_paper_metadata u1 md1 (add_dataset d g).1).1
  ∧ add_author a (add_author a g).1 = add_author a g
  ∧ add_tool d (add_tool d g).1 = add_tool d g
  ∧ add_dataset d (add_dataset d g).1 = add_dataset d g.
Proof.
  split_and!.
  - apply framed_commute; apply framed_add_paper_metadata.
  - apply framed_commute; [apply framed_add_paper_metadata|apply framed_add_author].
  - apply framed_commute; [apply framed_add_paper_metadata|apply framed_add_tool].
  - apply framed_commute; [apply framed_add_paper_metadata|apply framed_add_dataset].
  - apply framed_twice, framed_add_author.
  - apply framed_twice, framed_add_tool.
  - apply framed_twice, framed_add_dataset.
Qed.

(** ** Tools used together *)

Section CombinedFacts.

Lemma combined_usage_sets (g : gset triple) (A B : string) (paper : term) :
  let r := foldl (combined_usage_step g A B) (∅, ∅) (triples g) in
  (paper ∈ r.1 ↔ paper_uses g paper A)
  ∧ (paper ∈ r.2 ↔ A ≠ B ∧ paper_uses g paper B).
Proof.
  cbn zeta.
  destruct (combined_usage_fold g A B (triples g) ∅ ∅ paper) as [H1 H2].
  cbn zeta in H1, H2. rewrite H1, H2, !Exists_exists. clear H1 H2.
  unfold paper_uses, triples. split; split.
  - intros [?%elem_of_empty|([[s p] o] & Hin%elem_of_elements & Hs & Hp & Hn)];
      [done|]. cbn in *. subst. by exists o.
  - intros (o & Hin & Hn). right. exists (paper, SCIENTIFIC "usesTool", o).
    by rewrite elem_of_elements.
  - intros [?%elem_of_empty|([[s p] o] & Hin%elem_of_elements & Hs & Hp & Hne & Hn)];
      [done|]. cbn in *. subst. split; [|by exists o].
    intros ->. by rewrite Hn in Hne.
  - intros (HAB & o & Hin & Hn). right. exists (paper, SCIENTIFIC "usesTool", o).
    rewrite elem_of_elements. split_and!; [done..| |done].
    cbn. rewrite Hn. by intros [= ->].
Qed.

End CombinedFacts.

(** X25: [_count_combined_tool_usage] gives the same number for two tools
    in either order, a number that is positive exactly when some paper
    uses both; but a tool is never counted as used together with itself:
    for twice the same name the number is 0, however many papers use the
    tool. *)
Theorem count_combined_tool_usage_pairs (g : gset triple) (A B : string) :
  count_combined_tool_usage g A B = count_combined_tool_usage g B A
  ∧ (0 < count_combined_tool_usage g A B
     ↔ A ≠ B ∧ ∃ paper, paper_uses g paper A ∧ paper_uses g paper B)
  ∧ count_combined_tool_usage g A A = 0.
Proof.
  assert (∀ X Y paper,
            let r := foldl (combined_usage_step g X Y) (∅, ∅) (triples g) in
            paper ∈ r.1 ∩ r.2
            ↔ X ≠ Y ∧ paper_uses g paper X ∧ paper_uses g paper Y) as Hboth.
  { intros X Y paper r. rewrite elem_of_intersection.
    destruct (combined_usage_sets g X Y paper) as [H1 H2]. cbn zeta in H1, H2.
    unfold r. rewrite H1, H2. tauto. }
  assert (∀ X Y, count_combined_tool_usage g X Y
                 = size ((foldl (combined_usage_step g X Y) (∅, ∅) (triples g)).1
                         ∩ (foldl (combined_usage_step g X Y) (∅, ∅) (triples g)).2))
    as Hcount.
  { intros X Y. unfold count_combined_tool_usage. by destruct (foldl _ _ _). }
  split_and!.
  - rewrite !Hcount. f_equal. apply set_eq. intros paper.
    rewrite (Hboth A B paper), (Hboth B A paper). split; intros (? & ? & ?); done.
  - rewrite Hcount. split.
    + intros Hpos.
      destruct (set_choose_L
                  ((foldl (combined_usage_step g A B) (∅, ∅) (triples g)).1
                   ∩ (foldl (combined_usage_step g A B) (∅, ∅) (triples g)).2))
        as [paper Hin].
      { intros E. rewrite E, size_empty in Hpos. lia. }
      apply Hboth in Hin as (? & ? & ?). split; [done|]. by exists paper.
    + intros (HAB & paper & HA & HB).
      assert (paper ∈ (foldl (combined_usage_step g A B) (∅, ∅) (triples g)).1
                      ∩ (foldl (combined_usage_step g A B) (∅, ∅) (triples g)).2)
        as Hin by by apply Hboth.
      destruct (decide (size ((foldl (combined_usage_step g A B) (∅, ∅) (triples g)).1
                   ∩ (foldl (combined_usage_step g A B) (∅, ∅) (triples g)).2) = 0))
        as [E|E]; [|lia].
      apply size_empty_inv in E. apply E in Hin. by apply elem_of_empty in Hin.
  - rewrite Hcount. apply size_empty_iff, elem_of_equiv_empty. intros paper Hin.
    apply Hboth in Hin as (HAA & _). done.
Qed.
